(** * TradingAgents RL decision engine: a shallow embedding

    The development follows the Python sources under [tradingagents/rl]:
    [rl_agent.py] (ReplayBuffer, RLTradingAgent), [rl_reward.py]
    (RewardCalculator), [rl_state_encoder.py] (StateEncoder) and
    [rl_environment.py] (TradingEnvironment).

    Conventions.
    - Python [int] is [Z]; lengths are [nat].
    - Python [float] is idealised as an exact rational [Q]; equalities between
      computed floats are stated with [==].  Rounding is not modelled; the
      concrete values of the scenarios are checked in binary64 at the end.
    - A method that mutates [self] is a function from the object to the
      mutated object paired with its outcome; an outcome is a value or a
      raised exception.  The mutated object is returned also when the method
      raises, since Python keeps the mutations made before the raise.
    - Python [str] is [string], read as ASCII text. *)

From Stdlib Require Import QArith Qabs Qminmax Ascii PrimFloat.
From stdpp Require Import base option list strings gmap.

Set Default Proof Using "Type".
Open Scope Z_scope.

(** ** Python outcomes *)

Inductive exn : Type :=
  | TypeError
  | AttributeError
  | IndexError
  | KeyError
  | ValueError
  | ZeroDivisionError
  | RuntimeError
  | FileNotFoundError.

Inductive result (A : Type) : Type :=
  | Ok (a : A)
  | Raise (e : exn).
Arguments Ok {A} a.
Arguments Raise {A} e.

Definition bind {A B} (r : result A) (k : A -> result B) : result B :=
  match r with
  | Ok a => k a
  | Raise e => Raise e
  end.

Notation "x <- r ;; k" := (bind r (fun x => k))
  (at level 100, r at next level, right associativity, only parsing).

(** ** collections.deque with a [maxlen], and the ReplayBuffer built on it *)

Module Deque.
Section Deque.
Context {A : Type}.

(** [deque.append] under a bound [maxlen]: the item is added on the right
    and, when the bound is then exceeded, one item is dropped on the left. *)
Definition append (maxlen : nat) (d : list A) (x : A) : list A :=
  let d' := d ++ [x] in
  if (maxlen <? length d')%nat then tail d' else d'.

End Deque.
End Deque.

(** A stored experience: [(state, action, reward, next_state, done)]. *)
Definition transition : Type := (list Q * Z * Q * list Q * bool)%type.

Record ReplayBuffer := mkReplayBuffer {
  rb_maxlen : nat;
  rb_buffer : list transition;
}.

(** The module-level random generator of Python's [random], as an interface:
    [random_sample g population k] is [random.sample(population, k)] for a
    [k] within [0 .. len(population)], with the generator state threaded. *)
Class Random := {
  rng : Type;
  random_sample : rng -> list transition -> nat -> list transition * rng;
}.

(** The five parallel sequences returned by [ReplayBuffer.sample]. *)
Record batch := mkBatch {
  b_states : list (list Q);
  b_actions : list Z;
  b_rewards : list Q;
  b_next_states : list (list Q);
  b_dones : list bool;
}.

Module ReplayBuffer.

(** [ReplayBuffer.__init__]: [deque(maxlen=capacity)] refuses a negative
    bound with ValueError. *)
Definition init (capacity : Z) : result ReplayBuffer :=
  if capacity <? 0 then Raise ValueError
  else Ok {| rb_maxlen := Z.to_nat capacity; rb_buffer := [] |}.

(** The empty buffer of a capacity given as a natural number. *)
Definition new (capacity : nat) : ReplayBuffer :=
  {| rb_maxlen := capacity; rb_buffer := [] |}.

Definition push (rb : ReplayBuffer) (t : transition) : ReplayBuffer :=
  {| rb_maxlen := rb_maxlen rb;
     rb_buffer := Deque.append (rb_maxlen rb) (rb_buffer rb) t |}.

Definition len (rb : ReplayBuffer) : nat := length (rb_buffer rb).

(** A run of pushes, oldest first. *)
Definition push_all (rb : ReplayBuffer) (ts : list transition) : ReplayBuffer :=
  foldl push rb ts.

(** The transposition of the drawn transitions into five columns (the
    [zip] of [sample]), each then made an array. *)
Definition unzip5 (ts : list transition) : batch :=
  {| b_states := map (fun '(s, _, _, _, _) => s) ts;
     b_actions := map (fun '(_, a, _, _, _) => a) ts;
     b_rewards := map (fun '(_, _, r, _, _) => r) ts;
     b_next_states := map (fun '(_, _, _, s', _) => s') ts;
     b_dones := map (fun '(_, _, _, _, d) => d) ts |}.

(** [ReplayBuffer.sample]: [random.sample] raises ValueError unless
    [0 <= batch_size <= len(buffer)], before drawing anything; unpacking the
    five columns of an empty batch raises ValueError as well. *)
Definition sample `{Random} (rb : ReplayBuffer) (batch_size : Z) (g : rng)
  : rng * result batch :=
  if (batch_size <? 0) || (Z.of_nat (len rb) <? batch_size) then (g, Raise ValueError)
  else
    let '(drawn, g') := random_sample g (rb_buffer rb) (Z.to_nat batch_size) in
    match drawn with
    | [] => (g', Raise ValueError)
    | _ :: _ => (g', Ok (unzip5 drawn))
    end.

End ReplayBuffer.

(** ** Python values, strings and the regular expressions of the encoder *)

(** The values a report mapping, an info dictionary or a statistics
    dictionary holds. *)
Inductive pyval : Type :=
  | PNone
  | PStr (s : string)
  | PInt (z : Z)
  | PFloat (q : Q).

(** [v == s] for a string literal [s]. *)
Definition py_eq_str (v : pyval) (s : string) : bool :=
  match v with
  | PStr t => bool_decide (t = s)
  | _ => false
  end.

Module Str.

Definition lower_ascii (c : ascii) : ascii :=
  let n := nat_of_ascii c in
  if ((65 <=? n) && (n <=? 90))%nat then ascii_of_nat (n + 32) else c.

(** [s.lower()] *)
Fixpoint lower (s : string) : string :=
  match s with
  | EmptyString => EmptyString
  | String c s' => String (lower_ascii c) (lower s')
  end.

(** [sub in s] *)
Fixpoint contains (sub s : string) : bool :=
  if String.prefix sub s then true
  else match s with
       | EmptyString => false
       | String _ s' => contains sub s'
       end.

(** [s.count(sub)] for a non-empty [sub]: occurrences counted left to right
    without overlap; [skip] characters of the last occurrence remain. *)
Fixpoint count_from (sub s : string) (skip : nat) : nat :=
  match s with
  | EmptyString => 0
  | String _ s' =>
      match skip with
      | S k => count_from sub s' k
      | O => if String.prefix sub s
             then S (count_from sub s' (String.length sub - 1))
             else count_from sub s' 0
      end
  end.

Definition count (s sub : string) : nat := count_from sub s 0.

(** [s.replace(old, new)] for a non-empty [old]: the occurrences are
    replaced left to right without overlap; [skip] characters of the last
    occurrence remain. *)
Fixpoint replace_from (old new s : string) (skip : nat) : string :=
  match s with
  | EmptyString => EmptyString
  | String c s' =>
      match skip with
      | S k => replace_from old new s' k
      | O => if String.prefix old s
             then new +:+ replace_from old new s' (String.length old - 1)
             else String c (replace_from old new s' 0)
      end
  end.

Definition replace (s old new : string) : string := replace_from old new s 0.

(** [report.lower()]: only a string has the method. *)
Definition py_lower (v : pyval) : result string :=
  match v with
  | PStr s => Ok (lower s)
  | _ => Raise AttributeError
  end.

End Str.

(** The regular expressions of the encoder all have one shape: a literal
    head (characters, and bracket classes such as [[- ]]), then one or more
    characters of the class [[:\s]], then the only group: an optional minus
    sign in some patterns, one or more digits, an optional point and again
    digits. They are matched with [re.IGNORECASE]. No later part of such a
    pattern can fail once an earlier part has taken all it can, so greedy
    matching never backtracks and [re.search] is the leftmost position where
    the parts match in turn. *)
Module Re.

Inductive atom : Type :=
  | Lit (c : ascii)
  | Class (cs : list ascii).

Record pattern := mkPattern {
  head : list atom;
  signed : bool;
}.

(** Group 1 of a match: the sign, the digits before and after the point. *)
Record group := mkGroup {
  g_neg : bool;
  g_int : list ascii;
  g_frac : list ascii;
}.

Definition lit (s : string) : list atom := map Lit (String.list_ascii_of_string s).

Definition is_digit (c : ascii) : bool :=
  let n := nat_of_ascii c in ((48 <=? n) && (n <=? 57))%nat.

(** [\s] on ASCII text: tab to carriage return, the four separators
    0x1c to 0x1f, and the space. *)
Definition is_space (c : ascii) : bool :=
  let n := nat_of_ascii c in
  (((9 <=? n) && (n <=? 13)) || ((28 <=? n) && (n <=? 31)) || (n =? 32))%nat.

(** [[:\s]] *)
Definition is_sep (c : ascii) : bool := Ascii.eqb c ":" || is_space c.

Definition atom_matches (a : atom) (c : ascii) : bool :=
  match a with
  | Lit l => Ascii.eqb (Str.lower_ascii l) (Str.lower_ascii c)
  | Class cs => existsb (fun x => Ascii.eqb (Str.lower_ascii x) (Str.lower_ascii c)) cs
  end.

Fixpoint match_head (h : list atom) (s : list ascii) : option (list ascii) :=
  match h, s with
  | [], _ => Some s
  | a :: h', c :: s' => if atom_matches a c then match_head h' s' else None
  | _ :: _, [] => None
  end.

(** The longest run of characters satisfying [f] at the start of [s], and
    what follows it. *)
Fixpoint span (f : ascii -> bool) (s : list ascii) : list ascii * list ascii :=
  match s with
  | c :: s' => if f c then let '(run, rest) := span f s' in (c :: run, rest)
               else ([], s)
  | [] => ([], [])
  end.

Definition match_here (p : pattern) (s : list ascii) : option group :=
  match match_head (head p) s with
  | None => None
  | Some r0 =>
      let '(seps, r1) := span is_sep r0 in
      match seps with
      | [] => None
      | _ :: _ =>
          let '(neg, r2) :=
            match r1 with
            | c :: r => if signed p && Ascii.eqb c "-" then (true, r) else (false, r1)
            | [] => (false, r1)
            end in
          let '(ds, r3) := span is_digit r2 in
          match ds with
          | [] => None
          | _ :: _ =>
              let r4 := match r3 with
                        | c :: r => if Ascii.eqb c "." then r else r3
                        | [] => r3
                        end in
              let '(fs, _) := span is_digit r4 in
              Some {| g_neg := neg; g_int := ds; g_frac := fs |}
          end
      end
  end.

Fixpoint search_from (p : pattern) (s : list ascii) : option group :=
  match match_here p s with
  | Some g => Some g
  | None => match s with
            | [] => None
            | _ :: s' => search_from p s'
            end
  end.

(** [re.search(pattern, report, re.IGNORECASE)]: TypeError unless [report]
    is a string. *)
Definition search (p : pattern) (report : pyval) : result (option group) :=
  match report with
  | PStr s => Ok (search_from p (String.list_ascii_of_string s))
  | _ => Raise TypeError
  end.

Definition digit_val (c : ascii) : Z := Z.of_nat (nat_of_ascii c - 48).

Definition digits_val (ds : list ascii) : Z :=
  foldl (fun acc c => 10 * acc + digit_val c) 0 ds.

(** [float(match.group(1))]: the decimal value of the group. *)
Definition float (g : group) : Q :=
  let m := Qmake (digits_val (g_int g ++ g_frac g))
                 (Z.to_pos (10 ^ Z.of_nat (length (g_frac g)))) in
  if g_neg g then Qopp m else m.

End Re.

(** All of a list of computations, stopping at the first that raises. *)
Fixpoint traverse {A B} (f : A -> result B) (l : list A) : result (list B) :=
  match l with
  | [] => Ok []
  | x :: l' => y <- f x ;; ys <- traverse f l' ;; Ok (y :: ys)
  end.

(** [l[i]] on a Python list: a negative index counts from the end. *)
Definition py_index {A} (l : list A) (i : Z) : result A :=
  let n := Z.of_nat (length l) in
  let j := if i <? 0 then i + n else i in
  if (j <? 0) || (n <=? j) then Raise IndexError
  else match l !! Z.to_nat j with
       | Some x => Ok x
       | None => Raise IndexError
       end.

(** [d.get(key, default)] and [d[key]] on a dictionary with string keys. *)
Definition dict_get {V} (d : gmap string V) (key : string) (default : V) : V :=
  match d !! key with
  | Some v => v
  | None => default
  end.

Definition dict_item {V} (d : gmap string V) (key : string) : result V :=
  match d !! key with
  | Some v => Ok v
  | None => Raise KeyError
  end.

(** ** StateEncoder (rl_state_encoder.py) *)

Module StateEncoder.

Definition sep_head (n word : string) : list Re.atom :=
  Re.lit n ++ [Re.Class ["-"; " "]%char] ++ Re.lit word.

(** The [indicators] dictionary of [_extract_technical_features], in its
    insertion order. *)
Definition indicators : list (string * Re.pattern) :=
  [ ("rsi", Re.mkPattern (Re.lit "RSI") false);
    ("macd", Re.mkPattern (Re.lit "MACD") true);
    ("sma_50", Re.mkPattern (sep_head "50" "SMA") false);
    ("sma_200", Re.mkPattern (sep_head "200" "SMA") false);
    ("ema_10", Re.mkPattern (sep_head "10" "EMA") false);
    ("volume", Re.mkPattern (Re.lit "volume") false);
    ("volatility", Re.mkPattern (Re.lit "volatility") false);
    ("atr", Re.mkPattern (Re.lit "ATR") false) ].

Definition metrics : list (string * Re.pattern) :=
  [ ("pe_ratio", Re.mkPattern (Re.lit "P/E") false);
    ("eps", Re.mkPattern (Re.lit "EPS") false);
    ("revenue", Re.mkPattern (Re.lit "revenue") false);
    ("profit_margin", Re.mkPattern (Re.lit "profit margin") false);
    ("debt_ratio", Re.mkPattern (Re.lit "debt") false);
    ("roe", Re.mkPattern (Re.lit "ROE") false) ].

Definition greeks : list (string * Re.pattern) :=
  [ ("delta", Re.mkPattern (Re.lit "Delta") true);
    ("gamma", Re.mkPattern (Re.lit "Gamma") false);
    ("theta", Re.mkPattern (Re.lit "Theta") true);
    ("vega", Re.mkPattern (Re.lit "Vega") false);
    ("rho", Re.mkPattern (Re.lit "Rho") true) ].

(** The implied-volatility pattern ends in an optional percent sign, which
    changes neither whether it matches nor its group. *)
Definition iv_pattern : Re.pattern := Re.mkPattern (Re.lit "IV") false.
Definition pc_pattern : Re.pattern := Re.mkPattern (Re.lit "Put/Call") false.

Definition strategy_encoding : list (string * Q) :=
  [ ("call", 0.1); ("put", 0.2); ("spread", 0.3); ("straddle", 0.4);
    ("strangle", 0.5); ("iron_condor", 0.6); ("covered_call", 0.7) ]%Q.

Definition _extract_technical_features (report : pyval) : result (list Q) :=
  features <-
    traverse (fun '(name, pattern) =>
      m <- Re.search pattern report ;;
      Ok (match m with
          | Some g =>
              let value := Re.float g in
              if bool_decide (name = "rsi") then (value / 100)%Q else value
          | None => 0%Q
          end)) indicators ;;
  low <- Str.py_lower report ;;
  Ok (features ++
      [ if Str.contains "bullish" low then 1%Q
        else if Str.contains "bearish" low then (-1)%Q
        else 0%Q ]).

Definition _extract_fundamental_features (report : pyval) : result (list Q) :=
  traverse (fun '(name, pattern) =>
    m <- Re.search pattern report ;;
    Ok (match m with
        | Some g => Re.float g
        | None => 0%Q
        end)) metrics.

Definition _extract_news_features (report : pyval) : result (list Q) :=
  low <- Str.py_lower report ;;
  let sentiment :=
    if Str.contains "positive" low then 0.5%Q
    else if Str.contains "very positive" low || Str.contains "bullish" low then 1%Q
    else if Str.contains "negative" low then (-0.5)%Q
    else if Str.contains "very negative" low || Str.contains "bearish" low then (-1)%Q
    else 0%Q in
  let news_count := (Str.count low "news" + Str.count low "article")%nat in
  let volume := Qmin (inject_Z (Z.of_nat news_count) / 10) 1 in
  let impact :=
    if Str.contains "significant" low || Str.contains "major" low then 1%Q
    else if Str.contains "minor" low || Str.contains "small" low then 0.3%Q
    else 0.5%Q in
  Ok [sentiment; volume; impact].

Definition _extract_sentiment_features (report : pyval) : result (list Q) :=
  low <- Str.py_lower report ;;
  let overall :=
    if Str.contains "bullish" low then 0.7%Q
    else if Str.contains "bearish" low then (-0.7)%Q
    else 0%Q in
  let strength :=
    if Str.contains "strong" low then 1%Q
    else if Str.contains "weak" low then 0.3%Q
    else 0.5%Q in
  Ok [overall; strength].

(** The first strategy name, in dictionary order, found in the report. *)
Fixpoint strategy_value (encoding : list (string * Q)) (low : string) : Q :=
  match encoding with
  | [] => 0%Q
  | (strategy, value) :: rest =>
      if Str.contains strategy low then value else strategy_value rest low
  end.

Definition _extract_options_features (report : pyval) : result (list Q) :=
  features <-
    traverse (fun '(name, pattern) =>
      m <- Re.search pattern report ;;
      Ok (match m with
          | Some g => Re.float g
          | None => 0%Q
          end)) greeks ;;
  iv_match <- Re.search iv_pattern report ;;
  let iv := match iv_match with
            | Some g => (Re.float g / 100)%Q
            | None => 0%Q
            end in
  pc_match <- Re.search pc_pattern report ;;
  let pc := match pc_match with
            | Some g => Re.float g
            | None => 1%Q
            end in
  low <- Str.py_lower report ;;
  Ok (features ++ [iv; pc; strategy_value strategy_encoding low]).

(** [self.feature_extractors], in insertion order. *)
Definition feature_extractors : list (string * (pyval -> result (list Q))) :=
  [ ("technical", _extract_technical_features);
    ("fundamental", _extract_fundamental_features);
    ("news", _extract_news_features);
    ("sentiment", _extract_sentiment_features);
    ("options", _extract_options_features) ].

Definition report_key (report_type : string) : string :=
  if bool_decide (report_type = "technical") then "market_report"
  else if bool_decide (report_type = "fundamental") then "fundamentals_report"
  else report_type +:+ "_report".

(** The loop of [encode] over the extractors, [features] being extended in
    place. *)
Fixpoint extract_all (extractors : list (string * (pyval -> result (list Q))))
  (agent_state : gmap string pyval) (features : list Q) : result (list Q) :=
  match extractors with
  | [] => Ok features
  | (report_type, extractor) :: rest =>
      let report := dict_get agent_state (report_key report_type) (PStr "") in
      extracted <- extractor report ;;
      extract_all rest agent_state (features ++ extracted)
  end.

(** The concatenated groups followed by the mode flag, before the result
    is brought to [state_dim]. *)
Definition raw_features (agent_state : gmap string pyval) : result (list Q) :=
  features <- extract_all feature_extractors agent_state [] ;;
  let trading_mode := dict_get agent_state "trading_mode" (PStr "stock") in
  Ok (features ++ [if py_eq_str trading_mode "options" then 1%Q else 0%Q]).

(** [np.pad(features, (0, n))] and [features[:n]] *)
Definition pad_or_truncate (state_dim : nat) (features : list Q) : list Q :=
  if (length features <? state_dim)%nat
  then features ++ replicate (state_dim - length features) 0%Q
  else if (state_dim <? length features)%nat
  then take state_dim features
  else features.

Definition encode (state_dim : nat) (agent_state : gmap string pyval)
  : result (list Q) :=
  features <- raw_features agent_state ;;
  Ok (pad_or_truncate state_dim features).

Definition decode_action (action : Z) (num_actions : Z) : result string :=
  if num_actions =? 3 then py_index ["BUY"; "HOLD"; "SELL"] action
  else if num_actions =? 5
  then py_index ["STRONG_BUY"; "BUY"; "HOLD"; "SELL"; "STRONG_SELL"] action
  else Ok "HOLD".

(** [get_feature_names]: the names of the features, group by group, and of
    the mode flag. *)
Definition get_feature_names : list string :=
  [ "rsi"; "macd"; "sma_50"; "sma_200"; "ema_10"; "volume"; "volatility";
    "atr"; "trend" ]
  ++ [ "pe_ratio"; "eps"; "revenue"; "profit_margin"; "debt_ratio"; "roe" ]
  ++ [ "news_sentiment"; "news_volume"; "news_impact" ]
  ++ [ "social_sentiment"; "sentiment_strength" ]
  ++ [ "delta"; "gamma"; "theta"; "vega"; "rho"; "implied_volatility";
       "put_call_ratio"; "strategy_type" ]
  ++ [ "is_options_mode" ].

End StateEncoder.

(** ** Float arithmetic as used by the reward and the environment *)

Definition Qltb (a b : Q) : bool := negb (Qle_bool b a).

(** [a / b] on Python floats raises when the divisor is zero. *)
Definition py_div (a b : Q) : result Q :=
  if Qeq_bool b 0 then Raise ZeroDivisionError else Ok (a / b)%Q.

Definition Qsum (xs : list Q) : Q := foldr Qplus 0%Q xs.

(** [np.mean] of a non-empty array. *)
Definition np_mean (xs : list Q) : Q :=
  (Qsum xs / inject_Z (Z.of_nat (length xs)))%Q.

(** The square root of numpy, which has no rational model, as an interface. *)
Class Numpy := {
  np_sqrt : Q -> Q;
}.

(** [np.std]: the root of the mean squared deviation from the mean. *)
Definition np_std `{Numpy} (xs : list Q) : Q :=
  let m := np_mean xs in
  np_sqrt (np_mean (map (fun x => Qabs (x - m) * Qabs (x - m))%Q xs)).

(** The truth value of a dictionary: false exactly when it is empty. *)
Definition dict_truthy {V} (d : gmap string V) : bool :=
  negb (bool_decide (size d = 0%nat)).

(** ** RewardCalculator (rl_reward.py) *)

Record RewardCalculator := mkRewardCalculator {
  profit_reward : Q;
  loss_penalty : Q;
  transaction_cost : Q;
  risk_penalty_weight : Q;
}.

Module RewardCalculator.

(** [RewardCalculator()] with the default arguments of [__init__]. *)
Definition default : RewardCalculator :=
  {| profit_reward := 1; loss_penalty := -1;
     transaction_cost := 0.01; risk_penalty_weight := 0.1 |}%Q.

Definition calculate_reward (self : RewardCalculator) (action : string)
  (entry_price exit_price position_size : Q) (volatility : option Q) : result Q :=
  if bool_decide (action = "HOLD") then Ok 0%Q
  else
    let pnl_of :=
      if bool_decide (action = "BUY")
      then Some (py_div (exit_price - entry_price) entry_price)
      else if bool_decide (action = "SELL")
      then Some (py_div (entry_price - exit_price) entry_price)
      else None in
    match pnl_of with
    | None => Ok 0%Q
    | Some computed =>
        pnl <- computed ;;
        let reward := if Qltb 0 pnl then profit_reward self else loss_penalty self in
        let reward := (reward * (Qabs pnl * 10))%Q in
        let reward := (reward - transaction_cost self)%Q in
        let reward :=
          match volatility with
          | Some v => (reward - v * risk_penalty_weight self)%Q
          | None => reward
          end in
        Ok reward
    end.

Definition calculate_options_reward (self : RewardCalculator)
  (action strategy : string) (premium pnl max_loss : Q)
  (greeks : option (gmap string Q)) : result Q :=
  let reward := if Qltb 0 pnl then profit_reward self else loss_penalty self in
  reward <-
    (if Qltb 0 premium
     then scale <- py_div (Qabs pnl) premium ;; Ok (reward * scale)%Q
     else Ok reward) ;;
  reward <-
    (if Qltb 0 max_loss
     then risk_ratio <- py_div (Qabs pnl) max_loss ;; Ok (reward * (1 + risk_ratio))%Q
     else Ok reward) ;;
  let reward :=
    match greeks with
    | Some g =>
        if dict_truthy g then
          let reward :=
            match g !! "theta" with
            | Some theta =>
                if Qltb theta 0 then (reward - Qabs theta * 0.1)%Q else reward
            | None => reward
            end in
          match g !! "gamma" with
          | Some gamma => (reward - Qabs gamma * 0.05)%Q
          | None => reward
          end
        else reward
    | None => reward
    end in
  Ok (reward - transaction_cost self)%Q.

(** numpy division does not raise; the zero deviation is guarded anyway. *)
Definition calculate_sharpe_ratio_reward `{Numpy} (returns : list Q)
  (risk_free_rate : Q) : Q :=
  if (length returns =? 0)%nat then 0%Q
  else
    let mean_return := np_mean returns in
    let std_return := np_std returns in
    if Qeq_bool std_return 0 then 0%Q
    else ((mean_return - risk_free_rate) / std_return)%Q.

Definition calculate_profit_probability_reward (self : RewardCalculator)
  (current_price target_price stop_loss probability_up : Q) : result Q :=
  potential_profit <- py_div (target_price - current_price) current_price ;;
  potential_loss <- py_div (current_price - stop_loss) current_price ;;
  let expected_profit := (potential_profit * probability_up)%Q in
  let expected_loss := (potential_loss * (1 - probability_up))%Q in
  let expected_value := (expected_profit - expected_loss)%Q in
  Ok (if Qltb 0 expected_value
      then (profit_reward self * expected_value * 10)%Q
      else (loss_penalty self * Qabs expected_value * 10)%Q).

(** [wins] and [losses] are integers, the averages floats; the quotient of
    the two integers is a true division by a non-zero total. *)
Definition calculate_win_rate_reward (self : RewardCalculator)
  (wins losses : Z) (avg_win avg_loss : Q) : result Q :=
  let total_trades := wins + losses in
  if total_trades =? 0 then Ok 0%Q
  else
    let win_rate := (inject_Z wins / inject_Z total_trades)%Q in
    profit_factor <-
      (if negb (Qeq_bool avg_loss 0)
       then py_div (inject_Z wins * avg_win) (inject_Z losses * Qabs avg_loss)
       else Ok (inject_Z wins * avg_win)%Q) ;;
    Ok ((win_rate - 0.5) * 2 + (profit_factor - 1))%Q.

End RewardCalculator.

(** ** TradingEnvironment (rl_environment.py) *)

(** A record of [trade_history]: the dictionary appended by [step] or the
    one appended by [step_options]. *)
Inductive trade : Type :=
  | StockTrade (entry exit pnl reward : Q)
  | OptionsTrade (strategy : string) (premium pnl reward : Q)
      (greeks : option (gmap string Q)).

(** [trade.get("pnl", 0)]: both kinds of record have the key. *)
Definition trade_pnl (t : trade) : Q :=
  match t with
  | StockTrade _ _ pnl _ => pnl
  | OptionsTrade _ _ pnl _ _ => pnl
  end.

Record TradingEnvironment := mkEnv {
  state_dim : nat;
  reward_calculator : RewardCalculator;
  initial_capital : Q;
  max_steps : Z;
  current_step : Z;
  capital : Q;
  position : Z;
  entry_price : Q;
  agent_state : gmap string pyval;
  trade_history : list trade;
  action_space_n : Z;
}.

(** What [step] and [step_options] return:
    [(next_state, reward, done, info)]. *)
Definition observation : Type := (list Q * Q * bool * gmap string pyval)%type.

Module TradingEnvironment.

Definition set_current_step (v : Z) (e : TradingEnvironment) :=
  mkEnv (state_dim e) (reward_calculator e) (initial_capital e) (max_steps e)
    v (capital e) (position e) (entry_price e) (agent_state e)
    (trade_history e) (action_space_n e).

Definition set_capital (v : Q) (e : TradingEnvironment) :=
  mkEnv (state_dim e) (reward_calculator e) (initial_capital e) (max_steps e)
    (current_step e) v (position e) (entry_price e) (agent_state e)
    (trade_history e) (action_space_n e).

Definition set_position (v : Z) (e : TradingEnvironment) :=
  mkEnv (state_dim e) (reward_calculator e) (initial_capital e) (max_steps e)
    (current_step e) (capital e) v (entry_price e) (agent_state e)
    (trade_history e) (action_space_n e).

Definition set_entry_price (v : Q) (e : TradingEnvironment) :=
  mkEnv (state_dim e) (reward_calculator e) (initial_capital e) (max_steps e)
    (current_step e) (capital e) (position e) v (agent_state e)
    (trade_history e) (action_space_n e).

Definition set_agent_state (v : gmap string pyval) (e : TradingEnvironment) :=
  mkEnv (state_dim e) (reward_calculator e) (initial_capital e) (max_steps e)
    (current_step e) (capital e) (position e) (entry_price e) v
    (trade_history e) (action_space_n e).

Definition set_trade_history (v : list trade) (e : TradingEnvironment) :=
  mkEnv (state_dim e) (reward_calculator e) (initial_capital e) (max_steps e)
    (current_step e) (capital e) (position e) (entry_price e) (agent_state e)
    v (action_space_n e).

(** [TradingEnvironment.__init__], given the [state_dim] of its encoder. *)
Definition init (encoder_state_dim : nat) (rc : RewardCalculator)
  (initial : Q) (steps : Z) : TradingEnvironment :=
  {| state_dim := encoder_state_dim; reward_calculator := rc;
     initial_capital := initial; max_steps := steps;
     current_step := 0; capital := initial; position := 0;
     entry_price := 0; agent_state := ∅; trade_history := [];
     action_space_n := 3 |}.

(** [reset]: [new_state] is [None], or a mapping that replaces the stored
    one unless it is empty. *)
Definition reset (self : TradingEnvironment)
  (new_state : option (gmap string pyval)) : TradingEnvironment * result (list Q) :=
  let self := set_current_step 0 self in
  let self := set_capital (initial_capital self) self in
  let self := set_position 0 self in
  let self := set_entry_price 0 self in
  let self := set_trade_history [] self in
  let self :=
    match new_state with
    | Some st => if dict_truthy st then set_agent_state st self else self
    | None => self
    end in
  (self, StateEncoder.encode (state_dim self) (agent_state self)).

(** The three-way branch of [step] on the decoded action: the environment
    after it, and the reward and info it leaves, or the exception of the
    reward computation. *)
Definition execute (self : TradingEnvironment) (action_str : string)
  (current_price : Q) (info : gmap string pyval)
  : TradingEnvironment * result (Q * gmap string pyval) :=
  if bool_decide (action_str = "BUY") && (position self =? 0) then
    let self := set_position 1 self in
    let self := set_entry_price current_price self in
    (self, Ok (0%Q, <["entry_price" := PFloat (entry_price self)]> info))
  else if bool_decide (action_str = "SELL") && (position self =? 1) then
    match RewardCalculator.calculate_reward (reward_calculator self) "BUY"
            (entry_price self) current_price 1 None with
    | Raise e => (self, Raise e)
    | Ok reward =>
        match py_div (current_price - entry_price self) (entry_price self) with
        | Raise e => (self, Raise e)
        | Ok ratio =>
            let pnl := (ratio * capital self)%Q in
            let record := StockTrade (entry_price self) current_price pnl reward in
            let self := set_capital (capital self + pnl)%Q self in
            let self := set_trade_history (trade_history self ++ [record]) self in
            let self := set_position 0 self in
            let self := set_entry_price 0 self in
            let info := <["exit_price" := PFloat current_price]> info in
            let info := <["pnl" := PFloat pnl]> info in
            let info :=
              <["trade_result" := PStr (if Qltb 0 pnl then "profit" else "loss")]> info in
            (self, Ok (reward, info))
        end
    end
  else (self, Ok (0%Q, info)).

Definition step (self : TradingEnvironment) (action : Z)
  (new_state : gmap string pyval) (current_price : Q)
  : TradingEnvironment * result observation :=
  let self := set_current_step (current_step self + 1) self in
  let self := set_agent_state new_state self in
  match StateEncoder.decode_action action (action_space_n self) with
  | Raise e => (self, Raise e)
  | Ok action_str =>
      let info : gmap string pyval :=
        {[ "action" := PStr action_str; "position" := PInt (position self);
           "capital" := PFloat (capital self); "step" := PInt (current_step self) ]} in
      match execute self action_str current_price info with
      | (self, Raise e) => (self, Raise e)
      | (self, Ok (reward, info)) =>
          let done :=
            (max_steps self <=? current_step self)
            || Qle_bool (capital self) 0
            || Qle_bool (initial_capital self * 2) (capital self) in
          match StateEncoder.encode (state_dim self) (agent_state self) with
          | Raise e => (self, Raise e)
          | Ok next_state => (self, Ok (next_state, reward, done, info))
          end
      end
  end.

Definition step_options (self : TradingEnvironment) (action : Z)
  (new_state : gmap string pyval) (strategy : string)
  (premium pnl max_loss : Q) (greeks : option (gmap string Q))
  : TradingEnvironment * result observation :=
  let self := set_current_step (current_step self + 1) self in
  let self := set_agent_state new_state self in
  let action_str : string := if action =? 0 then "BUY" else "SELL" in
  match RewardCalculator.calculate_options_reward (reward_calculator self)
          action_str strategy premium pnl max_loss greeks with
  | Raise e => (self, Raise e)
  | Ok reward =>
      let self := set_capital (capital self + pnl)%Q self in
      let self :=
        set_trade_history
          (trade_history self ++ [OptionsTrade strategy premium pnl reward greeks])
          self in
      let info : gmap string pyval :=
        {[ "action" := PStr action_str; "strategy" := PStr strategy;
           "capital" := PFloat (capital self); "pnl" := PFloat pnl;
           "step" := PInt (current_step self) ]} in
      let done :=
        (max_steps self <=? current_step self)
        || Qle_bool (capital self) (initial_capital self * 0.5)
        || Qle_bool (initial_capital self * 1.5) (capital self) in
      match StateEncoder.encode (state_dim self) (agent_state self) with
      | Raise e => (self, Raise e)
      | Ok next_state => (self, Ok (next_state, reward, done, info))
      end
  end.

Definition get_trade_statistics `{Numpy} (self : TradingEnvironment)
  : result (gmap string pyval) :=
  match trade_history self with
  | [] =>
      Ok {[ "total_trades" := PInt 0; "win_rate" := PFloat 0;
            "avg_profit" := PFloat 0; "avg_loss" := PFloat 0;
            "total_pnl" := PFloat 0; "sharpe_ratio" := PFloat 0 ]}
  | _ :: _ =>
      let pnls := map trade_pnl (trade_history self) in
      let wins := filter (fun pnl => Qltb 0 pnl = true) pnls in
      let losses := filter (fun pnl => Qltb pnl 0 = true) pnls in
      let count := inject_Z (Z.of_nat (length (trade_history self))) in
      growth <- py_div (capital self - initial_capital self) (initial_capital self) ;;
      Ok {[ "total_trades" := PInt (Z.of_nat (length (trade_history self)));
            "win_rate" := PFloat (inject_Z (Z.of_nat (length wins)) / count);
            "avg_profit" :=
              match wins with [] => PInt 0 | _ :: _ => PFloat (np_mean wins) end;
            "avg_loss" :=
              match losses with [] => PInt 0 | _ :: _ => PFloat (np_mean losses) end;
            "total_pnl" := PFloat (Qsum pnls);
            "sharpe_ratio" :=
              PFloat (RewardCalculator.calculate_sharpe_ratio_reward pnls 0.02);
            "final_capital" := PFloat (capital self);
            "return_pct" := PFloat (growth * 100) ]}
  end.

(** [render]: the values printed, in order, and whether the call returned.
    The number formats of the f-strings are not modelled. *)
Definition render `{Numpy} (self : TradingEnvironment) (mode : string)
  : list pyval * result unit :=
  if bool_decide (mode = "human") then
    let printed :=
      [ PInt (current_step self); PFloat (capital self); PInt (position self);
        PInt (Z.of_nat (length (trade_history self))) ] in
    match get_trade_statistics self with
    | Raise e => (printed, Raise e)
    | Ok stats =>
        match dict_item stats "win_rate" with
        | Raise e => (printed, Raise e)
        | Ok win_rate =>
            let printed := printed ++ [win_rate] in
            match dict_item stats "total_pnl" with
            | Raise e => (printed, Raise e)
            | Ok total_pnl =>
                let printed := printed ++ [total_pnl] in
                match dict_item stats "return_pct" with
                | Raise e => (printed, Raise e)
                | Ok return_pct => (printed ++ [return_pct], Ok ())
                end
            end
        end
    end
  else ([], Ok ()).

(** [np.clip(x, lo, hi)] *)
Definition np_clip (x lo hi : Q) : Q := Qmin (Qmax x lo) hi.

(** [calculate_profit_probability]: the placeholder heuristic on entries 8
    and 17 of the state vector. *)
Definition calculate_profit_probability (state : list Q) (action : Z) : Q :=
  let trend := if (8 <? length state)%nat then default 0%Q (state !! 8%nat) else 0%Q in
  let sentiment :=
    if (17 <? length state)%nat then default 0%Q (state !! 17%nat) else 0%Q in
  let prob :=
    if action =? 0 then (0.5 + trend * 0.2 + sentiment * 0.2)%Q
    else if action =? 2 then (0.5 + (- trend) * 0.2 + (- sentiment) * 0.2)%Q
    else 0.5%Q in
  np_clip prob 0 1.

End TradingEnvironment.

(** ** torch: tensors, state dictionaries and the DQN module *)

Record tensor := mkTensor {
  shape : list nat;
  data : list Q;
}.

(** A key of the DQN's state dictionary: [Weight i] is
    ["network.i.weight"], [Bias i] is ["network.i.bias"]. *)
Inductive pname : Type :=
  | Weight (layer : nat)
  | Bias (layer : nat).

#[global] Instance pname_eq_dec : EqDecision pname.
Proof. solve_decision. Defined.

(** An ordered state dictionary. *)
Definition state_dict : Type := list (pname * tensor).

(** What the learner takes from torch without a model of its arithmetic:
    the initial values of a parameter, the Adam optimizer and its state, and
    one optimisation of the policy parameters on a batch (loss, backward
    pass, gradient clipping, optimizer step), which yields the new policy
    parameters, the new optimizer state and the loss, or an error of torch. *)
Class Torch := {
  linear_init : Z -> pname -> list nat -> list Q;
  optim : Type;
  adam : state_dict -> Q -> optim;
  adam_load : optim -> optim -> result optim;
  fit : state_dict -> state_dict -> optim -> Q -> batch
        -> result (state_dict * optim * Q);
}.

Module Nn.

Fixpoint sd_lookup (key : pname) (sd : state_dict) : option tensor :=
  match sd with
  | [] => None
  | (k, v) :: rest => if bool_decide (k = key) then Some v else sd_lookup key rest
  end.

Definition sd_keys (sd : state_dict) : list pname := map fst sd.

(** The parameters of [nn.Linear(input_dim, output_dim)] at position
    [layer] of the [nn.Sequential]. *)
Definition linear_shapes (layer input_dim output_dim : nat)
  : list (pname * list nat) :=
  [ (Weight layer, [output_dim; input_dim]); (Bias layer, [output_dim]) ].

(** [DQN.__init__]: each hidden dimension adds a Linear, a ReLU and a
    Dropout, so the Linear layers sit three positions apart. *)
Fixpoint dqn_shapes (layer input_dim : nat) (hidden_dims : list nat)
  (action_dim : nat) : list (pname * list nat) :=
  match hidden_dims with
  | [] => linear_shapes layer input_dim action_dim
  | hidden_dim :: rest =>
      linear_shapes layer input_dim hidden_dim
      ++ dqn_shapes (layer + 3) hidden_dim rest action_dim
  end.

Definition default_hidden_dims : list nat := [256; 128; 64]%nat.

(** [DQN(state_dim, action_dim).state_dict()] after the initialisation
    numbered [draw]. *)
Definition DQN `{Torch} (draw : Z) (state_dim action_dim : nat) : state_dict :=
  map (fun '(key, sh) => (key, mkTensor sh (linear_init draw key sh)))
      (dqn_shapes 0 state_dim default_hidden_dims action_dim).

(** One parameter of a module under [load_state_dict]: the tensor of the
    same key is copied into it when the shapes agree; a different shape or
    an absent key is recorded as an error and the parameter is left as it
    was. *)
Definition load_param (sd : state_dict) (entry : pname * tensor)
  : (pname * tensor) * bool :=
  match sd_lookup (fst entry) sd with
  | Some input =>
      if bool_decide (shape input = shape (snd entry))
      then ((fst entry, mkTensor (shape (snd entry)) (data input)), false)
      else (entry, true)
  | None => (entry, true)
  end.

(** [module.load_state_dict(sd)] with the default [strict=True]: every
    parameter is visited, the loadable ones are overwritten in place, and
    RuntimeError is raised at the end if any error was recorded or [sd]
    has a key the module lacks. The module is returned as the call leaves
    it, also when it raises. *)
Definition load_state_dict (module sd : state_dict) : state_dict * result unit :=
  let loaded := map (load_param sd) module in
  let unexpected :=
    existsb (fun key => negb (bool_decide (key ∈ sd_keys module))) (sd_keys sd) in
  (map fst loaded,
   if existsb snd loaded || unexpected then Raise RuntimeError else Ok ()).

End Nn.

(** ** RLTradingAgent (rl_agent.py) *)

(** The dictionary [save_model] hands to [torch.save], which [torch.load]
    gives back to [load_model]; older artifacts may lack
    ['episode_rewards']. *)
Record Checkpoint `{Torch} := mkCheckpoint {
  policy_net_state_dict : state_dict;
  target_net_state_dict : state_dict;
  optimizer_state_dict : optim;
  ck_epsilon : Q;
  ck_training_step : Z;
  ck_episode_rewards : option (list Q);
}.

(** The devices of the machine, as an interface: [to_device d] is the error
    raised by [torch.device(d)] or by moving a module to that device, and
    [None] when both succeed. *)
Class Machine := {
  to_device : string -> option exn;
}.

Module RLTradingAgent.

Record t `{Torch} := mkAgent {
  state_dim : nat;
  action_dim : nat;
  gamma : Q;
  epsilon : Q;
  epsilon_end : Q;
  epsilon_decay : Q;
  batch_size : Z;
  target_update_freq : Z;
  policy_net : state_dict;
  target_net : state_dict;
  optimizer : optim;
  replay_buffer : ReplayBuffer;
  training_step : Z;
  episode_rewards : list Q;
  losses : list Q;
}.

Section Methods.
Context `{Torch} `{Random} `{Machine}.

(** [__init__]. The device is resolved and the two networks are moved to
    it first; the policy network is initialised, the target network is
    initialised and then loaded from the policy network; [optim.Adam]
    refuses a negative learning rate with ValueError; the replay buffer is
    built last. *)
Definition init (draw : Z) (state_dim action_dim : nat)
  (learning_rate gamma epsilon_start epsilon_end epsilon_decay : Q)
  (buffer_capacity batch_size target_update_freq : Z) (device : string)
  : result t :=
  match to_device device with
  | Some e => Raise e
  | None =>
      let policy := Nn.DQN draw state_dim action_dim in
      let '(target, loaded) :=
        Nn.load_state_dict (Nn.DQN (draw + 1) state_dim action_dim) policy in
      _ <- loaded ;;
      _ <- (if Qltb learning_rate 0 then Raise ValueError else Ok ()) ;;
      buffer <- ReplayBuffer.init buffer_capacity ;;
      Ok {| state_dim := state_dim; action_dim := action_dim; gamma := gamma;
            epsilon := epsilon_start; epsilon_end := epsilon_end;
            epsilon_decay := epsilon_decay; batch_size := batch_size;
            target_update_freq := target_update_freq;
            policy_net := policy; target_net := target;
            optimizer := adam policy learning_rate;
            replay_buffer := buffer; training_step := 0;
            episode_rewards := []; losses := [] |}
  end.

Definition store_experience (self : t) (tr : transition) : t :=
  mkAgent _ (state_dim self) (action_dim self) (gamma self) (epsilon self)
    (epsilon_end self) (epsilon_decay self) (batch_size self)
    (target_update_freq self) (policy_net self) (target_net self)
    (optimizer self) (ReplayBuffer.push (replay_buffer self) tr)
    (training_step self) (episode_rewards self) (losses self).

(** The agent with the fields that [train_step] assigns replaced. *)
Definition trained (self : t) (policy target : state_dict) (opt : optim)
  (step : Z) (eps : Q) (history : list Q) : t :=
  mkAgent _ (state_dim self) (action_dim self) (gamma self) eps
    (epsilon_end self) (epsilon_decay self) (batch_size self)
    (target_update_freq self) policy target opt (replay_buffer self)
    step (episode_rewards self) history.

(** [train_step]: [None] while the buffer is shorter than a batch. The
    remainder of an integer division by zero raises; by then the policy
    network, the optimizer and the step counter are updated. *)
Definition train_step (self : t) (g : rng) : t * rng * result (option Q) :=
  if Z.of_nat (ReplayBuffer.len (replay_buffer self)) <? batch_size self
  then (self, g, Ok None)
  else
    match ReplayBuffer.sample (replay_buffer self) (batch_size self) g with
    | (g, Raise e) => (self, g, Raise e)
    | (g, Ok drawn) =>
        match fit (policy_net self) (target_net self) (optimizer self)
                (gamma self) drawn with
        | Raise e => (self, g, Raise e)
        | Ok (policy, opt, loss) =>
            let step := training_step self + 1 in
            if target_update_freq self =? 0
            then (trained self policy (target_net self) opt step (epsilon self)
                    (losses self),
                  g, Raise ZeroDivisionError)
            else
              let target :=
                if step mod target_update_freq self =? 0
                then fst (Nn.load_state_dict (target_net self) policy)
                else target_net self in
              let eps := Qmax (epsilon_end self) (epsilon self * epsilon_decay self) in
              (trained self policy target opt step eps (losses self ++ [loss]),
               g, Ok (Some loss))
        end
    end.

(** The dictionary that [save_model] hands to [torch.save]. The method
    itself, with its directory and its JSON sidecar, is [OnDisk.save_model]
    below. *)
Definition save_model (self : t) : Checkpoint :=
  {| policy_net_state_dict := policy_net self;
     target_net_state_dict := target_net self;
     optimizer_state_dict := optimizer self;
     ck_epsilon := epsilon self;
     ck_training_step := training_step self;
     ck_episode_rewards := Some (episode_rewards self) |}.

(** [load_model], from the checkpoint [torch.load] returned (the method
    itself, reading the file, is [OnDisk.load_model] below). Each assignment
    takes effect before the next statement can raise. *)
Definition load_model (self : t) (checkpoint : Checkpoint) : t * result unit :=
  let '(policy, loaded) :=
    Nn.load_state_dict (policy_net self) (policy_net_state_dict checkpoint) in
  let self :=
    mkAgent _ (state_dim self) (action_dim self) (gamma self) (epsilon self)
      (epsilon_end self) (epsilon_decay self) (batch_size self)
      (target_update_freq self) policy (target_net self) (optimizer self)
      (replay_buffer self) (training_step self) (episode_rewards self)
      (losses self) in
  match loaded with
  | Raise e => (self, Raise e)
  | Ok _ =>
      let '(target, loaded) :=
        Nn.load_state_dict (target_net self) (target_net_state_dict checkpoint) in
      let self :=
        mkAgent _ (state_dim self) (action_dim self) (gamma self) (epsilon self)
          (epsilon_end self) (epsilon_decay self) (batch_size self)
          (target_update_freq self) (policy_net self) target (optimizer self)
          (replay_buffer self) (training_step self) (episode_rewards self)
          (losses self) in
      match loaded with
      | Raise e => (self, Raise e)
      | Ok _ =>
          match adam_load (optimizer self) (optimizer_state_dict checkpoint) with
          | Raise e => (self, Raise e)
          | Ok opt =>
              (mkAgent _ (state_dim self) (action_dim self) (gamma self)
                 (ck_epsilon checkpoint) (epsilon_end self) (epsilon_decay self)
                 (batch_size self) (target_update_freq self) (policy_net self)
                 (target_net self) opt (replay_buffer self)
                 (ck_training_step checkpoint)
                 (default [] (ck_episode_rewards checkpoint)) (losses self),
               Ok ())
          end
      end
  end.

(** [l[-n:]]: the last [n] items of a list, all of them when it is shorter. *)
Definition py_last {A} (n : nat) (l : list A) : list A := drop (length l - n) l.

Definition get_training_stats (self : t) : gmap string pyval :=
  match episode_rewards self with
  | [] =>
      {[ "total_episodes" := PInt 0; "avg_reward" := PFloat 0;
         "avg_loss" := PFloat 0; "epsilon" := PFloat (epsilon self) ]}
  | _ :: _ =>
      {[ "total_episodes" := PInt (Z.of_nat (length (episode_rewards self)));
         "avg_reward" := PFloat (np_mean (py_last 100 (episode_rewards self)));
         "avg_loss" :=
           match losses self with
           | [] => PFloat 0
           | _ :: _ => PFloat (np_mean (py_last 100 (losses self)))
           end;
         "epsilon" := PFloat (epsilon self);
         "training_steps" := PInt (training_step self);
         "buffer_size" :=
           PInt (Z.of_nat (ReplayBuffer.len (replay_buffer self))) ]}
  end.

End Methods.
End RLTradingAgent.

(** ** Saving and loading on disk *)

Module Os.

Definition is_slash (c : ascii) : bool := Ascii.eqb c "/".

(** The path up to and including its last slash. *)
Fixpoint head (p : list ascii) : list ascii :=
  match p with
  | [] => []
  | c :: p' => if existsb is_slash p then c :: head p' else []
  end.

(** [s.rstrip('/')] *)
Fixpoint rstrip (s : list ascii) : list ascii :=
  match s with
  | [] => []
  | c :: s' =>
      match rstrip s' with
      | [] => if is_slash c then [] else [c]
      | r => c :: r
      end
  end.

(** [os.path.dirname] on POSIX paths: everything before the last slash,
    without trailing slashes unless it consists of slashes only; the empty
    string for a bare file name. *)
Definition dirname (p : string) : string :=
  let h := head (String.list_ascii_of_string p) in
  String.string_of_list_ascii (if forallb is_slash h then h else rstrip h).

End Os.

(** The configuration that [save_model] writes as JSON beside the
    checkpoint. *)
Record Config := mkConfig {
  cf_state_dim : nat;
  cf_action_dim : nat;
  cf_gamma : Q;
  cf_epsilon : Q;
  cf_training_step : Z;
}.

(** The file system as an interface. Each writing operation returns the
    file system it leaves and whether it raised: [makedirs fs d] is
    [os.makedirs(d, exist_ok=True)], [torch_save fs obj p] is
    [torch.save(obj, p)], [write_json fs p config] opens [p] for writing and
    dumps [config] into it, and [torch_load fs p] is [torch.load(p)]. *)
Class Files `{Torch} := {
  files : Type;
  makedirs : files -> string -> files * result unit;
  torch_save : files -> Checkpoint -> string -> files * result unit;
  write_json : files -> string -> Config -> files * result unit;
  torch_load : files -> string -> result Checkpoint;
}.

Module OnDisk.
Section OnDisk.
Context `{Files}.

(** [RLTradingAgent.save_model]: the file system it leaves, the lines it
    prints and its outcome. *)
Definition save_model (self : RLTradingAgent.t) (path : string) (fs : files)
  : files * list string * result unit :=
  match makedirs fs (Os.dirname path) with
  | (fs, Raise e) => (fs, [], Raise e)
  | (fs, Ok _) =>
      match torch_save fs (RLTradingAgent.save_model self) path with
      | (fs, Raise e) => (fs, [], Raise e)
      | (fs, Ok _) =>
          let config_path := Str.replace path ".pth" "_config.json" in
          match write_json fs config_path
                  {| cf_state_dim := RLTradingAgent.state_dim self;
                     cf_action_dim := RLTradingAgent.action_dim self;
                     cf_gamma := RLTradingAgent.gamma self;
                     cf_epsilon := RLTradingAgent.epsilon self;
                     cf_training_step := RLTradingAgent.training_step self |} with
          | (fs, Raise e) => (fs, [], Raise e)
          | (fs, Ok _) => (fs, ["Model saved to " +:+ path], Ok ())
          end
      end
  end.

(** [RLTradingAgent.load_model]: the agent it leaves, the lines it prints
    and its outcome. *)
Definition load_model (self : RLTradingAgent.t) (path : string) (fs : files)
  : RLTradingAgent.t * list string * result unit :=
  match torch_load fs path with
  | Raise e => (self, [], Raise e)
  | Ok checkpoint =>
      match RLTradingAgent.load_model self checkpoint with
      | (self, Raise e) => (self, [], Raise e)
      | (self, Ok _) => (self, ["Model loaded from " +:+ path], Ok ())
      end
  end.

End OnDisk.
End OnDisk.

(** ** RLTrainer (rl_trainer.py): the progress report of [train] *)

Module RLTrainer.

(** The block [train] runs after every tenth episode: the values it prints,
    in order, and whether it completed. [episode_rewards] and [win_rates]
    are the trainer's own lists, non-empty at that point. *)
Definition report_progress `{Torch} (agent : RLTradingAgent.t)
  (episode_rewards win_rates : list Q) (episode episodes : Z)
  : list pyval * result unit :=
  let avg_reward := np_mean (RLTradingAgent.py_last 10 episode_rewards) in
  let avg_win_rate := np_mean (RLTradingAgent.py_last 10 win_rates) in
  let rl_stats := RLTradingAgent.get_training_stats agent in
  let printed :=
    [ PInt (episode + 1); PInt episodes; PFloat avg_reward; PFloat avg_win_rate ] in
  match dict_item rl_stats "epsilon" with
  | Raise e => (printed, Raise e)
  | Ok eps =>
      let printed := printed ++ [eps] in
      match dict_item rl_stats "buffer_size" with
      | Raise e => (printed, Raise e)
      | Ok size => (printed ++ [size], Ok ())
      end
  end.

End RLTrainer.

(** ** Predicates and inputs used in the statements *)

(** A report mapping as the analysis pipeline promises it: each of the five
    reports is absent or a string. *)
Definition is_text (v : pyval) : bool :=
  match v with
  | PStr _ => true
  | _ => false
  end.

Definition report_keys : list string :=
  map (fun e => StateEncoder.report_key (fst e)) StateEncoder.feature_extractors.

Definition text_reports (st : gmap string pyval) : bool :=
  forallb (fun key => is_text (dict_get st key (PStr ""))) report_keys.

(** The flag appended by [encode] after the feature groups. *)
Definition mode_flag (st : gmap string pyval) : Q :=
  if py_eq_str (dict_get st "trading_mode" (PStr "stock")) "options" then 1%Q else 0%Q.

(** Two mappings with the same reports and the same trading mode. *)
Definition same_reports (st st' : gmap string pyval) : Prop :=
  forall key, key ∈ report_keys ++ ["trading_mode"] -> st !! key = st' !! key.

(** The mapping [web_app_v2.py] passes to [encode] when the analysis stream
    delivered no report: the four entries keep their initial [None]. *)
Definition web_app_state : gmap string pyval :=
  {[ "market_report" := PNone; "news_report" := PNone;
     "fundamentals_report" := PNone; "sentiment_report" := PNone;
     "trading_mode" := PStr "stock" ]}.

(** The mapping [web_app_v2.py] passes with its default analysts (Market,
    News, Fundamentals) once their reports have arrived: the sentiment
    report keeps its initial [None]. *)
Definition web_app_default_state : gmap string pyval :=
  {[ "market_report" := PStr "RSI: 55.5. The trend is bullish.";
     "news_report" := PStr "Positive news on earnings.";
     "fundamentals_report" := PStr "P/E: 30.1, EPS: 2.5";
     "sentiment_report" := PNone;
     "trading_mode" := PStr "stock" ]}.

(** A mapping with reports in prose. *)
Definition sample_state : gmap string pyval :=
  {[ "market_report" := PStr "RSI: 55.5, MACD: -1.25, 50-SMA: 101. Trend is bullish.";
     "news_report" := PStr "Positive news: one major article.";
     "options_report" := PStr "Delta: -0.5 Gamma: 0.02 IV: 35% straddle";
     "trading_mode" := PStr "options" ]}.

(** Five numbered transitions. *)
Definition tr (n : Z) : transition :=
  ([inject_Z n], n, inject_Z n, [inject_Z (n + 1)], false).

(** An environment as constructed with the defaults of [__init__], for a
    state vector of eight values. *)
Definition example_env : TradingEnvironment :=
  TradingEnvironment.init 8 RewardCalculator.default 100000 1000.

(** A stand-in for the square root, for running the statistics: they are
    evaluated below only where the deviation is zero. *)
Definition example_numpy : Numpy := {| np_sqrt := fun x => x |}.

(** An agent whose networks have the parameters of a DQN of its own
    dimensions, as [__init__] builds them. *)
Definition dqn_shaped (sd : state_dict) (state_dim action_dim : nat) : Prop :=
  map (fun entry => (fst entry, shape (snd entry))) sd
  = Nn.dqn_shapes 0 state_dim Nn.default_hidden_dims action_dim.

Definition well_formed `{Torch} (a : RLTradingAgent.t) : Prop :=
  dqn_shaped (RLTradingAgent.policy_net a)
    (RLTradingAgent.state_dim a) (RLTradingAgent.action_dim a)
  /\ dqn_shaped (RLTradingAgent.target_net a)
       (RLTradingAgent.state_dim a) (RLTradingAgent.action_dim a).

(** Stand-ins for the random generator and for torch, for running the agent:
    the generator counts its draws and a sample is the oldest [k] items; every
    value of a parameter initialised by draw [n] is [n]; the optimizer state
    counts its steps and an optimisation leaves the parameters alone. *)
Definition example_random : Random :=
  {| rng := nat;
     random_sample := fun g population k => (take k population, S g) |}.

Definition example_torch : Torch :=
  {| linear_init := fun draw _ sh => replicate (foldr Nat.mul 1%nat sh) (inject_Z draw);
     optim := Z;
     adam := fun _ _ => 0;
     adam_load := fun _ loaded => Ok loaded;
     fit := fun policy _ opt _ _ => Ok (policy, opt + 1, 0%Q) |}.

(** A machine with the CPU only, and a file system in which a file is its
    path string: directories other than the empty name can always be made,
    a file holds the checkpoint or the configuration written last, and a
    configuration does not load as a checkpoint. *)
Definition example_machine : Machine :=
  {| to_device := fun d => if bool_decide (d = "cpu") then None else Some RuntimeError |}.

Definition example_files : @Files example_torch :=
  {| files := gmap string (@Checkpoint example_torch + Config);
     makedirs := fun fs d =>
       (fs, if bool_decide (d = "") then Raise FileNotFoundError else Ok ());
     torch_save := fun fs obj p => (<[p := inl obj]> fs, Ok ());
     write_json := fun fs p config => (<[p := inr config]> fs, Ok ());
     torch_load := fun fs p =>
       match fs !! p with
       | Some (inl obj) => Ok obj
       | Some (inr _) => Raise RuntimeError
       | None => Raise FileNotFoundError
       end |}.

(** An agent with default hyperparameters, built as [__init__] does. *)
Definition example_agent (draw : Z) (state_dim action_dim : nat)
  : @RLTradingAgent.t example_torch :=
  let policy := @Nn.DQN example_torch draw state_dim action_dim in
  @RLTradingAgent.mkAgent example_torch state_dim action_dim 0.99 1 0.01 0.995
    64 10 policy policy 0 (ReplayBuffer.new (Z.to_nat 10000)) 0 [] [].

(** The transitions whose columns a batch holds. *)
Fixpoint zip5 (states : list (list Q)) (actions : list Z) (rewards : list Q)
  (next_states : list (list Q)) (dones : list bool) : list transition :=
  match states, actions, rewards, next_states, dones with
  | s :: ss, a :: aa, r :: rr, s' :: ss', d :: dd =>
      (s, a, r, s', d) :: zip5 ss aa rr ss' dd
  | _, _, _, _, _ => []
  end.

(** The environments a program can hold: a constructed one, and what any
    call of [reset], [step] or [step_options] leaves, returning or raising. *)
Inductive reachable : TradingEnvironment -> Prop :=
  | reach_init d rc initial steps :
      reachable (TradingEnvironment.init d rc initial steps)
  | reach_reset e new_state :
      reachable e -> reachable (fst (TradingEnvironment.reset e new_state))
  | reach_step e action st price :
      reachable e -> reachable (fst (TradingEnvironment.step e action st price))
  | reach_step_options e action st strategy premium pnl max_loss greeks :
      reachable e ->
      reachable (fst (TradingEnvironment.step_options e action st strategy
                        premium pnl max_loss greeks)).

(** The agents a training loop holds that started with [a0]: what any run
    of [store_experience] and [train_step] calls leaves, returning or
    raising. *)
Inductive trained_from `{Torch} `{Random} (a0 : RLTradingAgent.t)
  : RLTradingAgent.t -> Prop :=
  | from_start : trained_from a0 a0
  | from_store a t :
      trained_from a0 a -> trained_from a0 (RLTradingAgent.store_experience a t)
  | from_train a g :
      trained_from a0 a ->
      trained_from a0 (fst (fst (RLTradingAgent.train_step a g))).

(** * Properties *)

(** ** ReplayBuffer: a bounded first-in first-out store *)

Section ReplayBufferFacts.

Lemma tail_drop {A} (l : list A) : tail l = drop 1 l.
Proof. by destruct l. Qed.

Lemma append_length_le {A} maxlen (d : list A) x :
  (length d <= maxlen)%nat -> (length (Deque.append maxlen d x) <= maxlen)%nat.
Proof.
  intros Hd. unfold Deque.append.
  destruct (Nat.ltb_spec maxlen (length (d ++ [x]))) as [Hlt|Hge]; [|lia].
  rewrite tail_drop, length_drop, length_app. simpl. lia.
Qed.

(** The bound on the length is kept by every push, from any buffer. *)
Lemma push_length_le rb t :
  (ReplayBuffer.len rb <= rb_maxlen rb)%nat ->
  (ReplayBuffer.len (ReplayBuffer.push rb t) <= rb_maxlen (ReplayBuffer.push rb t))%nat.
Proof. intros Hle. unfold ReplayBuffer.len. simpl. by apply append_length_le. Qed.

(** One append on a deque holding the last [maxlen] items of [xs] leaves
    the last [maxlen] items of [xs ++ [x]]. *)
Lemma append_suffix {A} maxlen (xs : list A) x :
  Deque.append maxlen (drop (length xs - maxlen) xs) x
  = drop (length (xs ++ [x]) - maxlen) (xs ++ [x]).
Proof.
  unfold Deque.append. rewrite !length_app, length_drop. simpl.
  destruct (Nat.ltb_spec maxlen (length xs - (length xs - maxlen) + 1)) as [Hlt|Hge].
  - rewrite tail_drop, <- drop_app_le by lia.
    rewrite drop_drop. f_equal. lia.
  - rewrite <- drop_app_le by lia. f_equal. lia.
Qed.

Lemma push_all_snoc rb ts t :
  ReplayBuffer.push_all rb (ts ++ [t])
  = ReplayBuffer.push (ReplayBuffer.push_all rb ts) t.
Proof. unfold ReplayBuffer.push_all. by rewrite foldl_app. Qed.

Lemma push_all_maxlen rb ts :
  rb_maxlen (ReplayBuffer.push_all rb ts) = rb_maxlen rb.
Proof.
  induction ts as [|t ts IH] using rev_ind; [done|].
  by rewrite push_all_snoc.
Qed.

(** After any run of pushes the buffer is the suffix of the run that fits
    the capacity. *)
Lemma push_all_buffer C ts :
  rb_buffer (ReplayBuffer.push_all (ReplayBuffer.new C) ts)
  = drop (length ts - C) ts.
Proof.
  induction ts as [|t ts IH] using rev_ind; [done|].
  rewrite push_all_snoc. unfold ReplayBuffer.push. simpl.
  rewrite push_all_maxlen, IH. simpl. apply append_suffix.
Qed.

Lemma init_new (C : nat) : ReplayBuffer.init (Z.of_nat C) = Ok (ReplayBuffer.new C).
Proof.
  unfold ReplayBuffer.init, ReplayBuffer.new.
  destruct (Z.ltb_spec (Z.of_nat C) 0); [lia|]. by rewrite Nat2Z.id.
Qed.

(** C1. On a buffer of capacity [C], once more than [C] transitions have been
    pushed the length is [C], the buffer holds the most recent [C] pushed
    transitions in the order pushed, the pushed run being the evicted oldest
    transitions followed by the buffer; and after every prefix of the run the
    length is at most [C]. *)
Theorem C1_replay_buffer_keeps_most_recent (C : nat) (ts : list transition) :
  (C < length ts)%nat ->
  let rb := ReplayBuffer.push_all (ReplayBuffer.new C) ts in
  ReplayBuffer.len rb = C
  /\ rb_buffer rb = drop (length ts - C) ts
  /\ ts = take (length ts - C) ts ++ rb_buffer rb
  /\ forall k, (ReplayBuffer.len
                  (ReplayBuffer.push_all (ReplayBuffer.new C) (take k ts)) <= C)%nat.
Proof.
  intros Hlen rb. subst rb. unfold ReplayBuffer.len.
  rewrite push_all_buffer. repeat split.
  - rewrite length_drop. lia.
  - by rewrite take_drop.
  - intros k. rewrite push_all_buffer, length_drop. lia.
Qed.

End ReplayBufferFacts.

Lemma C1_witness :
  (3 < length [tr 1; tr 2; tr 3; tr 4; tr 5])%nat
  /\ rb_buffer (ReplayBuffer.push_all (ReplayBuffer.new 3) [tr 1; tr 2; tr 3; tr 4; tr 5])
     = [tr 3; tr 4; tr 5].
Proof.
  split; [simpl; lia|].
  apply (C1_replay_buffer_keeps_most_recent 3 [tr 1; tr 2; tr 3; tr 4; tr 5]).
  simpl; lia.
Defined.

(** ** StateEncoder: totality on text and the length of the state vector *)

Section StateEncoderFacts.
Import StateEncoder.

(** The dictionary keys [encode] computes from the extractor names. *)
Ltac report_keys_norm :=
  change (report_key "technical") with "market_report" in *;
  change (report_key "fundamental") with "fundamentals_report" in *;
  change (report_key "news") with "news_report" in *;
  change (report_key "sentiment") with "sentiment_report" in *;
  change (report_key "options") with "options_report" in *.

Lemma technical_text s :
  exists v, _extract_technical_features (PStr s) = Ok v /\ length v = 9%nat.
Proof. eexists. split; [reflexivity|]. rewrite length_app. reflexivity. Qed.

Lemma fundamental_text s :
  exists v, _extract_fundamental_features (PStr s) = Ok v /\ length v = 6%nat.
Proof. eexists. split; reflexivity. Qed.

Lemma news_text s :
  exists v, _extract_news_features (PStr s) = Ok v /\ length v = 3%nat.
Proof. eexists. split; reflexivity. Qed.

Lemma sentiment_text s :
  exists v, _extract_sentiment_features (PStr s) = Ok v /\ length v = 2%nat.
Proof. eexists. split; reflexivity. Qed.

Lemma options_text s :
  exists v, _extract_options_features (PStr s) = Ok v /\ length v = 8%nat.
Proof. eexists. split; [reflexivity|]. rewrite length_app. reflexivity. Qed.

(** The default vectors of the five groups, on the empty report. *)
Lemma empty_report_defaults :
  _extract_technical_features (PStr "") = Ok [0; 0; 0; 0; 0; 0; 0; 0; 0]%Q
  /\ _extract_fundamental_features (PStr "") = Ok [0; 0; 0; 0; 0; 0]%Q
  /\ _extract_news_features (PStr "") = Ok [0; Qmin (0 / 10) 1; 0.5]%Q
  /\ _extract_sentiment_features (PStr "") = Ok [0; 0.5]%Q
  /\ _extract_options_features (PStr "") = Ok [0; 0; 0; 0; 0; 0; 1; 0]%Q.
Proof. repeat split. Qed.

(** No extractor accepts [None]: the pattern search and [lower] both need a
    string. *)
Lemma extractors_raise_on_None :
  _extract_technical_features PNone = Raise TypeError
  /\ _extract_fundamental_features PNone = Raise TypeError
  /\ _extract_news_features PNone = Raise AttributeError
  /\ _extract_sentiment_features PNone = Raise AttributeError
  /\ _extract_options_features PNone = Raise TypeError.
Proof. repeat split. Qed.

Lemma text_inv v : is_text v = true -> exists s, v = PStr s.
Proof. destruct v; try discriminate. eauto. Qed.

Lemma report_keys_eq :
  report_keys = ["market_report"; "fundamentals_report"; "news_report";
                 "sentiment_report"; "options_report"].
Proof. reflexivity. Qed.

(** On text the five groups are extracted in the fixed order and the mode
    flag follows them. *)
Lemma raw_features_text st :
  text_reports st = true ->
  exists t f n s o,
    _extract_technical_features (dict_get st "market_report" (PStr "")) = Ok t
    /\ _extract_fundamental_features (dict_get st "fundamentals_report" (PStr "")) = Ok f
    /\ _extract_news_features (dict_get st "news_report" (PStr "")) = Ok n
    /\ _extract_sentiment_features (dict_get st "sentiment_report" (PStr "")) = Ok s
    /\ _extract_options_features (dict_get st "options_report" (PStr "")) = Ok o
    /\ (length t = 9 /\ length f = 6 /\ length n = 3 /\ length s = 2 /\ length o = 8)%nat
    /\ raw_features st = Ok (t ++ f ++ n ++ s ++ o ++ [mode_flag st]).
Proof.
  intros H. unfold text_reports in H. rewrite report_keys_eq in H.
  simpl in H.
  repeat (apply andb_prop in H; destruct H as [?%text_inv H]).
  destruct H0 as [s1 E1], H1 as [s2 E2], H2 as [s3 E3], H3 as [s4 E4], H4 as [s5 E5].
  destruct (technical_text s1) as (t & Ht & Lt).
  destruct (fundamental_text s2) as (f & Hf & Lf).
  destruct (news_text s3) as (n & Hn & Ln).
  destruct (sentiment_text s4) as (s & Hs & Ls).
  destruct (options_text s5) as (o & Ho & Lo).
  exists t, f, n, s, o. rewrite E1, E2, E3, E4, E5.
  repeat split; try assumption.
  unfold raw_features, feature_extractors, extract_all.
  report_keys_norm.
  rewrite E1, E2, E3, E4, E5, Ht, Hf, Hn, Hs, Ho.
  unfold bind, mode_flag. simpl. by rewrite <- !app_assoc.
Qed.

Lemma pad_or_truncate_length d raw : length (pad_or_truncate d raw) = d.
Proof.
  unfold pad_or_truncate.
  destruct (Nat.ltb_spec (length raw) d).
  - rewrite length_app, length_replicate. lia.
  - destruct (Nat.ltb_spec d (length raw)).
    + rewrite length_take. lia.
    + lia.
Qed.

Lemma pad_or_truncate_short d raw :
  (length raw <= d)%nat ->
  pad_or_truncate d raw = raw ++ replicate (d - length raw) 0%Q.
Proof.
  intros Hle. unfold pad_or_truncate.
  destruct (Nat.ltb_spec (length raw) d); [done|].
  destruct (Nat.ltb_spec d (length raw)); [lia|].
  replace (d - length raw)%nat with 0%nat by lia. simpl. by rewrite app_nil_r.
Qed.

Lemma pad_or_truncate_long d raw :
  (d <= length raw)%nat -> pad_or_truncate d raw = take d raw.
Proof.
  intros Hle. unfold pad_or_truncate.
  destruct (Nat.ltb_spec (length raw) d); [lia|].
  destruct (Nat.ltb_spec d (length raw)); [done|].
  rewrite take_ge; [done|lia].
Qed.

(** On text [encode] returns, and the vector has [state_dim] entries. *)
Lemma encode_text_returns d st :
  text_reports st = true ->
  exists v, encode d st = Ok v /\ length v = d.
Proof.
  intros H. destruct (raw_features_text st H) as (t & f & n & s & o & _ & _ & _ & _ & _ & _ & Hraw).
  unfold encode. rewrite Hraw. simpl. eexists. split; [reflexivity|].
  apply pad_or_truncate_length.
Qed.

(** [encode] reads the mapping at the five report keys and at the trading
    mode only. *)
Lemma encode_same_reports d st st' :
  same_reports st st' -> encode d st = encode d st'.
Proof.
  intros Hsame.
  assert (Hget : forall key default, key ∈ report_keys ++ ["trading_mode"] ->
            dict_get st key default = dict_get st' key default).
  { intros key default Hin. unfold dict_get. by rewrite (Hsame key Hin). }
  unfold encode, raw_features, feature_extractors, extract_all.
  report_keys_norm.
  rewrite report_keys_eq in Hget.
  rewrite (Hget "market_report" _ ltac:(repeat constructor)).
  rewrite (Hget "fundamentals_report" _ ltac:(repeat constructor)).
  rewrite (Hget "news_report" _ ltac:(repeat constructor)).
  rewrite (Hget "sentiment_report" _ ltac:(repeat constructor)).
  rewrite (Hget "options_report" _ ltac:(repeat constructor)).
  rewrite (Hget "trading_mode" _ ltac:(repeat constructor)).
  reflexivity.
Qed.

(** On text reports [encode] is a function of the report mapping, reading
    only its reports and trading mode, and for every [state_dim] it returns
    a vector of exactly [state_dim] values: the five feature groups in
    their fixed order followed by the mode flag, 29 values in all,
    right-padded with zeros when that is shorter than [state_dim] and cut to
    the first [state_dim] values when it is longer. *)
Lemma encode_text_layout (state_dim : nat)
  (st : gmap string pyval) :
  text_reports st = true ->
  exists t f n s o,
    _extract_technical_features (dict_get st "market_report" (PStr "")) = Ok t
    /\ _extract_fundamental_features (dict_get st "fundamentals_report" (PStr "")) = Ok f
    /\ _extract_news_features (dict_get st "news_report" (PStr "")) = Ok n
    /\ _extract_sentiment_features (dict_get st "sentiment_report" (PStr "")) = Ok s
    /\ _extract_options_features (dict_get st "options_report" (PStr "")) = Ok o
    /\ let raw := t ++ f ++ n ++ s ++ o ++ [mode_flag st] in
       length raw = 29%nat
       /\ exists v,
            encode state_dim st = Ok v
            /\ length v = state_dim
            /\ ((length raw <= state_dim)%nat ->
                v = raw ++ replicate (state_dim - length raw) 0%Q)
            /\ ((state_dim <= length raw)%nat -> v = take state_dim raw)
            /\ forall st', same_reports st st' -> encode state_dim st' = Ok v.
Proof.
  intros H.
  destruct (raw_features_text st H)
    as (t & f & n & s & o & Ht & Hf & Hn & Hs & Ho & (Lt & Lf & Ln & Ls & Lo) & Hraw).
  exists t, f, n, s, o. repeat (split; [assumption|]).
  intros raw. split.
  { subst raw. rewrite !length_app. simpl. lia. }
  assert (Henc : encode state_dim st = Ok (pad_or_truncate state_dim raw)).
  { unfold encode. by rewrite Hraw. }
  exists (pad_or_truncate state_dim raw). split; [exact Henc|].
  split; [apply pad_or_truncate_length|].
  split; [apply pad_or_truncate_short|].
  split; [apply pad_or_truncate_long|].
  intros st' Hsame. by rewrite <- (encode_same_reports state_dim st st' Hsame).
Qed.

(** C5. [encode] does not return a vector of [state_dim] values for every
    report mapping: whenever one of the five reports is present and is not
    a string, [None] for one, it raises, TypeError out of [re.search] or
    AttributeError out of [report.lower()], whatever the state dimension
    and whatever the other reports hold. (On text reports it does return
    the [state_dim] values, see [encode_text_layout].) *)
Theorem C5_encode_raises_on_non_text_report (state_dim : nat)
  (st : gmap string pyval) :
  text_reports st = false ->
  exists e, encode state_dim st = Raise e
            /\ (e = TypeError \/ e = AttributeError).
Proof.
  intros Htext. unfold text_reports in Htext. rewrite report_keys_eq in Htext.
  cbn [forallb] in Htext.
  unfold encode, raw_features, feature_extractors, extract_all.
  report_keys_norm.
  destruct (dict_get st "market_report" (PStr "")) as [|s1|?|?];
    try (exists TypeError; split; [reflexivity | by left]).
  destruct (technical_text s1) as (t & -> & _). cbn [bind].
  destruct (dict_get st "fundamentals_report" (PStr "")) as [|s2|?|?];
    try (exists TypeError; split; [reflexivity | by left]).
  destruct (fundamental_text s2) as (f & -> & _). cbn [bind].
  destruct (dict_get st "news_report" (PStr "")) as [|s3|?|?];
    try (exists AttributeError; split; [reflexivity | by right]).
  destruct (news_text s3) as (n & -> & _). cbn [bind].
  destruct (dict_get st "sentiment_report" (PStr "")) as [|s4|?|?];
    try (exists AttributeError; split; [reflexivity | by right]).
  destruct (sentiment_text s4) as (sf & -> & _). cbn [bind].
  destruct (dict_get st "options_report" (PStr "")) as [|s5|?|?];
    try (exists TypeError; split; [reflexivity | by left]).
  discriminate Htext.
Qed.

(** C4. A report that is [None] is not given the default vector of its
    group: on the mapping the web application builds before any report has
    arrived, [encode] raises TypeError, and so it does on every mapping whose
    market report is [None], whatever the state dimension. (An absent or
    empty report does get the defaults, see [empty_report_defaults].) *)
Theorem C4_encode_raises_on_None_report :
  encode 128 web_app_state = Raise TypeError
  /\ forall d st, encode d (<["market_report" := PNone]> st) = Raise TypeError.
Proof.
  split; [reflexivity|].
  intros d st. unfold encode, raw_features, feature_extractors, extract_all.
  report_keys_norm. unfold dict_get at 1. rewrite lookup_insert_eq. reflexivity.
Qed.

End StateEncoderFacts.

Lemma encode_sample_state :
  text_reports sample_state = true
  /\ exists v, StateEncoder.encode 128 sample_state = Ok v /\ length v = 128%nat.
Proof.
  split; [reflexivity|].
  destruct (encode_text_layout 128 sample_state eq_refl)
    as (t & f & n & s & o & _ & _ & _ & _ & _ & _ & v & Hv & Hlen & _).
  exists v. split; assumption.
Qed.

Lemma C5_witness :
  text_reports web_app_default_state = false
  /\ exists e, StateEncoder.encode 128 web_app_default_state = Raise e
               /\ (e = TypeError \/ e = AttributeError).
Proof.
  split; [reflexivity|].
  apply (C5_encode_raises_on_non_text_report 128 web_app_default_state).
  reflexivity.
Defined.

(** ** RewardCalculator *)

Section RewardFacts.
Import RewardCalculator.

Lemma Qeq_bool_pos (p : Q) : (0 < p)%Q -> Qeq_bool p 0 = false.
Proof.
  intros Hp. destruct (Qeq_bool p 0) eqn:E; [|done].
  apply Qeq_bool_eq in E. rewrite E in Hp. by apply Qlt_irrefl in Hp.
Qed.

Lemma Qltb_true (a b : Q) : Qltb a b = true <-> (a < b)%Q.
Proof.
  unfold Qltb. rewrite negb_true_iff, <- not_true_iff_false, Qle_bool_iff.
  split; [apply Qnot_le_lt | apply Qlt_not_le].
Qed.

Lemma Qltb_false (a b : Q) : Qltb a b = false <-> (b <= a)%Q.
Proof. unfold Qltb. by rewrite negb_false_iff, Qle_bool_iff. Qed.

Lemma py_div_nonzero (a b : Q) : Qeq_bool b 0 = false -> py_div a b = Ok (a / b)%Q.
Proof. intros Hb. unfold py_div. by rewrite Hb. Qed.

(** A reward is computed whenever the entry price is not zero. *)
Lemma calculate_reward_buy (rc : RewardCalculator) (entry price size : Q) vol :
  Qeq_bool entry 0 = false ->
  exists reward, calculate_reward rc "BUY" entry price size vol = Ok reward.
Proof.
  intros Hz. unfold calculate_reward. rewrite py_div_nonzero by done.
  simpl. eauto.
Qed.

(** The options reward never raises: both divisions are guarded. *)
Lemma calculate_options_reward_returns (rc : RewardCalculator)
  (action strategy : string) (premium pnl max_loss : Q) greeks :
  exists reward,
    calculate_options_reward rc action strategy premium pnl max_loss greeks
    = Ok reward.
Proof.
  unfold calculate_options_reward.
  destruct (Qltb 0 premium) eqn:Hp.
  - apply Qltb_true, Qeq_bool_pos in Hp. rewrite (py_div_nonzero _ _ Hp). simpl.
    destruct (Qltb 0 max_loss) eqn:Hm.
    + apply Qltb_true, Qeq_bool_pos in Hm. rewrite (py_div_nonzero _ _ Hm).
      simpl. eauto.
    + simpl. eauto.
  - simpl. destruct (Qltb 0 max_loss) eqn:Hm.
    + apply Qltb_true, Qeq_bool_pos in Hm. rewrite (py_div_nonzero _ _ Hm).
      simpl. eauto.
    + simpl. eauto.
Qed.

(** C9. For every entry price [p > 0], every position size and either
    direction, a trade closed at its entry price has a profit ratio equal to
    zero, fails the strict test [pnl > 0], takes the loss-penalty branch and
    is rewarded with exactly the negated transaction cost, which is -0.01
    for the default calculator. *)
Theorem C9_break_even_trade_is_penalised (rc : RewardCalculator)
  (p size : Q) (action : string) :
  (0 < p)%Q ->
  action = "BUY" \/ action = "SELL" ->
  exists pnl reward,
    py_div (p - p) p = Ok pnl
    /\ Qltb 0 pnl = false
    /\ calculate_reward rc action p p size None = Ok reward
    /\ reward = (loss_penalty rc * (Qabs pnl * 10) - transaction_cost rc)%Q
    /\ (reward == - transaction_cost rc)%Q
    /\ (rc = default -> (reward == -0.01)%Q).
Proof.
  intros Hp Hact.
  assert (Hz : Qeq_bool p 0 = false) by by apply Qeq_bool_pos.
  assert (Hpnl : ((p - p) / p == 0)%Q).
  { unfold Qdiv. assert (Hpp : (p - p == 0)%Q) by ring. rewrite Hpp. ring. }
  assert (Hlt : Qltb 0 ((p - p) / p) = false).
  { apply Qltb_false. rewrite Hpnl. apply Qle_refl. }
  exists ((p - p) / p)%Q,
         (loss_penalty rc * (Qabs ((p - p) / p) * 10) - transaction_cost rc)%Q.
  assert (Hr : (loss_penalty rc * (Qabs ((p - p) / p) * 10) - transaction_cost rc
                == - transaction_cost rc)%Q).
  { rewrite Hpnl. change (Qabs 0) with 0%Q. ring. }
  split; [by apply py_div_nonzero|].
  split; [exact Hlt|].
  split.
  { unfold calculate_reward.
    destruct Hact as [-> | ->]; simpl; rewrite py_div_nonzero by done;
      simpl; by rewrite Hlt. }
  split; [reflexivity|].
  split; [exact Hr|].
  intros ->. rewrite Hr. reflexivity.
Qed.

End RewardFacts.

Lemma C9_witness :
  (0 < 100)%Q
  /\ exists reward,
       RewardCalculator.calculate_reward RewardCalculator.default "BUY" 100 100 1 None
       = Ok reward
       /\ (reward == -0.01)%Q.
Proof.
  split; [reflexivity|].
  destruct (C9_break_even_trade_is_penalised RewardCalculator.default 100 1 "BUY"
              eq_refl (or_introl eq_refl))
    as (pnl & reward & _ & _ & Hr & _ & _ & Hd).
  exists reward. split; [exact Hr | exact (Hd eq_refl)].
Defined.

(** ** TradingEnvironment: the episode state machine *)

Section EnvironmentFacts.
Import TradingEnvironment.

(** [reset] restores the initial episode state and keeps the configuration. *)
Lemma reset_state (env : TradingEnvironment) new_state :
  let env0 := fst (reset env new_state) in
  current_step env0 = 0 /\ capital env0 = initial_capital env
  /\ position env0 = 0 /\ entry_price env0 = 0%Q /\ trade_history env0 = []
  /\ state_dim env0 = state_dim env
  /\ reward_calculator env0 = reward_calculator env
  /\ initial_capital env0 = initial_capital env
  /\ max_steps env0 = max_steps env
  /\ action_space_n env0 = action_space_n env.
Proof.
  destruct env. unfold reset. simpl.
  destruct new_state as [st|]; [destruct (dict_truthy st)|]; simpl; auto 12.
Qed.

(** BUY while flat opens a long position at the current price, reward 0. *)
Lemma step_buy_flat (env : TradingEnvironment) st price v :
  action_space_n env = 3 -> position env = 0 ->
  StateEncoder.encode (state_dim env) st = Ok v ->
  exists done info,
    step env 0 st price
    = (mkEnv (state_dim env) (reward_calculator env) (initial_capital env)
         (max_steps env) (current_step env + 1) (capital env) 1 price st
         (trade_history env) 3,
       Ok (v, 0%Q, done, info)).
Proof.
  intros Hn Hp He. destruct env as [d rc ic ms cs cap pos ep ast th asn].
  simpl in *. subst. unfold step. simpl.
  change (StateEncoder.decode_action 0 3) with (@Ok string "BUY").
  unfold execute. simpl. rewrite He. eauto.
Qed.

(** SELL while long realises the trade and returns to flat. *)
Lemma step_sell_long (env : TradingEnvironment) st price v :
  action_space_n env = 3 -> position env = 1 ->
  Qeq_bool (entry_price env) 0 = false ->
  StateEncoder.encode (state_dim env) st = Ok v ->
  exists reward done info,
    RewardCalculator.calculate_reward (reward_calculator env) "BUY"
      (entry_price env) price 1 None = Ok reward
    /\ step env 2 st price
       = (mkEnv (state_dim env) (reward_calculator env) (initial_capital env)
            (max_steps env) (current_step env + 1)
            (capital env + (price - entry_price env) / entry_price env * capital env)%Q
            0 0%Q st
            (trade_history env
             ++ [StockTrade (entry_price env) price
                   ((price - entry_price env) / entry_price env * capital env)%Q
                   reward])
            3,
          Ok (v, reward, done, info)).
Proof.
  intros Hn Hp Hz He. destruct env as [d rc ic ms cs cap pos ep ast th asn].
  simpl in *. subst.
  destruct (calculate_reward_buy rc ep price 1 None Hz) as [reward Hr].
  exists reward. unfold step. simpl.
  change (StateEncoder.decode_action 2 3) with (@Ok string "SELL").
  unfold execute. simpl. rewrite Hr. rewrite py_div_nonzero by done.
  simpl. rewrite He. eauto.
Qed.

(** C2. With the default reward calculator, after [reset] of an environment
    whose initial capital is 100000, BUY at price 100 returns reward exactly
    0 and leaves a long position entered at 100; SELL at price 110 then
    returns a positive reward, brings the capital to
    100000 + ((110 - 100) / 100) * 100000 = 110000, leaves exactly one trade
    record in the history and the position flat. The reports of both steps
    are text. *)
Theorem C2_buy_then_sell_scenario (env : TradingEnvironment)
  (st0 : option (gmap string pyval)) (st1 st2 : gmap string pyval) :
  initial_capital env = 100000%Q ->
  reward_calculator env = RewardCalculator.default ->
  action_space_n env = 3 ->
  text_reports st1 = true ->
  text_reports st2 = true ->
  let env0 := fst (reset env st0) in
  let env1 := fst (step env0 0 st1 100) in
  let env2 := fst (step env1 2 st2 110) in
  (position env0 = 0 /\ capital env0 = 100000%Q)
  /\ (exists ns done info, snd (step env0 0 st1 100) = Ok (ns, 0%Q, done, info))
  /\ position env1 = 1 /\ entry_price env1 = 100%Q
  /\ (exists ns reward done info pnl,
        snd (step env1 2 st2 110) = Ok (ns, reward, done, info)
        /\ trade_history env2 = [StockTrade 100 110 pnl reward]
        /\ (0 < reward)%Q /\ (reward == 0.99)%Q /\ (pnl == 10000)%Q)
  /\ (capital env2 == 100000 + ((110 - 100) / 100) * 100000)%Q
  /\ (capital env2 == 110000)%Q
  /\ position env2 = 0.
Proof.
  intros Hcap Hrc Hn H1 H2 env0.
  destruct (reset_state env st0)
    as (_ & Hc0 & Hp0 & _ & Hh0 & Hd0 & Hrc0 & _ & _ & Hn0).
  fold env0 in Hc0, Hp0, Hh0, Hd0, Hrc0, Hn0.
  rewrite Hcap in Hc0. rewrite Hrc in Hrc0. rewrite Hn in Hn0.
  destruct (encode_text_returns (state_dim env0) st1 H1) as (v1 & E1 & _).
  destruct (encode_text_returns (state_dim env0) st2 H2) as (v2 & E2 & _).
  destruct (step_buy_flat env0 st1 100 v1 Hn0 Hp0 E1) as (done1 & info1 & Hs1).
  intros env1. subst env1. rewrite Hs1. simpl fst.
  match goal with |- context [step ?e 2 st2 110] => set (env1 := e) end.
  destruct (step_sell_long env1 st2 110 v2 eq_refl eq_refl eq_refl E2)
    as (reward & done2 & info2 & Hr & Hs2).
  intros env2. subst env2. rewrite Hs2. simpl fst. simpl snd.
  subst env1. simpl in Hr |- *. rewrite Hrc0 in Hr. rewrite Hc0, Hh0.
  vm_compute in Hr. injection Hr as <-.
  split; [done|]. split; [eauto|]. split; [done|]. split; [done|].
  split; [do 5 eexists; split; [reflexivity|]; repeat split; reflexivity|].
  split; [reflexivity|]. split; reflexivity.
Qed.

(** The branch of [step] on the action keeps the step counter and the
    configuration. *)
Lemma execute_keeps (env env' : TradingEnvironment) action_str price info out :
  execute env action_str price info = (env', out) ->
  current_step env' = current_step env /\ max_steps env' = max_steps env
  /\ initial_capital env' = initial_capital env
  /\ state_dim env' = state_dim env /\ agent_state env' = agent_state env.
Proof.
  unfold execute. destruct env as [d rc ic ms cs cap pos ep ast th asn]. simpl.
  destruct (bool_decide (action_str = "BUY") && (pos =? 0)).
  { intros [= <- _]. simpl. auto. }
  destruct (bool_decide (action_str = "SELL") && (pos =? 1)).
  2:{ intros [= <- _]. simpl. auto. }
  destruct (RewardCalculator.calculate_reward rc "BUY" ep price 1 None).
  2:{ intros [= <- _]. simpl. auto. }
  destruct (py_div (price - ep) ep).
  2:{ intros [= <- _]. simpl. auto. }
  intros [= <- _]. simpl. auto.
Qed.

(** The flag [done] of a stock step, as computed on the state it leaves. *)
Lemma step_done (env env' : TradingEnvironment) action st price ns reward done info :
  step env action st price = (env', Ok (ns, reward, done, info)) ->
  current_step env' = current_step env + 1
  /\ max_steps env' = max_steps env
  /\ initial_capital env' = initial_capital env
  /\ done = (max_steps env' <=? current_step env')
            || Qle_bool (capital env') 0
            || Qle_bool (initial_capital env' * 2) (capital env').
Proof.
  unfold step.
  destruct (StateEncoder.decode_action _ _) as [action_str|]; [|discriminate].
  destruct (execute _ _ _ _) as [env2 [[reward2 info2]|]] eqn:Hex; [|discriminate].
  apply execute_keeps in Hex. destruct Hex as (Hcs & Hms & Hic & _ & _).
  destruct (StateEncoder.encode _ _); [|discriminate].
  intros [= <- <- <- <- <-]. rewrite Hcs, Hms, Hic.
  destruct env. simpl. auto.
Qed.

(** The same for an options step. *)
Lemma step_options_done (env env' : TradingEnvironment) action st strategy
  premium pnl max_loss greeks ns reward done info :
  step_options env action st strategy premium pnl max_loss greeks
  = (env', Ok (ns, reward, done, info)) ->
  current_step env' = current_step env + 1
  /\ max_steps env' = max_steps env
  /\ initial_capital env' = initial_capital env
  /\ done = (max_steps env' <=? current_step env')
            || Qle_bool (capital env') (initial_capital env' * 0.5)
            || Qle_bool (initial_capital env' * 1.5) (capital env').
Proof.
  unfold step_options.
  destruct (RewardCalculator.calculate_options_reward _ _ _ _ _ _ _); [|discriminate].
  destruct (StateEncoder.encode _ _); [|discriminate].
  intros [= <- <- <- <- <-]. destruct env. simpl. auto.
Qed.

(** A stock step returns whenever the action is one of the three, the
    reports are text and no position was entered at price zero. *)
Lemma step_returns (env : TradingEnvironment) action st price :
  action_space_n env = 3 ->
  action = 0 \/ action = 1 \/ action = 2 ->
  text_reports st = true ->
  (position env = 1 -> Qeq_bool (entry_price env) 0 = false) ->
  exists env' obs, step env action st price = (env', Ok obs).
Proof.
  intros Hn Hact Ht Hentry.
  destruct (encode_text_returns (state_dim env) st Ht) as (v & Hv & _).
  destruct env as [d rc ic ms cs cap pos ep ast th asn]. simpl in *. subst asn.
  unfold step. simpl.
  destruct Hact as [-> | [-> | ->]].
  - change (StateEncoder.decode_action 0 3) with (@Ok string "BUY").
    unfold execute. simpl. destruct (pos =? 0); simpl; rewrite Hv; eauto.
  - change (StateEncoder.decode_action 1 3) with (@Ok string "HOLD").
    unfold execute. simpl. rewrite Hv. eauto.
  - change (StateEncoder.decode_action 2 3) with (@Ok string "SELL").
    unfold execute. simpl. destruct (Z.eqb_spec pos 1) as [->|Hp]; simpl.
    + specialize (Hentry eq_refl).
      destruct (calculate_reward_buy rc ep price 1 None Hentry) as [reward Hr].
      rewrite Hr, (py_div_nonzero _ _ Hentry). simpl. rewrite Hv. eauto.
    + rewrite Hv. eauto.
Qed.

Lemma done_iff (budget : bool) (a b c d : Q) :
  budget || Qle_bool a b || Qle_bool c d = true
  <-> budget = true \/ (a <= b)%Q \/ (c <= d)%Q.
Proof. rewrite !orb_true_iff, !Qle_bool_iff. tauto. Qed.

(** C3. A stock step that returns reports [done] exactly when, in the state
    it leaves, the step counter (one more than before) has reached
    [max_steps], or the capital is at most 0, or the capital is at least
    twice the initial capital. An options step that returns reports [done]
    exactly when the step counter has reached [max_steps], or the capital is
    at most 0.5 times the initial capital, or at least 1.5 times it. *)
Theorem C3_done_conditions
  (env env' : TradingEnvironment) action st price ns reward done info
  (oenv oenv' : TradingEnvironment) oaction ost strategy premium pnl max_loss
  greeks ons oreward odone oinfo :
  step env action st price = (env', Ok (ns, reward, done, info)) ->
  step_options oenv oaction ost strategy premium pnl max_loss greeks
  = (oenv', Ok (ons, oreward, odone, oinfo)) ->
  (current_step env' = current_step env + 1
   /\ (done = true <->
       max_steps env <= current_step env'
       \/ (capital env' <= 0)%Q
       \/ (initial_capital env * 2 <= capital env')%Q))
  /\ (current_step oenv' = current_step oenv + 1
      /\ (odone = true <->
          max_steps oenv <= current_step oenv'
          \/ (capital oenv' <= initial_capital oenv * 0.5)%Q
          \/ (initial_capital oenv * 1.5 <= capital oenv')%Q)).
Proof.
  intros Hs Ho.
  apply step_done in Hs. destruct Hs as (Hcs & Hms & Hic & ->).
  apply step_options_done in Ho. destruct Ho as (Hocs & Homs & Hoic & ->).
  rewrite !done_iff, Hms, Hic, Homs, Hoic, !Z.leb_le. tauto.
Qed.

(** C10. Every call of [step_options], whatever the action index and
    whether or not the final encoding raises, advances the step counter by
    one, adds the supplied [pnl] to the capital and appends exactly one
    trade record; the reward is computed for "BUY" when the index is 0 and
    for "SELL" for every other index, and a call that returns reports that
    action in its info; on text reports the call returns. *)
Theorem C10_step_options_always_trades (env : TradingEnvironment) (action : Z)
  (st : gmap string pyval) (strategy : string) (premium pnl max_loss : Q)
  (greeks : option (gmap string Q)) :
  let action_str : string := if action =? 0 then "BUY" else "SELL" in
  let env' := fst (step_options env action st strategy premium pnl max_loss greeks) in
  let out := snd (step_options env action st strategy premium pnl max_loss greeks) in
  (action = 0 -> action_str = "BUY") /\ (action <> 0 -> action_str = "SELL")
  /\ exists reward,
      RewardCalculator.calculate_options_reward (reward_calculator env)
        action_str strategy premium pnl max_loss greeks = Ok reward
      /\ current_step env' = current_step env + 1
      /\ capital env' = (capital env + pnl)%Q
      /\ trade_history env'
         = trade_history env ++ [OptionsTrade strategy premium pnl reward greeks]
      /\ position env' = position env
      /\ (forall ns r done info,
            out = Ok (ns, r, done, info) ->
            r = reward /\ info !! "action" = Some (PStr action_str))
      /\ (text_reports st = true -> exists obs, out = Ok obs).
Proof.
  intros action_str env' out.
  split. { intros ->. reflexivity. }
  split. { intros Hne. subst action_str. by destruct (Z.eqb_spec action 0). }
  destruct (calculate_options_reward_returns (reward_calculator env) action_str
              strategy premium pnl max_loss greeks) as [reward Hr].
  exists reward. split; [exact Hr|].
  subst env' out. unfold step_options.
  destruct env as [d rc ic ms cs cap pos ep ast th asn]. simpl in *.
  fold action_str. rewrite Hr.
  destruct (StateEncoder.encode d st) as [v|e] eqn:He; simpl.
  - repeat (split; [reflexivity|]). split.
    + intros ns r done info [= <- <- <- <-]. split; [reflexivity|].
      by simplify_map_eq.
    + eauto.
  - repeat (split; [reflexivity|]). split; [discriminate|].
    intros Ht. destruct (encode_text_returns d st Ht) as (v & Hv & _).
    congruence.
Qed.

End EnvironmentFacts.

Lemma C2_witness :
  let env1 := fst (TradingEnvironment.step
                     (fst (TradingEnvironment.reset example_env None)) 0 ∅ 100) in
  let env2 := fst (TradingEnvironment.step env1 2 sample_state 110) in
  (initial_capital example_env = 100000%Q /\ text_reports ∅ = true
   /\ text_reports sample_state = true)
  /\ (capital env2 == 110000)%Q /\ position env2 = 0.
Proof.
  split; [repeat split|].
  apply (C2_buy_then_sell_scenario example_env None ∅ sample_state);
    reflexivity.
Defined.

Lemma C3_witness :
  let r := TradingEnvironment.step example_env 0 ∅ 100 in
  let o := TradingEnvironment.step_options example_env 1 ∅ "straddle" 5 60000 10 None in
  (exists ns reward info, r = (fst r, Ok (ns, reward, false, info)))
  /\ (exists ns reward info, o = (fst o, Ok (ns, reward, true, info)))
  /\ (max_steps example_env <= current_step (fst o)
      \/ (capital (fst o) <= initial_capital example_env * 0.5)%Q
      \/ (initial_capital example_env * 1.5 <= capital (fst o))%Q).
Proof.
  intros r o.
  assert (Hr : exists ns reward info, r = (fst r, Ok (ns, reward, false, info)))
    by (do 3 eexists; reflexivity).
  assert (Ho : exists ns reward info, o = (fst o, Ok (ns, reward, true, info)))
    by (do 3 eexists; reflexivity).
  split; [exact Hr|]. split; [exact Ho|].
  destruct Hr as (ns & reward & info & Hr), Ho as (ons & oreward & oinfo & Ho).
  destruct (C3_done_conditions _ _ _ _ _ _ _ _ _ _ _ _ _ _ _ _ _ _ _ _ _ _ Hr Ho)
    as [_ [_ Hiff]].
  apply Hiff. reflexivity.
Defined.

Lemma C10_witness :
  let env' := fst (TradingEnvironment.step_options example_env 1 web_app_state
                     "straddle" 5 (-20) 10 None) in
  current_step env' = 1 /\ capital env' = (100000 + -20)%Q
  /\ length (trade_history env') = 1%nat.
Proof.
  destruct (C10_step_options_always_trades example_env 1 web_app_state
              "straddle" 5 (-20) 10 None)
    as (_ & _ & reward & _ & Hs & Hc & Hh & _).
  split; [exact Hs|]. split; [exact Hc|]. rewrite Hh. reflexivity.
Defined.

(** ** Statistics of an episode without trades *)

Section StatisticsFacts.
Context `{Numpy}.
Import TradingEnvironment.

(** With trades recorded and a non-zero initial capital, the statistics
    carry the final capital and the return percentage. *)
Lemma statistics_with_trades (env : TradingEnvironment) :
  trade_history env <> [] ->
  Qeq_bool (initial_capital env) 0 = false ->
  exists stats,
    get_trade_statistics env = Ok stats
    /\ stats !! "final_capital" = Some (PFloat (capital env))
    /\ stats !! "return_pct"
       = Some (PFloat ((capital env - initial_capital env) / initial_capital env * 100)).
Proof.
  intros Hne Hz. unfold get_trade_statistics.
  destruct (trade_history env) as [|t th]; [done|].
  rewrite py_div_nonzero by done. simpl.
  eexists. split; [reflexivity|]. split; by simplify_map_eq.
Qed.

(** C7. Right after [reset], with an empty trade history, the statistics
    are the six zero-valued entries [total_trades], [win_rate],
    [avg_profit], [avg_loss], [total_pnl] and [sharpe_ratio]; no division is
    made. The entries [final_capital] and [return_pct] are absent, and
    [render], which reads [return_pct], raises KeyError after printing six
    values. *)
Theorem C7_empty_statistics_lack_capital_and_return (env : TradingEnvironment)
  (new_state : option (gmap string pyval)) :
  let env0 := fst (reset env new_state) in
  exists stats,
    get_trade_statistics env0 = Ok stats
    /\ stats !! "total_trades" = Some (PInt 0)
    /\ stats !! "win_rate" = Some (PFloat 0)
    /\ stats !! "avg_profit" = Some (PFloat 0)
    /\ stats !! "avg_loss" = Some (PFloat 0)
    /\ stats !! "total_pnl" = Some (PFloat 0)
    /\ stats !! "sharpe_ratio" = Some (PFloat 0)
    /\ stats !! "final_capital" = None
    /\ stats !! "return_pct" = None
    /\ snd (render env0 "human") = Raise KeyError
    /\ length (fst (render env0 "human")) = 6%nat.
Proof.
  intros env0.
  destruct (reset_state env new_state) as (_ & _ & _ & _ & Hh & _).
  fold env0 in Hh.
  unfold render, get_trade_statistics. rewrite Hh.
  eexists. split; [reflexivity|].
  repeat split; reflexivity.
Qed.

End StatisticsFacts.

(** Right after [reset], [render] prints the step, the capital, the
    position, the number of trades, the win rate and the total P&L, and
    raises. *)
Lemma render_after_reset :
  @TradingEnvironment.render example_numpy
    (fst (TradingEnvironment.reset example_env None)) "human"
  = ([PInt 0; PFloat 100000; PInt 0; PInt 0; PFloat 0; PFloat 0], Raise KeyError).
Proof. reflexivity. Qed.

(** After the purchase at 100 and the sale at 110 the statistics do carry
    the final capital and a return of ten percent. *)
Lemma statistics_after_sale :
  let env1 := fst (TradingEnvironment.step
                     (fst (TradingEnvironment.reset example_env None)) 0 ∅ 100) in
  let env2 := fst (TradingEnvironment.step env1 2 ∅ 110) in
  exists stats growth,
    @TradingEnvironment.get_trade_statistics example_numpy env2 = Ok stats
    /\ stats !! "final_capital" = Some (PFloat (capital env2))
    /\ stats !! "return_pct" = Some (PFloat growth)
    /\ (growth == 10)%Q.
Proof.
  intros env1 env2.
  destruct (@statistics_with_trades example_numpy env2) as (stats & Hs & Hc & Hr);
    [vm_compute; discriminate | reflexivity |].
  exists stats. eexists. split; [exact Hs|]. split; [exact Hc|].
  split; [exact Hr|]. vm_compute. reflexivity.
Qed.

(** ** RLTradingAgent: training on a short buffer, loading a checkpoint *)

Section AgentFacts.
Context `{Torch} `{Random}.
Import RLTradingAgent.

(** [sample] refuses a batch larger than the buffer, drawing nothing. *)
Lemma sample_short (rb : ReplayBuffer) (k : Z) (g : rng) :
  Z.of_nat (ReplayBuffer.len rb) < k ->
  ReplayBuffer.sample rb k g = (g, Raise ValueError).
Proof.
  intros Hlt. unfold ReplayBuffer.sample.
  destruct (Z.ltb_spec (Z.of_nat (ReplayBuffer.len rb)) k); [|lia].
  by rewrite orb_true_r.
Qed.

(** C6. While the replay buffer holds fewer transitions than [batch_size],
    [train_step] returns [None] without raising and leaves the agent (its
    networks, optimizer, epsilon, step counter, buffer and loss history) and
    the random generator exactly as they were; a [sample] of [batch_size]
    from that buffer raises ValueError without drawing and returns no
    data. *)
Theorem C6_train_step_skips_on_short_buffer (a : t) (g : rng) :
  Z.of_nat (ReplayBuffer.len (replay_buffer a)) < batch_size a ->
  train_step a g = (a, g, Ok None)
  /\ ReplayBuffer.sample (replay_buffer a) (batch_size a) g = (g, Raise ValueError).
Proof.
  intros Hlt. split; [|by apply sample_short].
  unfold train_step.
  by destruct (Z.ltb_spec (Z.of_nat (ReplayBuffer.len (replay_buffer a)))
                 (batch_size a)); [|lia].
Qed.

End AgentFacts.

Lemma C6_witness :
  let a := (@RLTradingAgent.store_experience example_torch
              (example_agent 0 4 3) (tr 1)) in
  Z.of_nat (ReplayBuffer.len (RLTradingAgent.replay_buffer a))
  < RLTradingAgent.batch_size a
  /\ @RLTradingAgent.train_step example_torch example_random a 0%nat
     = (a, 0%nat, Ok None).
Proof.
  intros a. split; [reflexivity|].
  apply (@C6_train_step_skips_on_short_buffer example_torch example_random a 0%nat).
  reflexivity.
Defined.

(** ** Loading a checkpoint of other dimensions *)

Section LoadFacts.
Context `{Torch}.
Import RLTradingAgent.

(** The parameters of the DQN with the default hidden layers. *)
Lemma dqn_shapes_default sa aa :
  Nn.dqn_shapes 0 sa Nn.default_hidden_dims aa
  = [ (Weight 0, [256; sa]); (Bias 0, [256]); (Weight 3, [128; 256]); (Bias 3, [128]);
      (Weight 6, [64; 128]); (Bias 6, [64]); (Weight 9, [aa; 64]); (Bias 9, [aa]) ]%nat.
Proof. reflexivity. Qed.

Lemma dqn_shaped_inv sd sa aa :
  dqn_shaped sd sa aa ->
  exists d0 d1 d2 d3 d4 d5 d6 d7,
    sd = [ (Weight 0, mkTensor [256; sa] d0); (Bias 0, mkTensor [256] d1);
           (Weight 3, mkTensor [128; 256] d2); (Bias 3, mkTensor [128] d3);
           (Weight 6, mkTensor [64; 128] d4); (Bias 6, mkTensor [64] d5);
           (Weight 9, mkTensor [aa; 64] d6); (Bias 9, mkTensor [aa] d7) ]%nat.
Proof.
  unfold dqn_shaped. rewrite dqn_shapes_default. intros Hs.
  do 8 (destruct sd as [|[? [? ?]] sd]; [discriminate Hs|]).
  destruct sd; [|discriminate Hs].
  simpl in Hs.
  injection Hs as -> -> -> -> -> -> -> -> -> -> -> -> -> -> -> ->.
  do 8 eexists. reflexivity.
Qed.

(** Between two DQNs of different dimensions the first or the last weight
    differs in shape, and the strict load raises. *)
Lemma load_mismatch_raises pa pb sa aa sb ab :
  dqn_shaped pa sa aa -> dqn_shaped pb sb ab ->
  sa <> sb \/ aa <> ab ->
  snd (Nn.load_state_dict pa pb) = Raise RuntimeError.
Proof.
  intros (a0 & a1 & a2 & a3 & a4 & a5 & a6 & a7 & ->)%dqn_shaped_inv
         (b0 & b1 & b2 & b3 & b4 & b5 & b6 & b7 & ->)%dqn_shaped_inv Hne.
  unfold Nn.load_state_dict. cbn [snd].
  match goal with |- (if existsb snd ?l || _ then _ else _) = _ =>
    assert (Hany : existsb snd l = true) end.
  { apply existsb_exists. destruct Hne as [Hs | Ha].
    - eexists. split; [left; reflexivity|].
      unfold Nn.load_param. simpl.
      rewrite bool_decide_eq_false_2; [reflexivity | congruence].
    - eexists. split; [do 6 right; left; reflexivity|].
      unfold Nn.load_param. simpl.
      rewrite bool_decide_eq_false_2; [reflexivity | congruence]. }
  by rewrite Hany.
Qed.

Lemma load_param_keeps sd entry :
  fst (fst (Nn.load_param sd entry)) = fst entry
  /\ shape (snd (fst (Nn.load_param sd entry))) = shape (snd entry).
Proof.
  unfold Nn.load_param. destruct (Nn.sd_lookup _ _); [case_bool_decide|]; done.
Qed.

(** A load, failed or not, keeps the keys and shapes of the module. *)
Lemma load_keeps_shapes m sd sa aa :
  dqn_shaped m sa aa -> dqn_shaped (fst (Nn.load_state_dict m sd)) sa aa.
Proof.
  unfold dqn_shaped, Nn.load_state_dict. cbn [fst]. intros <-.
  rewrite !map_map. apply map_ext. intros entry.
  destruct (load_param_keeps sd entry) as [-> ->]. reflexivity.
Qed.

(** Between two DQNs of the same dimensions the strict load succeeds and
    installs every tensor of the artifact. *)
Lemma load_same_dims m sd s a :
  dqn_shaped m s a -> dqn_shaped sd s a ->
  Nn.load_state_dict m sd = (sd, Ok ()).
Proof.
  intros (a0 & a1 & a2 & a3 & a4 & a5 & a6 & a7 & ->)%dqn_shaped_inv
         (b0 & b1 & b2 & b3 & b4 & b5 & b6 & b7 & ->)%dqn_shaped_inv.
  unfold Nn.load_state_dict, Nn.load_param. simpl.
  rewrite !bool_decide_eq_true_2 by reflexivity. simpl.
  vm_compute. reflexivity.
Qed.

Lemma DQN_shaped draw s a : dqn_shaped (Nn.DQN draw s a) s a.
Proof. reflexivity. Qed.

(** With equal dimensions, and an optimizer state that loads, [load_model]
    installs the networks, the optimizer state, epsilon, the step counter
    and the episode rewards of the artifact. *)
Lemma load_model_same_dims (a b : t) (opt : optim) :
  well_formed a -> well_formed b ->
  state_dim a = state_dim b -> action_dim a = action_dim b ->
  adam_load (optimizer a) (optimizer b) = Ok opt ->
  load_model a (save_model b)
  = (mkAgent _ (state_dim a) (action_dim a) (gamma a) (epsilon b)
       (epsilon_end a) (epsilon_decay a) (batch_size a) (target_update_freq a)
       (policy_net b) (target_net b) opt (replay_buffer a) (training_step b)
       (episode_rewards b) (losses a),
     Ok ()).
Proof.
  intros [Hpa Hta] [Hpb Htb] Hs Ha Hopt. unfold load_model, save_model.
  rewrite <- Hs, <- Ha in Hpb, Htb.
  cbn -[Nn.load_state_dict]. rewrite (load_same_dims _ _ _ _ Hpa Hpb).
  cbn -[Nn.load_state_dict]. rewrite (load_same_dims _ _ _ _ Hta Htb).
  cbn. by rewrite Hopt.
Qed.

(** C8. Loading the artifact saved by an agent with a different
    [state_dim] or [action_dim] raises RuntimeError to the caller, out of the
    first [load_state_dict]; the target network, the optimizer state,
    epsilon, the step counter, the episode rewards and the replay buffer are
    left as they were, and the policy network keeps its keys and shapes. (Its
    tensors whose shape agrees with the artifact's are overwritten before the
    error is raised.) *)
Theorem C8_load_model_mismatch_raises (a b : t) :
  well_formed a -> well_formed b ->
  state_dim a <> state_dim b \/ action_dim a <> action_dim b ->
  let a' := fst (load_model a (save_model b)) in
  snd (load_model a (save_model b)) = Raise RuntimeError
  /\ target_net a' = target_net a
  /\ optimizer a' = optimizer a
  /\ epsilon a' = epsilon a
  /\ training_step a' = training_step a
  /\ episode_rewards a' = episode_rewards a
  /\ replay_buffer a' = replay_buffer a
  /\ well_formed a'
  /\ state_dim a' = state_dim a /\ action_dim a' = action_dim a.
Proof.
  intros [Hpa Hta] [Hpb Htb] Hne a'. subst a'. unfold load_model, save_model.
  cbn [policy_net_state_dict].
  pose proof (load_mismatch_raises _ _ _ _ _ _ Hpa Hpb Hne) as Hraise.
  pose proof (load_keeps_shapes _ (policy_net b) _ _ Hpa) as Hkeep.
  destruct (Nn.load_state_dict (policy_net a) (policy_net b)) as [policy loaded].
  simpl in Hraise, Hkeep. subst loaded. simpl.
  repeat (split; [reflexivity|]). split; [split; assumption|]. done.
Qed.
End LoadFacts.


(** The example agents are what [__init__] constructs. *)
Lemma example_agent_is_init draw state_dim action_dim :
  @RLTradingAgent.init example_torch example_machine draw state_dim action_dim
    0.001 0.99 1 0.01 0.995 10000 64 10 "cpu"
  = Ok (example_agent draw state_dim action_dim).
Proof.
  unfold RLTradingAgent.init, example_agent.
  rewrite (load_same_dims _ _ state_dim action_dim) by apply DQN_shaped.
  reflexivity.
Qed.

Lemma example_agent_well_formed draw state_dim action_dim :
  @well_formed example_torch (example_agent draw state_dim action_dim).
Proof. split; reflexivity. Qed.

Lemma C8_witness :
  let a := example_agent 0 4 3 in
  let b := example_agent 7 8 3 in
  snd (@RLTradingAgent.load_model example_torch a
         (@RLTradingAgent.save_model example_torch b)) = Raise RuntimeError.
Proof.
  intros a b.
  apply (@C8_load_model_mismatch_raises example_torch a b
           (example_agent_well_formed 0 4 3) (example_agent_well_formed 7 8 3)).
  left. discriminate.
Defined.

(** A failed load is not atomic: an agent for states of 4 values loads the
    artifact of an agent for states of 8 values; the call raises, yet the
    bias of the first layer, whose shape is the same in both, now holds the
    artifact's values, so the policy network and the agent have changed. *)
Lemma C8_counterexample :
  let a := example_agent 0 4 3 in
  let b := example_agent 7 8 3 in
  let a' := fst (@RLTradingAgent.load_model example_torch a
                   (@RLTradingAgent.save_model example_torch b)) in
  @well_formed example_torch a /\ @well_formed example_torch b
  /\ @RLTradingAgent.state_dim example_torch a
     <> @RLTradingAgent.state_dim example_torch b
  /\ Nn.sd_lookup (Bias 0) (@RLTradingAgent.policy_net example_torch a)
     = Some (mkTensor [256%nat] (replicate 256 0%Q))
  /\ Nn.sd_lookup (Bias 0) (@RLTradingAgent.policy_net example_torch a')
     = Some (mkTensor [256%nat] (replicate 256 7%Q))
  /\ @RLTradingAgent.policy_net example_torch a'
     <> @RLTradingAgent.policy_net example_torch a
  /\ a' <> a.
Proof.
  intros a b a'.
  assert (Hne : @RLTradingAgent.policy_net example_torch a'
                <> @RLTradingAgent.policy_net example_torch a).
  { intros Heq.
    apply (f_equal (fun sd => Nn.sd_lookup (Bias 0) sd ≫= fun t => head (data t))) in Heq.
    vm_compute in Heq. discriminate Heq. }
  split; [apply example_agent_well_formed|].
  split; [apply example_agent_well_formed|].
  split; [discriminate|].
  split; [reflexivity|]. split; [reflexivity|]. split; [exact Hne|].
  intros Heq. apply Hne. by rewrite Heq.
Qed.

(** ** The scenario values in binary64

    The expressions [step] and [calculate_reward] evaluate in the scenarios
    above, on IEEE 754 doubles as Python computes them: the capital after the
    sale is 110000 exactly, its reward is positive, and the reward of a trade
    closed at its entry price is the double nearest to -0.01. *)

Module Binary64.
#[local] Set Warnings "-inexact-float".

Lemma capital_after_sale :
  (100000 + (110 - 100) / 100 * 100000 =? 110000)%float = true.
Proof. reflexivity. Qed.

Lemma reward_of_sale_positive :
  (0 <? 1 * (abs ((110 - 100) / 100) * 10) - 0.01)%float = true.
Proof. reflexivity. Qed.

Lemma reward_of_break_even :
  (-1 * (abs ((100 - 100) / 100) * 10) - 0.01 =? -0.01)%float = true.
Proof. reflexivity. Qed.

End Binary64.

(** * Further properties of the code *)

(** ** Storing experiences and sampling them *)

Section StoreAndSampleFacts.
Context `{Torch} `{Random}.
Import RLTradingAgent.

(** From any buffer within its bound, a run of pushes leaves the most
    recent items of the old contents followed by the run. *)
Lemma push_all_from (rb : ReplayBuffer) (ts : list transition) :
  (ReplayBuffer.len rb <= rb_maxlen rb)%nat ->
  rb_buffer (ReplayBuffer.push_all rb ts)
  = drop (length (rb_buffer rb ++ ts) - rb_maxlen rb) (rb_buffer rb ++ ts).
Proof.
  intros Hle. unfold ReplayBuffer.len in Hle.
  induction ts as [|t ts IH] using rev_ind.
  - rewrite app_nil_r. simpl.
    replace (length (rb_buffer rb) - rb_maxlen rb)%nat with 0%nat by lia. done.
  - rewrite push_all_snoc. unfold ReplayBuffer.push. simpl.
    rewrite push_all_maxlen, IH, append_suffix. by rewrite <- app_assoc.
Qed.

Lemma store_all_fields (a : t) (ts : list transition) :
  let a' := foldl store_experience a ts in
  replay_buffer a' = ReplayBuffer.push_all (replay_buffer a) ts
  /\ policy_net a' = policy_net a /\ target_net a' = target_net a
  /\ optimizer a' = optimizer a /\ epsilon a' = epsilon a
  /\ training_step a' = training_step a /\ losses a' = losses a
  /\ episode_rewards a' = episode_rewards a.
Proof.
  induction ts as [|t ts IH] using rev_ind; [done|].
  simpl in *. rewrite foldl_app. simpl.
  destruct IH as (-> & -> & -> & -> & -> & -> & -> & ->).
  by rewrite push_all_snoc.
Qed.

(** X1. Storing a run of experiences in an agent whose buffer is within its
    capacity leaves in the buffer the most recent [capacity] transitions of
    the old contents followed by the run, oldest first, and changes nothing
    else of the agent: networks, optimizer, epsilon, step counter and
    histories stay as they were. *)
Theorem X1_store_experience_keeps_recent (a : t) (ts : list transition) :
  (ReplayBuffer.len (replay_buffer a) <= rb_maxlen (replay_buffer a))%nat ->
  let a' := foldl store_experience a ts in
  let all := rb_buffer (replay_buffer a) ++ ts in
  rb_buffer (replay_buffer a')
  = drop (length all - rb_maxlen (replay_buffer a)) all
  /\ (ReplayBuffer.len (replay_buffer a') <= rb_maxlen (replay_buffer a))%nat
  /\ policy_net a' = policy_net a /\ target_net a' = target_net a
  /\ optimizer a' = optimizer a /\ epsilon a' = epsilon a
  /\ training_step a' = training_step a /\ losses a' = losses a
  /\ episode_rewards a' = episode_rewards a.
Proof.
  intros Hle a' all.
  destruct (store_all_fields a ts) as (Hrb & Hrest). fold a' in Hrb, Hrest.
  assert (Hbuf : rb_buffer (replay_buffer a')
                 = drop (length all - rb_maxlen (replay_buffer a)) all).
  { rewrite Hrb. by apply push_all_from. }
  split; [exact Hbuf|]. split; [|exact Hrest].
  unfold ReplayBuffer.len in *. rewrite Hbuf, length_drop.
  subst all. rewrite length_app in *. lia.
Qed.

Lemma unzip5_zip5 (drawn : list transition) :
  let b := ReplayBuffer.unzip5 drawn in
  zip5 (b_states b) (b_actions b) (b_rewards b) (b_next_states b) (b_dones b)
  = drawn.
Proof.
  induction drawn as [|[[[[s a] r] s'] d] drawn IH]; [done|].
  simpl in *. by rewrite IH.
Qed.

(** X2. A batch returned by [sample] is the transposition of the transitions
    drawn by [random.sample]: the requested size lies between 0 and the
    length of the buffer, at least one transition was drawn, the five
    columns have one entry per drawn transition, and entry [i] of each
    column belongs to the [i]-th drawn transition. *)
Theorem X2_sample_columns_correspond (rb : ReplayBuffer) (k : Z) (g g' : rng)
  (b : batch) :
  ReplayBuffer.sample rb k g = (g', Ok b) ->
  0 <= k <= Z.of_nat (ReplayBuffer.len rb)
  /\ exists drawn,
       random_sample g (rb_buffer rb) (Z.to_nat k) = (drawn, g')
       /\ drawn <> []
       /\ zip5 (b_states b) (b_actions b) (b_rewards b) (b_next_states b)
            (b_dones b) = drawn
       /\ length (b_states b) = length drawn
       /\ length (b_actions b) = length drawn
       /\ length (b_rewards b) = length drawn
       /\ length (b_next_states b) = length drawn
       /\ length (b_dones b) = length drawn.
Proof.
  unfold ReplayBuffer.sample.
  destruct (Z.ltb_spec k 0) as [|Hk]; [discriminate|].
  destruct (Z.ltb_spec (Z.of_nat (ReplayBuffer.len rb)) k) as [|Hlen];
    [discriminate|]. simpl.
  destruct (random_sample g (rb_buffer rb) (Z.to_nat k)) as [drawn g1] eqn:Hd.
  destruct drawn as [|t drawn]; [discriminate|].
  intros [= <- <-]. split; [lia|].
  exists (t :: drawn). split; [reflexivity|]. split; [discriminate|].
  split; [apply unzip5_zip5|].
  unfold ReplayBuffer.unzip5. cbn [b_states b_actions b_rewards b_next_states b_dones].
  by rewrite !length_map.
Qed.

(** X3. A sample of size zero or less never yields a batch: a negative
    size is refused by [random.sample], and the empty draw of size zero
    cannot be unpacked into five columns; both raise ValueError. *)
Theorem X3_sample_of_nothing_raises (rb : ReplayBuffer) (k : Z) (g : rng) :
  k <= 0 ->
  fst (random_sample g (rb_buffer rb) 0) = [] ->
  snd (ReplayBuffer.sample rb k g) = Raise ValueError.
Proof.
  intros Hk Hempty. unfold ReplayBuffer.sample.
  destruct (Z.ltb_spec k 0) as [|Hk0]; [reflexivity|].
  destruct (Z.ltb_spec (Z.of_nat (ReplayBuffer.len rb)) k) as [|Hlen];
    [reflexivity|].
  assert (k = 0) as -> by lia. change (Z.to_nat 0) with 0%nat.
  destruct (random_sample g (rb_buffer rb) 0) as [drawn g1]. simpl in Hempty.
  subst drawn. reflexivity.
Qed.

End StoreAndSampleFacts.

Lemma X1_witness :
  let a := example_agent 0 4 3 in
  let a' := foldl (@RLTradingAgent.store_experience example_torch) a [tr 1; tr 2] in
  (ReplayBuffer.len (@RLTradingAgent.replay_buffer example_torch a)
   <= rb_maxlen (@RLTradingAgent.replay_buffer example_torch a))%nat
  /\ rb_buffer (@RLTradingAgent.replay_buffer example_torch a') = [tr 1; tr 2].
Proof.
  intros a a'. split; [exact (Nat.le_0_l _)|].
  apply (@X1_store_experience_keeps_recent example_torch a [tr 1; tr 2]).
  exact (Nat.le_0_l _).
Defined.

Lemma X2_witness :
  exists b,
    @ReplayBuffer.sample example_random
      (ReplayBuffer.push_all (ReplayBuffer.new 3) [tr 1; tr 2; tr 3; tr 4]) 2 0%nat
    = (1%nat, Ok b)
    /\ b_actions b = [2; 3].
Proof.
  eexists. split; [reflexivity|].
  destruct (@X2_sample_columns_correspond example_random
              (ReplayBuffer.push_all (ReplayBuffer.new 3) [tr 1; tr 2; tr 3; tr 4])
              2 0%nat 1%nat _ eq_refl) as (_ & drawn & _ & _ & _ & _ & _ & _ & _ & _).
  reflexivity.
Defined.

Lemma X3_witness :
  snd (@ReplayBuffer.sample example_random
         (ReplayBuffer.push_all (ReplayBuffer.new 3) [tr 1; tr 2]) 0 0%nat)
  = Raise ValueError.
Proof.
  apply (@X3_sample_of_nothing_raises example_random); [lia | reflexivity].
Defined.


(** ** Action indices *)

Section IndexFacts.
Import StateEncoder TradingEnvironment.

Lemma py_index_nonneg {A} (l : list A) (i : Z) :
  0 <= i < Z.of_nat (length l) ->
  exists x, l !! Z.to_nat i = Some x /\ py_index l i = Ok x.
Proof.
  intros Hi. unfold py_index.
  rewrite !(proj2 (Z.ltb_ge i 0)) by lia. cbv zeta iota.
  rewrite ?(proj2 (Z.ltb_ge i 0)) by lia.
  rewrite (proj2 (Z.leb_gt (Z.of_nat (length l)) i)) by lia. simpl.
  destruct (l !! Z.to_nat i) as [x|] eqn:Hx; [eauto|].
  apply lookup_ge_None in Hx. lia.
Qed.

Lemma py_index_negative {A} (l : list A) (i : Z) :
  - Z.of_nat (length l) <= i < 0 ->
  py_index l i = py_index l (i + Z.of_nat (length l)).
Proof.
  intros Hi. unfold py_index.
  rewrite (proj2 (Z.ltb_lt i 0)) by lia. cbv zeta iota.
  rewrite !(proj2 (Z.ltb_ge (i + Z.of_nat (length l)) 0)) by lia. reflexivity.
Qed.

Lemma py_index_out_of_range {A} (l : list A) (i : Z) :
  i < - Z.of_nat (length l) \/ Z.of_nat (length l) <= i ->
  py_index l i = Raise IndexError.
Proof.
  intros Hi. unfold py_index.
  destruct (Z.lt_ge_cases i 0).
  - rewrite (proj2 (Z.ltb_lt i 0)) by lia. cbv zeta iota.
    by rewrite (proj2 (Z.ltb_lt (i + Z.of_nat (length l)) 0)) by lia.
  - rewrite !(proj2 (Z.ltb_ge i 0)) by lia. cbv zeta iota.
    rewrite ?(proj2 (Z.ltb_ge i 0)) by lia.
    by rewrite (proj2 (Z.leb_le (Z.of_nat (length l)) i)) by lia.
Qed.

(** X4. [decode_action] indexes a Python list: with three actions the
    indices 0, 1, 2 are BUY, HOLD, SELL, an index from -3 to -1 counts from
    the end and decodes like the index plus 3, and every other index raises
    IndexError; the same holds for the five names and -5 to 4; with any
    other number of actions every index decodes to HOLD. *)
Theorem X4_decode_action_indexing :
  (decode_action 0 3 = Ok "BUY" /\ decode_action 1 3 = Ok "HOLD"
   /\ decode_action 2 3 = Ok "SELL")
  /\ (forall a, -3 <= a < 0 -> decode_action a 3 = decode_action (a + 3) 3)
  /\ (forall a, a < -3 \/ 3 <= a -> decode_action a 3 = Raise IndexError)
  /\ (forall a, 0 <= a < 5 ->
      decode_action a 5
      = Ok (nth (Z.to_nat a) ["STRONG_BUY"; "BUY"; "HOLD"; "SELL"; "STRONG_SELL"] ""))
  /\ (forall a, -5 <= a < 0 -> decode_action a 5 = decode_action (a + 5) 5)
  /\ (forall a, a < -5 \/ 5 <= a -> decode_action a 5 = Raise IndexError)
  /\ (forall a n, n <> 3 -> n <> 5 -> decode_action a n = Ok "HOLD").
Proof.
  split; [repeat split|].
  split. { intros a Ha. unfold decode_action. simpl (3 =? 3).
           cbv iota. by apply (py_index_negative ["BUY"; "HOLD"; "SELL"]). }
  split. { intros a Ha. unfold decode_action. simpl (3 =? 3).
           cbv iota. by apply (py_index_out_of_range ["BUY"; "HOLD"; "SELL"]). }
  split. { intros a Ha.
           assert (a = 0 \/ a = 1 \/ a = 2 \/ a = 3 \/ a = 4) as Hcases by lia.
           destruct Hcases as [-> | [-> | [-> | [-> | ->]]]]; reflexivity. }
  split. { intros a Ha. unfold decode_action. simpl (5 =? 3). simpl (5 =? 5).
           cbv iota.
           by apply (py_index_negative
                       ["STRONG_BUY"; "BUY"; "HOLD"; "SELL"; "STRONG_SELL"]). }
  split. { intros a Ha. unfold decode_action. simpl (5 =? 3). simpl (5 =? 5).
           cbv iota.
           by apply (py_index_out_of_range
                       ["STRONG_BUY"; "BUY"; "HOLD"; "SELL"; "STRONG_SELL"]). }
  intros a n H3 H5. unfold decode_action.
  destruct (Z.eqb_spec n 3); [done|]. by destruct (Z.eqb_spec n 5).
Qed.

(** The environment a stock step leaves when it does nothing but count. *)
Lemma step_counts_only (env : TradingEnvironment) st :
  set_agent_state st (set_current_step (current_step env + 1) env)
  = mkEnv (state_dim env) (reward_calculator env) (initial_capital env)
      (max_steps env) (current_step env + 1) (capital env) (position env)
      (entry_price env) st (trade_history env) (action_space_n env).
Proof. reflexivity. Qed.

(** X5. In an environment with its three actions, a stock step with an index
    below -3 or above 2 raises IndexError after the step counter has
    advanced and the report mapping has been replaced, the rest of the
    episode state being untouched; an index from -3 to -1 is accepted and
    acts exactly as the index plus 3, so that -1 sells and -3 buys. *)
Theorem X5_step_action_index (env : TradingEnvironment) (a : Z)
  (st : gmap string pyval) (price : Q) :
  action_space_n env = 3 ->
  ((a < -3 \/ 3 <= a) ->
   step env a st price
   = (set_agent_state st (set_current_step (current_step env + 1) env),
      Raise IndexError))
  /\ (-3 <= a < 0 -> step env a st price = step env (a + 3) st price).
Proof.
  intros Hn. split.
  - intros Ha. unfold step.
    destruct env as [d rc ic ms cs cap pos ep ast th asn]. simpl in *. subst asn.
    unfold decode_action. simpl (3 =? 3). cbv iota.
    by rewrite (py_index_out_of_range ["BUY"; "HOLD"; "SELL"] a Ha).
  - intros Ha. unfold step.
    destruct env as [d rc ic ms cs cap pos ep ast th asn]. simpl in *. subst asn.
    unfold decode_action. simpl (3 =? 3). cbv iota.
    by rewrite (py_index_negative ["BUY"; "HOLD"; "SELL"] a Ha).
Qed.

End IndexFacts.

Lemma X5_witness :
  action_space_n example_env = 3
  /\ snd (TradingEnvironment.step example_env 7 ∅ 100) = Raise IndexError
  /\ current_step (fst (TradingEnvironment.step example_env 7 ∅ 100)) = 1
  /\ TradingEnvironment.step example_env (-3) ∅ 100
     = TradingEnvironment.step example_env 0 ∅ 100.
Proof.
  destruct (X5_step_action_index example_env 7 ∅ 100 eq_refl) as [Hout _].
  destruct (X5_step_action_index example_env (-3) ∅ 100 eq_refl) as [_ Hneg].
  split; [reflexivity|].
  rewrite (Hout ltac:(lia)). split; [reflexivity|]. split; [reflexivity|].
  exact (Hneg ltac:(lia)).
Defined.


(** ** The episode state machine over any sequence of calls *)

Section StateMachineFacts.
Import TradingEnvironment.

(** What a stock step leaves: the environment with only the counter and the
    reports updated, or a position opened while flat, or a position closed
    while long at a non-zero entry price. *)
Lemma step_cases (env : TradingEnvironment) a st price :
  let counted := set_agent_state st (set_current_step (current_step env + 1) env) in
  fst (step env a st price) = counted
  \/ (position env = 0
      /\ fst (step env a st price) = set_entry_price price (set_position 1 counted))
  \/ (position env = 1 /\ Qeq_bool (entry_price env) 0 = false
      /\ exists reward,
           let pnl := ((price - entry_price env) / entry_price env * capital env)%Q in
           fst (step env a st price)
           = set_entry_price 0
               (set_position 0
                  (set_trade_history
                     (trade_history env
                      ++ [StockTrade (entry_price env) price pnl reward])
                     (set_capital (capital env + pnl)%Q counted)))).
Proof.
  intros counted. subst counted. unfold step.
  destruct env as [d rc ic ms cs cap pos ep ast th asn]. simpl.
  destruct (StateEncoder.decode_action a asn) as [s|]; [|by left].
  unfold execute. simpl.
  destruct (bool_decide (s = "BUY") && (pos =? 0)) eqn:Hbuy.
  { right. left. apply andb_prop in Hbuy. destruct Hbuy as [_ Hp%Z.eqb_eq].
    split; [done|]. simpl; by destruct (StateEncoder.encode d st). }
  destruct (bool_decide (s = "SELL") && (pos =? 1)) eqn:Hsell.
  2:{ left. simpl; by destruct (StateEncoder.encode d st). }
  apply andb_prop in Hsell. destruct Hsell as [_ Hp%Z.eqb_eq].
  destruct (RewardCalculator.calculate_reward rc "BUY" ep price 1 None)
    as [reward|]; [|by left].
  unfold py_div. destruct (Qeq_bool ep 0) eqn:Hz; [by left|].
  right. right. split; [done|]. split; [done|]. exists reward.
  simpl; by destruct (StateEncoder.encode d st).
Qed.

(** What an options step leaves, whether or not it returns. *)
Lemma step_options_fst (env : TradingEnvironment) a st strategy premium pnl
  max_loss greeks :
  exists reward,
    fst (step_options env a st strategy premium pnl max_loss greeks)
    = set_trade_history
        (trade_history env ++ [OptionsTrade strategy premium pnl reward greeks])
        (set_capital (capital env + pnl)%Q
           (set_agent_state st (set_current_step (current_step env + 1) env))).
Proof.
  unfold step_options.
  destruct env as [d rc ic ms cs cap pos ep ast th asn]. simpl.
  destruct (calculate_options_reward_returns rc (if a =? 0 then "BUY" else "SELL")
              strategy premium pnl max_loss greeks) as [reward ->].
  exists reward. simpl. by destruct (StateEncoder.encode d st).
Qed.

(** X6. Whatever sequence of [reset], [step] and [step_options] calls a
    constructed environment has gone through, returning or raising: the
    position is flat or long, never short; a flat position has entry price
    0; the action space has three actions; the step counter is not negative
    and the trade history has at most as many records as the counter
    counts. *)
Theorem X6_position_invariant (env : TradingEnvironment) :
  reachable env ->
  (position env = 0 \/ position env = 1)
  /\ (position env = 0 -> entry_price env = 0%Q)
  /\ action_space_n env = 3
  /\ 0 <= current_step env
  /\ Z.of_nat (length (trade_history env)) <= current_step env.
Proof.
  induction 1 as [d rc ic ms | e new_state _ IH | e a st price _ IH
                 | e a st strategy premium pnl max_loss greeks _ IH].
  - simpl. auto with lia.
  - destruct (reset_state e new_state)
      as (Hcs & _ & Hp & Hep & Hth & _ & _ & _ & _ & Hn).
    destruct IH as (_ & _ & IHn & _).
    rewrite Hcs, Hp, Hth, Hn. simpl. auto with lia.
  - destruct IH as (IHp & IHe & IHn & IHc & IHt).
    destruct (step_cases e a st price) as [-> | [[Hp ->] | (Hp & Hz & reward & ->)]];
      destruct e as [d rc ic ms cs cap pos ep ast th asn]; simpl in *.
    + repeat split; auto with lia.
    + repeat split; auto with lia.
    + rewrite length_app. simpl. repeat split; auto with lia.
  - destruct IH as (IHp & IHe & IHn & IHc & IHt).
    destruct (step_options_fst e a st strategy premium pnl max_loss greeks)
      as [reward ->].
    destruct e as [d rc ic ms cs cap pos ep ast th asn]; simpl in *.
    rewrite length_app. simpl. repeat split; auto with lia.
Qed.

Lemma Qsum_snoc (xs : list Q) (x : Q) : (Qsum (xs ++ [x]) == Qsum xs + x)%Q.
Proof.
  induction xs as [|y xs IH]; simpl.
  - ring.
  - rewrite IH. ring.
Qed.

(** In exact arithmetic the capital is the initial capital plus the P&L of
    the recorded trades. *)
Lemma capital_accounts (env : TradingEnvironment) :
  reachable env ->
  (capital env == initial_capital env + Qsum (map trade_pnl (trade_history env)))%Q.
Proof.
  induction 1 as [d rc ic ms | e new_state _ IH | e a st price _ IH
                 | e a st strategy premium pnl max_loss greeks _ IH].
  - simpl. ring.
  - destruct (reset_state e new_state)
      as (_ & Hc & _ & _ & Hth & _ & _ & Hic & _).
    rewrite Hc, Hth, Hic. simpl. ring.
  - destruct (step_cases e a st price) as [-> | [[Hp ->] | (Hp & Hz & reward & ->)]];
      destruct e as [d rc ic ms cs cap pos ep ast th asn];
      cbn [capital initial_capital trade_history set_entry_price set_position
           set_trade_history set_capital set_agent_state set_current_step
           entry_price] in *;
      try exact IH.
    rewrite map_app. cbn [map trade_pnl]. rewrite Qsum_snoc, IH. ring.
  - destruct (step_options_fst e a st strategy premium pnl max_loss greeks)
      as [reward ->].
    destruct e as [d rc ic ms cs cap pos ep ast th asn];
      cbn [capital initial_capital trade_history set_entry_price set_position
           set_trade_history set_capital set_agent_state set_current_step] in *.
    rewrite map_app. cbn [map trade_pnl]. rewrite Qsum_snoc, IH. ring.
Qed.

End StateMachineFacts.

Section AccountingFacts.
Context `{Numpy}.
Import TradingEnvironment.

(** X7. After any sequence of calls on a constructed environment, and with
    floats read as exact numbers, the capital equals the initial capital
    plus the sum of the recorded P&L, stock and options trades alike; so
    whenever [get_trade_statistics] returns, its [total_pnl] equals the
    capital minus the initial capital. *)
Theorem X7_capital_accounts_for_trades (env : TradingEnvironment) :
  reachable env ->
  (capital env == initial_capital env + Qsum (map trade_pnl (trade_history env)))%Q
  /\ forall stats,
       get_trade_statistics env = Ok stats ->
       exists total,
         stats !! "total_pnl" = Some (PFloat total)
         /\ (total == capital env - initial_capital env)%Q.
Proof.
  intros Hreach. pose proof (capital_accounts env Hreach) as Hcap.
  split; [exact Hcap|].
  intros stats. unfold get_trade_statistics.
  destruct (trade_history env) as [|t th] eqn:Hth.
  - intros [= <-]. exists 0%Q. split; [by simplify_map_eq|].
    rewrite Hcap. cbn [map Qsum foldr]. ring.
  - destruct (py_div _ _) as [growth|]; [|discriminate]. cbn [bind].
    intros [= <-]. eexists. split; [by simplify_map_eq|].
    rewrite Hcap.
    change (Qsum (map trade_pnl (t :: th)))
      with (trade_pnl t + Qsum (map trade_pnl th))%Q.
    ring.
Qed.

End AccountingFacts.

Lemma X6_witness :
  let env := fst (TradingEnvironment.step
                    (fst (TradingEnvironment.step example_env 0 ∅ 100)) 2 ∅ 110) in
  reachable env /\ position env = 0 /\ entry_price env = 0%Q.
Proof.
  intros env.
  assert (Hr : reachable env).
  { apply reach_step, reach_step. apply (reach_init 8 RewardCalculator.default 100000 1000). }
  split; [exact Hr|].
  destruct (X6_position_invariant env Hr) as (_ & He & _).
  split; [reflexivity|]. apply He. reflexivity.
Defined.

Lemma X7_witness :
  let env := fst (TradingEnvironment.step_options
                    (fst (TradingEnvironment.step example_env 0 ∅ 100))
                    1 ∅ "straddle" 5 (-20) 10 None) in
  reachable env
  /\ (capital env == 100000 + Qsum (map trade_pnl (trade_history env)))%Q.
Proof.
  intros env.
  assert (Hr : reachable env).
  { apply reach_step_options, reach_step.
    apply (reach_init 8 RewardCalculator.default 100000 1000). }
  split; [exact Hr|].
  apply (@X7_capital_accounts_for_trades example_numpy env Hr).
Defined.


(** ** Single stock steps *)

Section StockStepFacts.
Import TradingEnvironment.

(** X8. HOLD, BUY while not flat and SELL while not long change nothing but
    the step counter and the stored reports; when the reports encode, the
    step returns reward exactly 0 and an info without P&L, entry or exit
    price. *)
Theorem X8_step_without_effect (env : TradingEnvironment) (a : Z)
  (st : gmap string pyval) (price : Q) :
  action_space_n env = 3 ->
  a = 1 \/ (a = 0 /\ position env <> 0) \/ (a = 2 /\ position env <> 1) ->
  fst (step env a st price)
  = set_agent_state st (set_current_step (current_step env + 1) env)
  /\ forall v, StateEncoder.encode (state_dim env) st = Ok v ->
       exists done info,
         snd (step env a st price) = Ok (v, 0%Q, done, info)
         /\ info !! "pnl" = None /\ info !! "entry_price" = None
         /\ info !! "exit_price" = None.
Proof.
  intros Hn Ha. destruct env as [d rc ic ms cs cap pos ep ast th asn].
  simpl in *. subst asn. unfold step. simpl.
  destruct Ha as [-> | [[-> Hp] | [-> Hp]]].
  - change (StateEncoder.decode_action 1 3) with (@Ok string "HOLD").
    unfold execute. simpl.
    destruct (StateEncoder.encode d st) as [v|e]; simpl.
    + split; [reflexivity|]. intros ? [= <-]. do 2 eexists.
      split; [reflexivity|]. by simplify_map_eq.
    + split; [reflexivity|]. discriminate.
  - change (StateEncoder.decode_action 0 3) with (@Ok string "BUY").
    unfold execute. simpl. destruct (Z.eqb_spec pos 0); [done|]. simpl.
    destruct (StateEncoder.encode d st) as [v|e]; simpl.
    + split; [reflexivity|]. intros ? [= <-]. do 2 eexists.
      split; [reflexivity|]. by simplify_map_eq.
    + split; [reflexivity|]. discriminate.
  - change (StateEncoder.decode_action 2 3) with (@Ok string "SELL").
    unfold execute. simpl. destruct (Z.eqb_spec pos 1); [done|]. simpl.
    destruct (StateEncoder.encode d st) as [v|e]; simpl.
    + split; [reflexivity|]. intros ? [= <-]. do 2 eexists.
      split; [reflexivity|]. by simplify_map_eq.
    + split; [reflexivity|]. discriminate.
Qed.

(** X9. A position entered at price zero cannot be closed: while the
    position is long with entry price zero, every SELL raises
    ZeroDivisionError and leaves the position long at entry price zero, only
    the step counter and the reports having changed; and BUY at price zero
    from a flat position leads to that state. *)
Theorem X9_entry_price_zero_locks_position (env : TradingEnvironment)
  (st : gmap string pyval) (price : Q) :
  action_space_n env = 3 ->
  (position env = 1 -> Qeq_bool (entry_price env) 0 = true ->
   step env 2 st price
   = (set_agent_state st (set_current_step (current_step env + 1) env),
      Raise ZeroDivisionError))
  /\ (position env = 0 ->
      position (fst (step env 0 st 0)) = 1
      /\ entry_price (fst (step env 0 st 0)) = 0%Q).
Proof.
  intros Hn. destruct env as [d rc ic ms cs cap pos ep ast th asn].
  simpl in *. subst asn. split.
  - intros -> Hz. unfold step. simpl.
    change (StateEncoder.decode_action 2 3) with (@Ok string "SELL").
    unfold execute. simpl.
    unfold RewardCalculator.calculate_reward, py_div. simpl. by rewrite Hz.
  - intros ->. unfold step. simpl.
    change (StateEncoder.decode_action 0 3) with (@Ok string "BUY").
    unfold execute. simpl. by destruct (StateEncoder.encode d st).
Qed.

Lemma Qmult_pos_iff (x a : Q) : (0 < a)%Q -> (0 < x * a <-> 0 < x)%Q.
Proof.
  intros Ha.
  assert (Hne : ~ (a == 0)%Q).
  { intros Hz. rewrite Hz in Ha. by apply Qlt_irrefl in Ha. }
  split.
  - intros Hxa. assert (Hx : (x == x * a * / a)%Q) by (field; exact Hne).
    rewrite Hx. apply Qmult_lt_0_compat; [exact Hxa|].
    by apply Qinv_lt_0_compat.
  - intros Hx. by apply Qmult_lt_0_compat.
Qed.

Lemma Qdiv_pos_iff (x e : Q) : (0 < e)%Q -> (0 < x / e <-> 0 < x)%Q.
Proof.
  intros He. unfold Qdiv. apply Qmult_pos_iff. by apply Qinv_lt_0_compat.
Qed.

Lemma Qminus_pos_iff (p e : Q) : (0 < p - e <-> e < p)%Q.
Proof. unfold Qminus. symmetry. apply Qlt_minus_iff. Qed.

(** X10. Closing a long position entered at a positive price, with positive
    capital, adds to the capital the whole capital times the relative price
    change: the recorded P&L is positive, the capital grows and the trade is
    reported as a profit exactly when the sale price is above the entry
    price; a sale at or below it is reported as a loss. *)
Theorem X10_sale_follows_price (env : TradingEnvironment)
  (st : gmap string pyval) (price : Q) (v : list Q) :
  action_space_n env = 3 -> position env = 1 ->
  (0 < entry_price env)%Q -> (0 < capital env)%Q ->
  StateEncoder.encode (state_dim env) st = Ok v ->
  let pnl := ((price - entry_price env) / entry_price env * capital env)%Q in
  exists reward done info,
    snd (step env 2 st price) = Ok (v, reward, done, info)
    /\ capital (fst (step env 2 st price)) = (capital env + pnl)%Q
    /\ position (fst (step env 2 st price)) = 0
    /\ trade_history (fst (step env 2 st price))
       = trade_history env ++ [StockTrade (entry_price env) price pnl reward]
    /\ info !! "pnl" = Some (PFloat pnl)
    /\ info !! "trade_result"
       = Some (PStr (if Qltb 0 pnl then "profit" else "loss"))
    /\ (Qltb 0 pnl = true <-> (entry_price env < price)%Q)
    /\ ((capital env < capital env + pnl)%Q <-> (entry_price env < price)%Q).
Proof.
  intros Hn Hp He Hc Hv pnl.
  assert (Hz : Qeq_bool (entry_price env) 0 = false) by by apply Qeq_bool_pos.
  assert (Hsign : (0 < pnl <-> entry_price env < price)%Q).
  { subst pnl. rewrite (Qmult_pos_iff _ _ Hc), (Qdiv_pos_iff _ _ He).
    apply Qminus_pos_iff. }
  destruct env as [d rc ic ms cs cap pos ep ast th asn]. simpl in *. subst.
  destruct (calculate_reward_buy rc ep price 1 None Hz) as [reward Hr].
  exists reward. unfold step. simpl.
  change (StateEncoder.decode_action 2 3) with (@Ok string "SELL").
  unfold execute. simpl. rewrite Hr, (py_div_nonzero _ _ Hz). simpl.
  rewrite Hv. simpl. do 2 eexists. split; [reflexivity|].
  repeat (split; [reflexivity|]).
  split; [by rewrite Qltb_true|].
  rewrite <- Hsign. rewrite <- (Qplus_lt_r 0 _ cap).
  assert (Hcap0 : (cap + 0 == cap)%Q) by ring. by rewrite Hcap0.
Qed.

(** X11. [reset] erases the episode: two environments of the same
    configuration, whatever their episode states, are reset to the same
    environment by the same non-empty report mapping. An empty mapping is
    treated as none: the reports stored before are kept, and it is their
    encoding that [reset] returns. *)
Theorem X11_reset_erases_the_episode (e1 e2 : TradingEnvironment)
  (st : gmap string pyval) :
  state_dim e1 = state_dim e2 ->
  reward_calculator e1 = reward_calculator e2 ->
  initial_capital e1 = initial_capital e2 ->
  max_steps e1 = max_steps e2 ->
  action_space_n e1 = action_space_n e2 ->
  (dict_truthy st = true -> reset e1 (Some st) = reset e2 (Some st))
  /\ reset e1 (Some ∅) = reset e1 None
  /\ agent_state (fst (reset e1 None)) = agent_state e1
  /\ snd (reset e1 None) = StateEncoder.encode (state_dim e1) (agent_state e1).
Proof.
  intros Hd Hrc Hic Hms Hn.
  destruct e1 as [d1 rc1 ic1 ms1 cs1 cap1 pos1 ep1 ast1 th1 asn1].
  destruct e2 as [d2 rc2 ic2 ms2 cs2 cap2 pos2 ep2 ast2 th2 asn2].
  simpl in *. subst. unfold reset. simpl.
  split; [by intros ->|]. repeat split.
Qed.

End StockStepFacts.

Lemma X8_witness :
  action_space_n example_env = 3
  /\ fst (TradingEnvironment.step example_env 2 ∅ 100)
     = TradingEnvironment.set_agent_state ∅
         (TradingEnvironment.set_current_step 1 example_env).
Proof.
  split; [reflexivity|].
  apply (X8_step_without_effect example_env 2 ∅ 100 eq_refl).
  right. right. split; [reflexivity | discriminate].
Defined.

Lemma X9_witness :
  let env := fst (TradingEnvironment.step example_env 0 ∅ 0) in
  action_space_n env = 3 /\ position env = 1
  /\ Qeq_bool (entry_price env) 0 = true
  /\ snd (TradingEnvironment.step env 2 ∅ 50) = Raise ZeroDivisionError.
Proof.
  intros env. repeat (split; [reflexivity|]).
  destruct (X9_entry_price_zero_locks_position env ∅ 50 eq_refl) as [Hlock _].
  by rewrite (Hlock eq_refl eq_refl).
Defined.

Lemma X10_witness :
  let env := fst (TradingEnvironment.step example_env 0 ∅ 100) in
  (0 < entry_price env)%Q /\ (0 < capital env)%Q
  /\ (capital (fst (TradingEnvironment.step env 2 ∅ 90)) == 90000)%Q.
Proof.
  intros env. split; [reflexivity|]. split; [reflexivity|].
  assert (Hv : StateEncoder.encode (state_dim env) ∅ = Ok (replicate 8 0%Q))
    by (vm_compute; reflexivity).
  destruct (X10_sale_follows_price env ∅ 90 (replicate 8 0%Q)
              eq_refl eq_refl eq_refl eq_refl Hv)
    as (reward & done & info & _ & -> & _).
  reflexivity.
Defined.

Lemma X11_witness :
  let e2 := fst (TradingEnvironment.step example_env 0 ∅ 100) in
  dict_truthy sample_state = true
  /\ TradingEnvironment.reset example_env (Some sample_state)
     = TradingEnvironment.reset e2 (Some sample_state).
Proof.
  intros e2. split; [reflexivity|].
  destruct (X11_reset_erases_the_episode example_env e2 sample_state
              eq_refl eq_refl eq_refl eq_refl eq_refl) as [Hsame _].
  apply Hsame. reflexivity.
Defined.


(** ** Statistics and rendering *)

Section StatisticsMoreFacts.
Context `{Numpy}.
Import TradingEnvironment.

Lemma ratio_in_unit_interval (k n : nat) :
  (k <= n)%nat -> (0 < n)%nat ->
  (0 <= inject_Z (Z.of_nat k) / inject_Z (Z.of_nat n)
   /\ inject_Z (Z.of_nat k) / inject_Z (Z.of_nat n) <= 1)%Q.
Proof.
  intros Hk Hn.
  assert (Hpos : (0 < inject_Z (Z.of_nat n))%Q).
  { change 0%Q with (inject_Z 0). rewrite <- Zlt_Qlt. lia. }
  split.
  - apply Qle_shift_div_l; [exact Hpos|]. rewrite Qmult_0_l.
    change 0%Q with (inject_Z 0). rewrite <- Zle_Qle. lia.
  - apply Qle_shift_div_r; [exact Hpos|]. rewrite Qmult_1_l.
    rewrite <- Zle_Qle. lia.
Qed.

(** X12. [get_trade_statistics] raises only ZeroDivisionError, and exactly
    when trades are recorded and the initial capital is zero. When it
    returns, [total_trades] is the number of recorded trades and [win_rate]
    lies between 0 and 1. *)
Theorem X12_statistics_outcomes (env : TradingEnvironment) :
  (forall e, get_trade_statistics env = Raise e ->
     e = ZeroDivisionError /\ trade_history env <> []
     /\ Qeq_bool (initial_capital env) 0 = true)
  /\ (trade_history env <> [] -> Qeq_bool (initial_capital env) 0 = true ->
      get_trade_statistics env = Raise ZeroDivisionError)
  /\ forall stats,
       get_trade_statistics env = Ok stats ->
       stats !! "total_trades"
       = Some (PInt (Z.of_nat (length (trade_history env))))
       /\ exists w, stats !! "win_rate" = Some (PFloat w) /\ (0 <= w <= 1)%Q.
Proof.
  unfold get_trade_statistics, py_div.
  destruct (trade_history env) as [|t th] eqn:Hth.
  - split; [discriminate|]. split; [done|].
    intros stats [= <-]. split; [by simplify_map_eq|].
    exists 0%Q. split; [by simplify_map_eq|]. split; apply Qle_refl || discriminate.
  - destruct (Qeq_bool (initial_capital env) 0) eqn:Hz; cbn [bind].
    + split; [by intros e [= <-]|]. split; [done|]. discriminate.
    + split; [discriminate|]. split; [discriminate|].
      intros stats [= <-]. split; [by simplify_map_eq|].
      eexists. split; [by simplify_map_eq|].
      apply ratio_in_unit_interval; [|simpl; lia].
      etrans; [apply length_filter|]. simpl. by rewrite length_map.
Qed.

(** X13. [render] in a mode other than "human" prints nothing and returns.
    In mode "human" it returns, after printing seven values, exactly when
    trades are recorded and the initial capital is not zero; with an empty
    history it raises KeyError, and with trades and a zero initial capital
    ZeroDivisionError. *)
Theorem X13_render_outcomes (env : TradingEnvironment) :
  (forall mode, mode <> "human" -> render env mode = ([], Ok ()))
  /\ (trade_history env = [] -> snd (render env "human") = Raise KeyError)
  /\ (trade_history env <> [] -> Qeq_bool (initial_capital env) 0 = true ->
      snd (render env "human") = Raise ZeroDivisionError)
  /\ (trade_history env <> [] -> Qeq_bool (initial_capital env) 0 = false ->
      snd (render env "human") = Ok ()
      /\ length (fst (render env "human")) = 7%nat).
Proof.
  split.
  { intros mode Hm. unfold render. by rewrite bool_decide_eq_false_2. }
  unfold render, get_trade_statistics, py_div. cbn [bool_decide].
  change (bool_decide ("human" = "human")) with true. cbv iota.
  destruct (trade_history env) as [|t th] eqn:Hth.
  - split; [reflexivity|]. split; [done|]. done.
  - split; [discriminate|].
    destruct (Qeq_bool (initial_capital env) 0) eqn:Hz; cbn [bind].
    + split; [reflexivity|]. discriminate.
    + split; [discriminate|]. intros _ _.
      unfold dict_item. by simplify_map_eq.
Qed.

End StatisticsMoreFacts.

Lemma X12_witness :
  let env := fst (TradingEnvironment.step
                    (fst (TradingEnvironment.step example_env 0 ∅ 100)) 2 ∅ 110) in
  exists stats w,
    @TradingEnvironment.get_trade_statistics example_numpy env = Ok stats
    /\ stats !! "win_rate" = Some (PFloat w) /\ (0 <= w <= 1)%Q.
Proof.
  intros env.
  destruct (@statistics_with_trades example_numpy env) as (stats & Hs & _);
    [vm_compute; discriminate | reflexivity |].
  destruct (@X12_statistics_outcomes example_numpy env) as (_ & _ & Hok).
  destruct (Hok stats Hs) as (_ & w & Hw & Hbound).
  exists stats, w. auto.
Defined.

Lemma X13_witness :
  let env := fst (TradingEnvironment.step
                    (fst (TradingEnvironment.step example_env 0 ∅ 100)) 2 ∅ 110) in
  trade_history env <> []
  /\ snd (@TradingEnvironment.render example_numpy env "human") = Ok ().
Proof.
  intros env.
  assert (Hne : trade_history env <> []) by (vm_compute; discriminate).
  split; [exact Hne|].
  destruct (@X13_render_outcomes example_numpy env) as (_ & _ & _ & Hok).
  apply (Hok Hne). reflexivity.
Defined.


(** ** The reward functions *)

Section RewardMoreFacts.
Import RewardCalculator.

Lemma py_div_zero (a b : Q) : Qeq_bool b 0 = true -> py_div a b = Raise ZeroDivisionError.
Proof. intros Hb. unfold py_div. by rewrite Hb. Qed.

(** X14. [calculate_reward] returns 0 for HOLD and for every action name
    other than BUY and SELL, whatever the prices; for BUY and SELL it
    raises ZeroDivisionError exactly when the entry price is zero and
    returns a reward otherwise. *)
Theorem X14_calculate_reward_outcomes (rc : RewardCalculator) (action : string)
  (entry exit size : Q) (volatility : option Q) :
  (action <> "BUY" -> action <> "SELL" ->
   calculate_reward rc action entry exit size volatility = Ok 0%Q)
  /\ (action = "BUY" \/ action = "SELL" -> Qeq_bool entry 0 = true ->
      calculate_reward rc action entry exit size volatility
      = Raise ZeroDivisionError)
  /\ (action = "BUY" \/ action = "SELL" -> Qeq_bool entry 0 = false ->
      exists reward,
        calculate_reward rc action entry exit size volatility = Ok reward).
Proof.
  unfold calculate_reward. split; [|split].
  - intros Hb Hs. case_bool_decide; [done|].
    rewrite (bool_decide_eq_false_2 _ Hb), (bool_decide_eq_false_2 _ Hs). done.
  - intros [-> | ->] Hz; simpl; by rewrite (py_div_zero _ _ Hz).
  - intros [-> | ->] Hz; simpl; rewrite (py_div_nonzero _ _ Hz); simpl; eauto.
Qed.

Lemma signed_magnitude (x : Q) :
  ((if Qltb 0 x then 1 else -1) * (Qabs x * 10) == 10 * x)%Q.
Proof.
  destruct (Qltb 0 x) eqn:Hx.
  - apply Qltb_true in Hx. rewrite Qabs_pos by by apply Qlt_le_weak. ring.
  - apply Qltb_false in Hx. rewrite Qabs_neg by done. ring.
Qed.

(** X15. With the default parameters the profit and loss branches give one
    formula: for a positive entry price the reward of BUY is ten times the
    relative price change minus 0.01, the reward of SELL is minus ten times
    it minus 0.01, so the two add up to -0.02; a BUY closed at or below its
    entry price and a SELL closed at or above it are rewarded negatively. *)
Theorem X15_default_reward_is_linear (entry exit size : Q) :
  (0 < entry)%Q ->
  exists buy sell,
    calculate_reward default "BUY" entry exit size None = Ok buy
    /\ calculate_reward default "SELL" entry exit size None = Ok sell
    /\ (buy == 10 * ((exit - entry) / entry) - 0.01)%Q
    /\ (sell == - (10 * ((exit - entry) / entry)) - 0.01)%Q
    /\ (buy + sell == -0.02)%Q
    /\ ((exit <= entry)%Q -> (buy < 0)%Q)
    /\ ((entry <= exit)%Q -> (sell < 0)%Q).
Proof.
  intros He.
  assert (Hz : Qeq_bool entry 0 = false) by by apply Qeq_bool_pos.
  assert (Hne : ~ (entry == 0)%Q).
  { intros H0. rewrite H0 in He. by apply Qlt_irrefl in He. }
  unfold calculate_reward. simpl. rewrite !(py_div_nonzero _ _ Hz). simpl.
  do 2 eexists. split; [reflexivity|]. split; [reflexivity|].
  assert (Hbuy : ((if Qltb 0 ((exit - entry) / entry) then 1 else -1)
                  * (Qabs ((exit - entry) / entry) * 10) - 0.01
                  == 10 * ((exit - entry) / entry) - 0.01)%Q).
  { rewrite signed_magnitude. reflexivity. }
  assert (Hsell : ((if Qltb 0 ((entry - exit) / entry) then 1 else -1)
                   * (Qabs ((entry - exit) / entry) * 10) - 0.01
                   == - (10 * ((exit - entry) / entry)) - 0.01)%Q).
  { rewrite signed_magnitude. field. exact Hne. }
  split; [exact Hbuy|]. split; [exact Hsell|].
  split; [rewrite Hbuy, Hsell; ring|].
  split.
  - intros Hle. rewrite Hbuy.
    assert (Hq : ((exit - entry) / entry <= 0)%Q).
    { apply Qnot_lt_le. rewrite (Qdiv_pos_iff _ _ He), Qminus_pos_iff.
      by apply Qle_not_lt. }
    apply Qle_lt_trans with (y := (10 * 0 - 0.01)%Q); [|reflexivity].
    apply Qplus_le_l. apply Qmult_le_l; [reflexivity | exact Hq].
  - intros Hle. rewrite Hsell.
    assert (Hq : (0 <= (exit - entry) / entry)%Q).
    { apply Qle_shift_div_l; [exact He|]. rewrite Qmult_0_l.
      unfold Qminus. by rewrite <- Qle_minus_iff. }
    apply Qle_lt_trans with (y := (- (10 * 0) - 0.01)%Q); [|reflexivity].
    apply Qplus_le_l. apply Qopp_le_compat.
    apply Qmult_le_l; [reflexivity | exact Hq].
Qed.

(** X16. The options reward never raises, does not depend on the action
    or on the strategy name, and the Greeks can only lower it: with any
    Greeks it is at most the reward computed without them. *)
Theorem X16_options_reward_greeks_only_lower (rc : RewardCalculator)
  (action action' strategy strategy' : string) (premium pnl max_loss : Q)
  (greeks : option (gmap string Q)) :
  exists plain reward,
    calculate_options_reward rc action strategy premium pnl max_loss None
    = Ok plain
    /\ calculate_options_reward rc action' strategy' premium pnl max_loss greeks
       = Ok reward
    /\ calculate_options_reward rc action strategy premium pnl max_loss greeks
       = Ok reward
    /\ (reward <= plain)%Q.
Proof.
  unfold calculate_options_reward.
  destruct (if Qltb 0 premium then _ else _) as [scaled|] eqn:Hscaled.
  2:{ destruct (Qltb 0 premium) eqn:Hp; [|discriminate].
      apply Qltb_true, Qeq_bool_pos in Hp.
      by rewrite (py_div_nonzero _ _ Hp) in Hscaled. }
  cbn [bind].
  destruct (if Qltb 0 max_loss then _ else _) as [weighted|] eqn:Hweighted.
  2:{ destruct (Qltb 0 max_loss) eqn:Hm; [|discriminate].
      apply Qltb_true, Qeq_bool_pos in Hm.
      by rewrite (py_div_nonzero _ _ Hm) in Hweighted. }
  cbn [bind]. do 2 eexists. split; [reflexivity|]. split; [reflexivity|].
  split; [reflexivity|].
  apply Qplus_le_l.
  assert (Htheta : forall theta, (weighted - Qabs theta * 0.1 <= weighted)%Q).
  { intros theta. rewrite <- (Qplus_0_r weighted) at 2.
    apply Qplus_le_r. rewrite <- (Qopp_involutive 0) . apply Qopp_le_compat.
    apply Qmult_le_0_compat; [apply Qabs_nonneg | discriminate]. }
  assert (Hgamma : forall x gamma, (x <= weighted)%Q ->
                     (x - Qabs gamma * 0.05 <= weighted)%Q).
  { intros x gamma Hx. apply Qle_trans with (y := x); [|exact Hx].
    rewrite <- (Qplus_0_r x) at 2.
    apply Qplus_le_r. rewrite <- (Qopp_involutive 0). apply Qopp_le_compat.
    apply Qmult_le_0_compat; [apply Qabs_nonneg | discriminate]. }
  destruct greeks as [g|]; [|apply Qle_refl].
  destruct (dict_truthy g); [|apply Qle_refl].
  assert (Hfirst : ((match g !! "theta" with
                     | Some theta =>
                         if Qltb theta 0 then weighted - Qabs theta * 0.1
                         else weighted
                     | None => weighted
                     end) <= weighted)%Q).
  { destruct (g !! "theta") as [theta|]; [|apply Qle_refl].
    destruct (Qltb theta 0); [apply Htheta | apply Qle_refl]. }
  destruct (g !! "gamma") as [gamma|]; [by apply Hgamma | exact Hfirst].
Qed.

Lemma Qeq_bool_false_iff (x : Q) : Qeq_bool x 0 = false <-> ~ (x == 0)%Q.
Proof.
  rewrite <- not_true_iff_false. split; intros Hx Hz; apply Hx.
  - by apply Qeq_eq_bool.
  - by apply Qeq_bool_eq.
Qed.

Lemma Qabs_zero (x : Q) : (Qabs x == 0)%Q -> (x == 0)%Q.
Proof.
  intros Hx. destruct (Qlt_le_dec x 0) as [Hneg | Hpos].
  - rewrite Qabs_neg in Hx by by apply Qlt_le_weak.
    rewrite <- (Qopp_involutive x), Hx. reflexivity.
  - by rewrite Qabs_pos in Hx.
Qed.

(** X17. [calculate_win_rate_reward] returns 0 when the numbers of wins
    and losses add up to zero. Otherwise it raises ZeroDivisionError
    exactly when there is no loss while the average loss is not zero (the
    zero average is guarded, the zero count is not), and returns a reward in
    every other case. *)
Theorem X17_win_rate_reward_outcomes (rc : RewardCalculator) (wins losses : Z)
  (avg_win avg_loss : Q) :
  (wins + losses = 0 ->
   calculate_win_rate_reward rc wins losses avg_win avg_loss = Ok 0%Q)
  /\ (wins + losses <> 0 -> losses = 0 -> Qeq_bool avg_loss 0 = false ->
      calculate_win_rate_reward rc wins losses avg_win avg_loss
      = Raise ZeroDivisionError)
  /\ (wins + losses <> 0 -> losses <> 0 \/ Qeq_bool avg_loss 0 = true ->
      exists reward,
        calculate_win_rate_reward rc wins losses avg_win avg_loss = Ok reward).
Proof.
  unfold calculate_win_rate_reward. split; [|split].
  - intros ->. reflexivity.
  - intros Ht -> Hz. destruct (Z.eqb_spec (wins + 0) 0); [done|].
    rewrite Hz. cbn [negb]. rewrite py_div_zero; [done|].
    apply Qeq_eq_bool. ring.
  - intros Ht Hcase. destruct (Z.eqb_spec (wins + losses) 0); [done|].
    destruct (Qeq_bool avg_loss 0) eqn:Hz; cbn [negb]; [cbn [bind]; eauto|].
    destruct Hcase as [Hl|]; [|done].
    rewrite py_div_nonzero; [cbn [bind]; eauto|].
    apply Qeq_bool_false_iff. intros Hprod.
    apply Qmult_integral in Hprod. destruct Hprod as [Hl0 | Ha0].
    + apply Hl. unfold Qeq in Hl0. simpl in Hl0. lia.
    + apply Qeq_bool_false_iff in Hz. apply Hz. by apply Qabs_zero.
Qed.

(** X18. [calculate_profit_probability_reward] raises ZeroDivisionError
    exactly when the current price is zero; otherwise it returns, and with
    the default parameters the reward is ten times the expected value
    [profit * p - loss * (1 - p)], in the profit branch and in the loss
    branch alike. *)
Theorem X18_expected_value_reward (rc : RewardCalculator)
  (current target stop p : Q) :
  (Qeq_bool current 0 = true ->
   calculate_profit_probability_reward rc current target stop p
   = Raise ZeroDivisionError)
  /\ (Qeq_bool current 0 = false ->
      let expected_value :=
        ((target - current) / current * p
         - (current - stop) / current * (1 - p))%Q in
      exists reward,
        calculate_profit_probability_reward rc current target stop p = Ok reward
        /\ (rc = default -> (reward == 10 * expected_value)%Q)).
Proof.
  unfold calculate_profit_probability_reward. split.
  - intros Hz. by rewrite (py_div_zero _ _ Hz).
  - intros Hz. cbv zeta. rewrite !(py_div_nonzero _ _ Hz). cbn [bind].
    set (ev := ((target - current) / current * p
                - (current - stop) / current * (1 - p))%Q).
    eexists. split; [reflexivity|]. intros ->.
    cbn [profit_reward loss_penalty default].
    destruct (Qltb 0 ev) eqn:Hev.
    + ring.
    + apply Qltb_false in Hev. rewrite Qabs_neg by done. ring.
Qed.

End RewardMoreFacts.

Lemma X14_witness :
  exists reward,
    RewardCalculator.calculate_reward RewardCalculator.default "SELL" 100 90 1 None
    = Ok reward.
Proof.
  destruct (X14_calculate_reward_outcomes RewardCalculator.default "SELL"
              100 90 1 None) as (_ & _ & Hok).
  apply Hok; [by right | reflexivity].
Defined.

Lemma X15_witness :
  (0 < 100)%Q
  /\ exists buy,
       RewardCalculator.calculate_reward RewardCalculator.default "BUY" 100 90 1 None
       = Ok buy
       /\ (buy < 0)%Q.
Proof.
  split; [reflexivity|].
  destruct (X15_default_reward_is_linear 100 90 1 eq_refl)
    as (buy & sell & Hb & _ & _ & _ & _ & Hneg & _).
  exists buy. split; [exact Hb|]. apply Hneg. discriminate.
Defined.

Lemma X17_witness :
  RewardCalculator.calculate_win_rate_reward RewardCalculator.default 5 0 2 (-1)
  = Raise ZeroDivisionError.
Proof.
  destruct (X17_win_rate_reward_outcomes RewardCalculator.default 5 0 2 (-1))
    as (_ & Hraise & _).
  apply Hraise; [lia | reflexivity | reflexivity].
Defined.

Lemma X18_witness :
  exists reward,
    RewardCalculator.calculate_profit_probability_reward RewardCalculator.default
      100 110 95 0.5 = Ok reward
    /\ (reward == 0.25)%Q.
Proof.
  destruct (X18_expected_value_reward RewardCalculator.default 100 110 95 0.5)
    as (_ & Hok).
  destruct (Hok eq_refl) as (reward & Hr & Hlin).
  exists reward. split; [exact Hr|]. rewrite (Hlin eq_refl). reflexivity.
Defined.


(** ** Keyword order in the encoder *)

Section KeywordFacts.
Import StateEncoder.

Lemma contains_later (sub s : string) (c : ascii) :
  Str.contains sub s = true -> Str.contains sub (String c s) = true.
Proof.
  intros Hs. cbn [Str.contains].
  destruct (String.prefix sub (String c s)); [reflexivity|exact Hs].
Qed.

Lemma contains_of_prefix (sub s : string) :
  String.prefix sub s = true -> Str.contains sub s = true.
Proof. intros Hp. destruct s; cbn [Str.contains]; by rewrite Hp. Qed.

Lemma prefix_longer (a sub s : string) :
  String.prefix (a +:+ sub) s = true -> Str.contains sub s = true.
Proof.
  revert s. induction a as [|c a IH]; intros s Hp.
  - by apply contains_of_prefix.
  - change (String c a +:+ sub) with (String c (a +:+ sub)) in Hp.
    destruct s as [|c' s]; [discriminate Hp|].
    cbn [String.prefix] in Hp. destruct (ascii_dec c c'); [|discriminate Hp].
    apply contains_later. by apply IH.
Qed.

(** A text that contains a phrase contains every ending of the phrase. *)
Lemma contains_ending (a sub s : string) :
  Str.contains (a +:+ sub) s = true -> Str.contains sub s = true.
Proof.
  induction s as [|c s IH]; intros Hc.
  - apply (prefix_longer a). cbn [Str.contains] in Hc.
    by destruct (String.prefix (a +:+ sub) "").
  - cbn [Str.contains] in Hc.
    destruct (String.prefix (a +:+ sub) (String c s)) eqn:Hp.
    + by apply (prefix_longer a).
    + apply contains_later. by apply IH.
Qed.

(** X19. Keyword tests of the encoder that can never take effect, because
    an earlier test catches their texts. A news report that contains "very
    positive" contains "positive" and gets sentiment 0.5, not 1.0; one that
    contains "very negative" never gets -1.0; the sentiments 1.0 and -1.0
    are reached through "bullish" and "bearish" only. An options report that
    names "covered_call" contains "call" and is encoded as 0.1; the strategy
    code 0.7 is never produced. *)
Theorem X19_shadowed_keywords (s : string) :
  let low := Str.lower s in
  (exists sentiment volume impact,
     _extract_news_features (PStr s) = Ok [sentiment; volume; impact]
     /\ (Str.contains "very positive" low = true -> sentiment = 0.5%Q)
     /\ (Str.contains "very negative" low = true -> sentiment <> (-1)%Q)
     /\ (sentiment = 1%Q -> Str.contains "bullish" low = true)
     /\ (sentiment = (-1)%Q -> Str.contains "bearish" low = true))
  /\ (Str.contains "covered_call" low = true ->
      strategy_value strategy_encoding low = 0.1%Q)
  /\ strategy_value strategy_encoding low <> 0.7%Q.
Proof.
  intros low. split; [|split].
  - unfold _extract_news_features. cbn [Str.py_lower bind]. fold low.
    do 3 eexists. split; [reflexivity|].
    assert (Hpos : Str.contains "very positive" low = true ->
                   Str.contains "positive" low = true)
      by apply (contains_ending "very " "positive").
    assert (Hneg : Str.contains "very negative" low = true ->
                   Str.contains "negative" low = true)
      by apply (contains_ending "very " "negative").
    destruct (Str.contains "positive" low).
    { repeat split; try done. }
    destruct (Str.contains "very positive" low); [discriminate (Hpos eq_refl)|].
    destruct (Str.contains "bullish" low); cbn [orb].
    { repeat split; try done. }
    destruct (Str.contains "negative" low).
    { repeat split; try done. }
    destruct (Str.contains "very negative" low); [discriminate (Hneg eq_refl)|].
    destruct (Str.contains "bearish" low); cbn [orb]; repeat split; done.
  - intros Hc. apply (contains_ending "covered_" "call") in Hc.
    unfold strategy_encoding. cbn [strategy_value]. by rewrite Hc.
  - assert (Hcall : Str.contains "covered_call" low = true ->
                    Str.contains "call" low = true)
      by apply (contains_ending "covered_" "call").
    unfold strategy_encoding. cbn [strategy_value].
    destruct (Str.contains "call" low); [done|].
    destruct (Str.contains "put" low); [done|].
    destruct (Str.contains "spread" low); [done|].
    destruct (Str.contains "straddle" low); [done|].
    destruct (Str.contains "strangle" low); [done|].
    destruct (Str.contains "iron_condor" low); [done|].
    destruct (Str.contains "covered_call" low); [discriminate (Hcall eq_refl)|done].
Qed.

End KeywordFacts.

Lemma X19_witness :
  exists volume impact,
    StateEncoder._extract_news_features (PStr "Very Positive outlook, bullish.")
    = Ok [0.5%Q; volume; impact].
Proof.
  destruct (X19_shadowed_keywords "Very Positive outlook, bullish.")
    as ((sentiment & volume & impact & Hn & Hvp & _) & _).
  exists volume, impact. rewrite Hn, (Hvp eq_refl). reflexivity.
Defined.


(** ** Letter case in the encoder *)

Section CaseFacts.
Import StateEncoder.

(** All characters at once. *)
Ltac all_ascii c := destruct c as [[] [] [] [] [] [] [] []]; vm_compute; try reflexivity; try discriminate.

Lemma lower_ascii_idem c : Str.lower_ascii (Str.lower_ascii c) = Str.lower_ascii c.
Proof. all_ascii c. Qed.

Lemma is_sep_lower c : Re.is_sep (Str.lower_ascii c) = Re.is_sep c.
Proof. all_ascii c. Qed.

Lemma is_digit_lower c : Re.is_digit (Str.lower_ascii c) = Re.is_digit c.
Proof. all_ascii c. Qed.

Lemma digit_is_lower c : Re.is_digit c = true -> Str.lower_ascii c = c.
Proof. all_ascii c. Qed.

Lemma minus_lower c : Ascii.eqb (Str.lower_ascii c) "-" = Ascii.eqb c "-".
Proof. all_ascii c. Qed.

Lemma point_lower c : Ascii.eqb (Str.lower_ascii c) "." = Ascii.eqb c ".".
Proof. all_ascii c. Qed.

Lemma lower_idem s : Str.lower (Str.lower s) = Str.lower s.
Proof. induction s as [|c s IH]; simpl; [done|]. by rewrite lower_ascii_idem, IH. Qed.

Lemma list_of_lower s :
  String.list_ascii_of_string (Str.lower s)
  = map Str.lower_ascii (String.list_ascii_of_string s).
Proof. induction s as [|c s IH]; simpl; [done|]. by rewrite IH. Qed.

Lemma atom_matches_lower a c :
  Re.atom_matches a (Str.lower_ascii c) = Re.atom_matches a c.
Proof. unfold Re.atom_matches. by rewrite lower_ascii_idem. Qed.

Lemma match_head_lower h s :
  Re.match_head h (map Str.lower_ascii s)
  = map Str.lower_ascii <$> Re.match_head h s.
Proof.
  revert s. induction h as [|a h IH]; intros s; [done|].
  destruct s as [|c s]; [done|]. simpl.
  rewrite atom_matches_lower. destruct (Re.atom_matches a c); [apply IH|done].
Qed.

Lemma span_lower f s :
  (forall c, f (Str.lower_ascii c) = f c) ->
  Re.span f (map Str.lower_ascii s)
  = (map Str.lower_ascii (fst (Re.span f s)), map Str.lower_ascii (snd (Re.span f s))).
Proof.
  intros Hf. induction s as [|c s IH]; [done|]. simpl.
  rewrite Hf. destruct (f c); [|done].
  rewrite IH. by destruct (Re.span f s).
Qed.

Lemma span_digit_lower s :
  Re.span Re.is_digit (map Str.lower_ascii s)
  = (fst (Re.span Re.is_digit s), map Str.lower_ascii (snd (Re.span Re.is_digit s))).
Proof.
  induction s as [|c s IH]; [done|]. cbn [map Re.span].
  rewrite is_digit_lower. destruct (Re.is_digit c) eqn:Hc; [|done].
  rewrite IH, (digit_is_lower c Hc). by destruct (Re.span Re.is_digit s).
Qed.

(** The digits, sign and point of a number are no letters, so a match and
    its group are the same on a text and on its lower-cased form. *)
Lemma match_here_lower p s :
  Re.match_here p (map Str.lower_ascii s) = Re.match_here p s.
Proof.
  assert (Hfrac : forall neg ds r3,
    (let r4 := match map Str.lower_ascii r3 with
               | [] => map Str.lower_ascii r3
               | c :: r => if Ascii.eqb c "." then r else map Str.lower_ascii r3
               end in
     let '(fs, _) := Re.span Re.is_digit r4 in
     Some {| Re.g_neg := neg; Re.g_int := ds; Re.g_frac := fs |})
    = (let r4 := match r3 with
                 | [] => r3
                 | c :: r => if Ascii.eqb c "." then r else r3
                 end in
       let '(fs, _) := Re.span Re.is_digit r4 in
       Some {| Re.g_neg := neg; Re.g_int := ds; Re.g_frac := fs |})).
  { intros neg ds [|c r]; [done|]. cbn [map]. cbv zeta.
    rewrite point_lower. destruct (Ascii.eqb c ".").
    - rewrite span_digit_lower. by destruct (Re.span Re.is_digit r).
    - change (Str.lower_ascii c :: map Str.lower_ascii r)
        with (map Str.lower_ascii (c :: r)).
      rewrite span_digit_lower. by destruct (Re.span Re.is_digit (c :: r)). }
  assert (Hnum : forall neg r,
    (let '(ds, r3) := Re.span Re.is_digit (map Str.lower_ascii r) in
     match ds with
     | [] => None
     | _ :: _ =>
         let r4 := match r3 with
                   | [] => r3
                   | c :: r' => if Ascii.eqb c "." then r' else r3
                   end in
         let '(fs, _) := Re.span Re.is_digit r4 in
         Some {| Re.g_neg := neg; Re.g_int := ds; Re.g_frac := fs |}
     end)
    = (let '(ds, r3) := Re.span Re.is_digit r in
       match ds with
       | [] => None
       | _ :: _ =>
           let r4 := match r3 with
                     | [] => r3
                     | c :: r' => if Ascii.eqb c "." then r' else r3
                     end in
           let '(fs, _) := Re.span Re.is_digit r4 in
           Some {| Re.g_neg := neg; Re.g_int := ds; Re.g_frac := fs |}
       end)).
  { intros neg r. rewrite span_digit_lower.
    destruct (Re.span Re.is_digit r) as [ds r3]. cbn [fst snd].
    destruct ds as [|d ds]; [done|]. apply Hfrac. }
  unfold Re.match_here. rewrite match_head_lower.
  destruct (Re.match_head (Re.head p) s) as [r0|]; [|done]. cbn [fmap option_fmap option_map].
  rewrite (span_lower _ _ is_sep_lower).
  destruct (Re.span Re.is_sep r0) as [seps r1]. cbn [fst snd].
  destruct seps as [|sep seps]; [done|]. cbn [map].
  destruct r1 as [|c r]; cbn [map].
  - reflexivity.
  - rewrite minus_lower. destruct (Re.signed p && Ascii.eqb c "-").
    + apply (Hnum true r).
    + apply (Hnum false (c :: r)).
Qed.

Lemma search_from_lower p s :
  Re.search_from p (map Str.lower_ascii s) = Re.search_from p s.
Proof.
  induction s as [|c s IH].
  - reflexivity.
  - change (map Str.lower_ascii (c :: s))
      with (Str.lower_ascii c :: map Str.lower_ascii s).
    cbn [Re.search_from].
    change (Str.lower_ascii c :: map Str.lower_ascii s)
      with (map Str.lower_ascii (c :: s)).
    rewrite match_here_lower, IH. reflexivity.
Qed.

Lemma search_lower p s : Re.search p (PStr (Str.lower s)) = Re.search p (PStr s).
Proof. unfold Re.search. by rewrite list_of_lower, search_from_lower. Qed.

Lemma traverse_ext {A B} (f g : A -> result B) (l : list A) :
  (forall x, f x = g x) -> traverse f l = traverse g l.
Proof. intros Hfg. induction l as [|x l IH]; simpl; [done|]. by rewrite Hfg, IH. Qed.

(** X20. The features do not depend on letter case: two reports (ASCII
    text) with the same lower-cased form get the same vector, or the same
    error, from each of the five extractors. *)
Theorem X20_extractors_ignore_case (s s' : string) :
  Str.lower s = Str.lower s' ->
  _extract_technical_features (PStr s) = _extract_technical_features (PStr s')
  /\ _extract_fundamental_features (PStr s) = _extract_fundamental_features (PStr s')
  /\ _extract_news_features (PStr s) = _extract_news_features (PStr s')
  /\ _extract_sentiment_features (PStr s) = _extract_sentiment_features (PStr s')
  /\ _extract_options_features (PStr s) = _extract_options_features (PStr s').
Proof.
  intros Hlow.
  assert (Hsearch : forall p, Re.search p (PStr s) = Re.search p (PStr s')).
  { intros p. by rewrite <- (search_lower p s), <- (search_lower p s'), Hlow. }
  assert (Hpy : Str.py_lower (PStr s) = Str.py_lower (PStr s')).
  { simpl. by rewrite Hlow. }
  unfold _extract_technical_features, _extract_fundamental_features,
    _extract_news_features, _extract_sentiment_features,
    _extract_options_features.
  rewrite Hpy, !Hsearch.
  repeat split.
  - f_equal. apply traverse_ext. intros [name pattern]. by rewrite Hsearch.
  - apply traverse_ext. intros [name pattern]. by rewrite Hsearch.
  - f_equal. apply traverse_ext. intros [name pattern]. by rewrite Hsearch.
Qed.

End CaseFacts.

Lemma X20_witness :
  StateEncoder._extract_technical_features (PStr "RSI: 55.5 BULLISH")
  = StateEncoder._extract_technical_features (PStr "rsi: 55.5 bullish").
Proof.
  apply (X20_extractors_ignore_case "RSI: 55.5 BULLISH" "rsi: 55.5 bullish").
  reflexivity.
Defined.


(** ** Training runs of the agent *)

Section TrainingFacts.
Context `{Torch} `{Random} `{Machine}.
Import RLTradingAgent.

(** What [train_step] does to the agent, case by case. *)
Lemma train_step_cases (a : t) (g : rng) :
  let a' := fst (fst (train_step a g)) in
  a' = a
  \/ (exists policy opt,
        target_update_freq a = 0
        /\ a' = trained a policy (target_net a) opt (training_step a + 1)
                  (epsilon a) (losses a))
  \/ (exists policy opt loss target,
        target_update_freq a <> 0
        /\ snd (train_step a g) = Ok (Some loss)
        /\ a' = trained a policy target opt (training_step a + 1)
                  (Qmax (epsilon_end a) (epsilon a * epsilon_decay a))
                  (losses a ++ [loss])).
Proof.
  unfold train_step.
  destruct (Z.of_nat (ReplayBuffer.len (replay_buffer a)) <? batch_size a);
    [by left|].
  destruct (ReplayBuffer.sample (replay_buffer a) (batch_size a) g)
    as [g1 [drawn|e]]; [|by left].
  destruct (fit (policy_net a) (target_net a) (optimizer a) (gamma a) drawn)
    as [[[policy opt] loss]|e]; [|by left].
  destruct (Z.eqb_spec (target_update_freq a) 0) as [Hz|Hnz]; cbn [fst snd].
  - right. left. by exists policy, opt.
  - right. right. by eexists policy, opt, loss, _.
Qed.

Lemma fields_from (a0 a : t) :
  trained_from a0 a ->
  episode_rewards a = episode_rewards a0
  /\ state_dim a = state_dim a0 /\ action_dim a = action_dim a0
  /\ gamma a = gamma a0 /\ epsilon_end a = epsilon_end a0
  /\ epsilon_decay a = epsilon_decay a0 /\ batch_size a = batch_size a0
  /\ target_update_freq a = target_update_freq a0.
Proof.
  induction 1 as [|a t Hr IH|a g Hr IH]; [done|exact IH|].
  destruct (train_step_cases a g) as
    [-> | [(policy & opt & _ & ->) | (policy & opt & loss & target & _ & _ & ->)]];
    exact IH.
Qed.

(** X21. The agent's own [episode_rewards] is never appended to: an agent
    built by [__init__] and then used as the trainer uses it, through any
    run of [store_experience] and [train_step] calls, still has none. Its
    [get_training_stats] therefore has neither ['buffer_size'] nor
    ['training_steps'] and reports zero episodes, and the trainer's progress
    block raises KeyError on ['buffer_size'] after it has printed epsilon. *)
Theorem X21_training_stats_lack_buffer_size
  (draw : Z) (sd ad : nat) (lr gm es ee ed : Q) (capacity bs freq : Z)
  (device : string)
  (a0 a : t) (rewards win_rates : list Q) (episode episodes : Z) :
  init draw sd ad lr gm es ee ed capacity bs freq device = Ok a0 ->
  trained_from a0 a ->
  episode_rewards a = []
  /\ get_training_stats a !! "buffer_size" = None
  /\ get_training_stats a !! "training_steps" = None
  /\ get_training_stats a !! "total_episodes" = Some (PInt 0)
  /\ get_training_stats a !! "epsilon" = Some (PFloat (epsilon a))
  /\ RLTrainer.report_progress a rewards win_rates episode episodes
     = ([ PInt (episode + 1); PInt episodes;
          PFloat (np_mean (py_last 10 rewards));
          PFloat (np_mean (py_last 10 win_rates));
          PFloat (epsilon a) ],
        Raise KeyError).
Proof.
  intros Hinit Hrun.
  assert (Hnone : episode_rewards a = []).
  { destruct (fields_from _ _ Hrun) as [-> _].
    unfold init in Hinit.
    destruct (to_device device); [discriminate|].
    destruct (Nn.load_state_dict _ _) as [target [[]|e]]; [|discriminate].
    cbn [bind] in Hinit.
    destruct (Qltb lr 0); [discriminate|]. cbn [bind] in Hinit.
    destruct (ReplayBuffer.init capacity) as [buffer|e]; [|discriminate].
    cbn [bind] in Hinit. by injection Hinit as <-. }
  split; [exact Hnone|].
  unfold RLTrainer.report_progress, get_training_stats. rewrite Hnone.
  unfold dict_item. by simplify_map_eq.
Qed.

(** X22. Along any run of [store_experience] and [train_step] calls, from an
    agent with [0 <= epsilon_end <= epsilon] and [epsilon_decay <= 1]:
    epsilon stays between [epsilon_end] and its starting value, the step
    counter never decreases, at most one loss is recorded per training
    step taken, and exactly one when [target_update_freq] is not zero. *)
Theorem X22_epsilon_and_steps_along_training (a0 a : t) :
  (0 <= epsilon_end a0)%Q -> (epsilon_end a0 <= epsilon a0)%Q ->
  (epsilon_decay a0 <= 1)%Q ->
  trained_from a0 a ->
  (epsilon_end a0 <= epsilon a)%Q /\ (epsilon a <= epsilon a0)%Q
  /\ training_step a0 <= training_step a
  /\ Z.of_nat (length (losses a)) - Z.of_nat (length (losses a0))
     <= training_step a - training_step a0
  /\ (target_update_freq a0 <> 0 ->
      Z.of_nat (length (losses a)) - Z.of_nat (length (losses a0))
      = training_step a - training_step a0).
Proof.
  intros Hend Hstart Hdecay Hrun.
  induction Hrun as [|a t Hr IH|a g Hr IH].
  - repeat split; try lia; [exact Hstart | apply Qle_refl].
  - exact IH.
  - destruct (fields_from _ _ Hr) as (_ & _ & _ & _ & He & Hd & _ & Hf).
    destruct IH as (Hlo & Hhi & Hstep & Hloss & Hexact).
    destruct (train_step_cases a g) as
      [-> | [(policy & opt & Hz & ->) | (policy & opt & loss & target & Hnz & _ & ->)]];
      cbn [trained epsilon training_step losses].
    + done.
    + repeat split; try done; try lia.
    + rewrite length_app. cbn [length]. rewrite He, Hd.
      repeat split; try lia.
      * apply Q.le_max_l.
      * apply Q.max_lub; [exact Hstart|].
        apply (Qle_trans _ (epsilon a)); [|exact Hhi].
        rewrite <- (Qmult_1_r (epsilon a)) at 2.
        rewrite !(Qmult_comm (epsilon a)).
        apply Qmult_le_compat_r; [exact Hdecay|].
        apply (Qle_trans _ (epsilon_end a0)); assumption.
Qed.

(** X23. A [train_step] that returns a loss has drawn a batch the buffer
    could fill, adds one to the step counter, decays epsilon with the floor
    [epsilon_end], appends the loss, and leaves the target network alone
    unless the new step count is a multiple of [target_update_freq]; the
    replay buffer and the hyperparameters are untouched. With
    [target_update_freq = 0] no call ever returns a loss: on a buffer that
    holds a batch the call raises. *)
Theorem X23_train_step_returning_a_loss (a : t) (g : rng) :
  let a' := fst (fst (train_step a g)) in
  (forall loss, snd (train_step a g) = Ok (Some loss) ->
     target_update_freq a <> 0
     /\ 0 <= batch_size a <= Z.of_nat (ReplayBuffer.len (replay_buffer a))
     /\ training_step a' = training_step a + 1
     /\ epsilon a' = Qmax (epsilon_end a) (epsilon a * epsilon_decay a)
     /\ (epsilon_end a <= epsilon a')%Q
     /\ losses a' = losses a ++ [loss]
     /\ replay_buffer a' = replay_buffer a
     /\ episode_rewards a' = episode_rewards a
     /\ ((training_step a + 1) mod target_update_freq a <> 0 ->
         target_net a' = target_net a))
  /\ (target_update_freq a = 0 ->
      batch_size a <= Z.of_nat (ReplayBuffer.len (replay_buffer a)) ->
      exists e, snd (train_step a g) = Raise e).
Proof.
  unfold train_step, ReplayBuffer.sample.
  destruct (Z.ltb_spec (Z.of_nat (ReplayBuffer.len (replay_buffer a))) (batch_size a))
    as [Hshort|Hfull].
  { cbn [fst snd]. split; [done|]. lia. }
  destruct (Z.ltb_spec (batch_size a) 0) as [Hneg|Hpos]; cbn [orb fst snd].
  { split; [done|]. by eexists. }
  destruct (random_sample g (rb_buffer (replay_buffer a)) (Z.to_nat (batch_size a)))
    as [[|t drawn] g1]; cbn [fst snd].
  { split; [done|]. by eexists. }
  destruct (fit (policy_net a) (target_net a) (optimizer a) (gamma a) _)
    as [[[policy opt] loss]|e]; cbn [fst snd].
  2:{ split; [done|]. by eexists. }
  destruct (Z.eqb_spec (target_update_freq a) 0) as [Hz|Hnz]; cbn [fst snd].
  { split; [done|]. by eexists. }
  split; [|done].
  intros loss' [= <-]. cbn [trained training_step epsilon losses replay_buffer
    episode_rewards target_net].
  repeat split; try done; try lia.
  - apply Q.le_max_l.
  - intros Hmod. by rewrite (proj2 (Z.eqb_neq _ _) Hmod).
Qed.

End TrainingFacts.

Lemma X21_witness :
  @RLTrainer.report_progress example_torch
    (fst (fst (@RLTradingAgent.train_step example_torch example_random
                 (@RLTradingAgent.store_experience example_torch
                    (example_agent 0 4 3) (tr 1)) 0%nat)))
    [1%Q] [0%Q] 9 1000
  = ([ PInt 10; PInt 1000; PFloat (np_mean (RLTradingAgent.py_last 10 [1%Q]));
       PFloat (np_mean (RLTradingAgent.py_last 10 [0%Q])); PFloat 1 ],
     Raise KeyError).
Proof.
  apply (@X21_training_stats_lack_buffer_size example_torch example_random
           example_machine 0 4%nat 3%nat 0.001 0.99 1 0.01 0.995 10000 64 10 "cpu"
           (example_agent 0 4 3)
           (fst (fst (@RLTradingAgent.train_step example_torch example_random
                        (@RLTradingAgent.store_experience example_torch
                           (example_agent 0 4 3) (tr 1)) 0%nat)))
           [1%Q] [0%Q] 9 1000).
  - apply example_agent_is_init.
  - apply (@from_train example_torch example_random).
    apply (@from_store example_torch example_random).
    apply (@from_start example_torch example_random).
Defined.

Lemma X22_witness :
  let a0 := @RLTradingAgent.mkAgent example_torch 4 3 0.99 1 0.01 0.995 2 10
              (@Nn.DQN example_torch 0 4 3) (@Nn.DQN example_torch 0 4 3) 0
              (ReplayBuffer.new 5) 0 [] [] in
  let a1 := @RLTradingAgent.store_experience example_torch
              (@RLTradingAgent.store_experience example_torch a0 (tr 1)) (tr 2) in
  let a2 := fst (fst (@RLTradingAgent.train_step example_torch example_random
                        a1 0%nat)) in
  let a3 := fst (fst (@RLTradingAgent.train_step example_torch example_random
                        (@RLTradingAgent.store_experience example_torch a2 (tr 3))
                        1%nat)) in
  @RLTradingAgent.training_step example_torch a3 = 2
  /\ length (@RLTradingAgent.losses example_torch a3) = 2%nat
  /\ (@RLTradingAgent.epsilon example_torch a3 < 1)%Q
  /\ (0.01 <= @RLTradingAgent.epsilon example_torch a3)%Q
  /\ (@RLTradingAgent.epsilon example_torch a3 <= 1)%Q
  /\ Z.of_nat (length (@RLTradingAgent.losses example_torch a3)) - 0
     = @RLTradingAgent.training_step example_torch a3 - 0.
Proof.
  intros a0 a1 a2 a3.
  split; [reflexivity|]. split; [reflexivity|]. split; [reflexivity|].
  destruct (@X22_epsilon_and_steps_along_training example_torch example_random
              a0 a3) as (Hlo & Hhi & _ & _ & Hcount).
  - discriminate.
  - discriminate.
  - discriminate.
  - apply (@from_train example_torch example_random).
    apply (@from_store example_torch example_random).
    apply (@from_train example_torch example_random).
    apply (@from_store example_torch example_random).
    apply (@from_store example_torch example_random).
    apply (@from_start example_torch example_random).
  - split; [exact Hlo|]. split; [exact Hhi|]. apply Hcount. discriminate.
Defined.

Lemma X23_witness :
  let a := @RLTradingAgent.mkAgent example_torch 4 3 0.99 1 0.01 0.995 2 10
             (@Nn.DQN example_torch 0 4 3) (@Nn.DQN example_torch 0 4 3) 0
             (ReplayBuffer.push_all (ReplayBuffer.new 5) [tr 1; tr 2; tr 3])
             0 [] [] in
  let a' := fst (fst (@RLTradingAgent.train_step example_torch example_random a 0%nat)) in
  snd (@RLTradingAgent.train_step example_torch example_random a 0%nat) = Ok (Some 0%Q)
  /\ @RLTradingAgent.training_step example_torch a' = 1
  /\ @RLTradingAgent.losses example_torch a' = [0%Q].
Proof.
  intros a a'.
  assert (Hloss : snd (@RLTradingAgent.train_step example_torch example_random a 0%nat)
                  = Ok (Some 0%Q)) by reflexivity.
  split; [exact Hloss|].
  destruct (proj1 (@X23_train_step_returning_a_loss example_torch example_random
                     a 0%nat) 0%Q Hloss)
    as (_ & _ & Hstep & _ & _ & Hlosses & _).
  split; [exact Hstep | exact Hlosses].
Defined.


(** ** The layout of the state vector and the profit heuristic *)

Section LayoutFacts.
Import StateEncoder.

Lemma pad_or_truncate_lookup d raw i :
  (i < d)%nat -> (i < length raw)%nat -> pad_or_truncate d raw !! i = raw !! i.
Proof.
  intros Hd Hraw. unfold pad_or_truncate.
  destruct (Nat.ltb_spec (length raw) d).
  - by apply lookup_app_l.
  - destruct (Nat.ltb_spec d (length raw)); [|done]. by apply lookup_take_lt.
Qed.

Lemma technical_trend s :
  exists pre trend,
    _extract_technical_features (PStr s) = Ok (pre ++ [trend])
    /\ length pre = 8%nat
    /\ trend = (if Str.contains "bullish" (Str.lower s) then 1
                else if Str.contains "bearish" (Str.lower s) then -1 else 0)%Q.
Proof. eexists _, _. split; [reflexivity|]. split; reflexivity. Qed.

Lemma news_impact s :
  exists sentiment volume impact,
    _extract_news_features (PStr s) = Ok [sentiment; volume; impact]
    /\ (impact = 1 \/ impact = 0.3 \/ impact = 0.5)%Q.
Proof.
  eexists _, _, _. split; [reflexivity|]. cbv beta.
  destruct (_ || _); [by left|]. destruct (_ || _); [right; by left|right; by right].
Qed.

Lemma np_clip_inside x : (0 <= x)%Q -> (x <= 1)%Q -> (TradingEnvironment.np_clip x 0 1 == x)%Q.
Proof.
  intros H0 H1. unfold TradingEnvironment.np_clip.
  rewrite (Q.max_l x 0 H0). by apply Q.min_l.
Qed.

Lemma np_clip_range x :
  (0 <= TradingEnvironment.np_clip x 0 1)%Q /\ (TradingEnvironment.np_clip x 0 1 <= 1)%Q.
Proof.
  unfold TradingEnvironment.np_clip. split.
  - apply Q.min_glb; [apply Q.le_max_r | discriminate].
  - apply Q.le_min_r.
Qed.

(** X25. The heuristic profit probability is within [0, 1] for every state
    and action; it is 0.5 for every action other than 0 and 2, negative
    indices included, and for every action on a state of eight values or
    fewer, where neither feature is read. *)
Theorem X25_profit_probability_range (state : list Q) (action : Z) :
  let p := TradingEnvironment.calculate_profit_probability state action in
  (0 <= p)%Q /\ (p <= 1)%Q
  /\ (action <> 0 -> action <> 2 -> p = 0.5%Q)
  /\ ((length state <= 8)%nat -> (p == 0.5)%Q).
Proof.
  unfold TradingEnvironment.calculate_profit_probability. cbv zeta.
  split; [apply np_clip_range|]. split; [apply np_clip_range|]. split.
  - intros H0 H2.
    rewrite (proj2 (Z.eqb_neq action 0) H0), (proj2 (Z.eqb_neq action 2) H2).
    reflexivity.
  - intros Hlen.
    rewrite (proj2 (Nat.ltb_ge 8 (length state))) by lia.
    rewrite (proj2 (Nat.ltb_ge 17 (length state))) by lia.
    destruct (action =? 0); [reflexivity|]. destruct (action =? 2); reflexivity.
Qed.

(** X26. On the encoded state of text reports, with [state_dim] at least
    18, the heuristic reads the trend of the market report (index 8) and,
    as its sentiment, index 17: by [get_feature_names] and by the order of
    [encode] that is the news impact, 0.3, 0.5 or 1, not the news sentiment
    at index 15. Nothing is clipped there: BUY gets
    0.5 + 0.2 trend + 0.2 impact and SELL 0.5 - 0.2 trend - 0.2 impact, so
    without a trend keyword BUY is above one half and SELL below it,
    whatever the news say. *)
Theorem X26_profit_probability_of_encoded_state
  (state_dim : nat) (st : gmap string pyval) :
  text_reports st = true -> (18 <= state_dim)%nat ->
  exists v trend sentiment volume impact,
    encode state_dim st = Ok v
    /\ _extract_news_features (dict_get st "news_report" (PStr ""))
       = Ok [sentiment; volume; impact]
    /\ v !! 8%nat = Some trend /\ v !! 15%nat = Some sentiment
    /\ v !! 17%nat = Some impact
    /\ get_feature_names !! 8%nat = Some "trend"
    /\ get_feature_names !! 15%nat = Some "news_sentiment"
    /\ get_feature_names !! 17%nat = Some "news_impact"
    /\ (trend = 1 \/ trend = -1 \/ trend = 0)%Q
    /\ (impact = 1 \/ impact = 0.3 \/ impact = 0.5)%Q
    /\ (TradingEnvironment.calculate_profit_probability v 0
        == 0.5 + trend * 0.2 + impact * 0.2)%Q
    /\ (TradingEnvironment.calculate_profit_probability v 2
        == 0.5 - trend * 0.2 - impact * 0.2)%Q
    /\ (trend = 0%Q ->
        (0.5 < TradingEnvironment.calculate_profit_probability v 0)%Q
        /\ (TradingEnvironment.calculate_profit_probability v 2 < 0.5)%Q).
Proof.
  intros Htext Hdim.
  destruct (raw_features_text st Htext)
    as (t & f & n & s & o & Ht & _ & Hn & _ & _ & (Lt & Lf & Ln & Ls & Lo) & Hraw).
  assert (Hmarket : exists s1, dict_get st "market_report" (PStr "") = PStr s1).
  { apply text_inv. unfold text_reports in Htext. rewrite report_keys_eq in Htext.
    simpl in Htext. by apply andb_prop in Htext as [? _]. }
  assert (Hnews : exists s3, dict_get st "news_report" (PStr "") = PStr s3).
  { apply text_inv. unfold text_reports in Htext. rewrite report_keys_eq in Htext.
    simpl in Htext.
    apply andb_prop in Htext as [_ Htext]. apply andb_prop in Htext as [_ Htext].
    by apply andb_prop in Htext as [? _]. }
  destruct Hmarket as [s1 E1], Hnews as [s3 E3]. rewrite E1 in Ht. rewrite E3 in Hn.
  destruct (technical_trend s1) as (pre & trend & Ht' & Lpre & Htrend).
  destruct (news_impact s3) as (sentiment & volume & impact & Hn' & Himpact).
  rewrite Ht' in Ht. injection Ht as <-. rewrite Hn' in Hn. injection Hn as <-.
  set (raw := (pre ++ [trend]) ++ f ++ [sentiment; volume; impact] ++ s ++ o ++ [mode_flag st]) in *.
  assert (Lraw : length raw = 29%nat).
  { subst raw. rewrite !length_app. cbn [length]. lia. }
  assert (R8 : raw !! 8%nat = Some trend).
  { subst raw. rewrite lookup_app_l by (rewrite length_app; cbn [length]; lia).
    rewrite lookup_app_r by lia. by rewrite Lpre. }
  assert (R15 : raw !! 15%nat = Some sentiment).
  { subst raw. rewrite lookup_app_r by lia. rewrite Lt.
    rewrite lookup_app_r by lia. by rewrite Lf. }
  assert (R17 : raw !! 17%nat = Some impact).
  { subst raw. rewrite lookup_app_r by lia. rewrite Lt.
    rewrite lookup_app_r by lia. by rewrite Lf. }
  exists (pad_or_truncate state_dim raw), trend, sentiment, volume, impact.
  assert (V8 : pad_or_truncate state_dim raw !! 8%nat = Some trend).
  { rewrite pad_or_truncate_lookup by lia. exact R8. }
  assert (V17 : pad_or_truncate state_dim raw !! 17%nat = Some impact).
  { rewrite pad_or_truncate_lookup by lia. exact R17. }
  assert (Htr : (trend = 1 \/ trend = -1 \/ trend = 0)%Q).
  { rewrite Htrend. destruct (Str.contains "bullish" _); [by left|].
    destruct (Str.contains "bearish" _); [right; by left | right; by right]. }
  assert (Hbuy : (TradingEnvironment.calculate_profit_probability
                    (pad_or_truncate state_dim raw) 0
                  == 0.5 + trend * 0.2 + impact * 0.2)%Q).
  { unfold TradingEnvironment.calculate_profit_probability.
    rewrite pad_or_truncate_length, V8, V17.
    rewrite (proj2 (Nat.ltb_lt 8 state_dim)), (proj2 (Nat.ltb_lt 17 state_dim)) by lia.
    cbn [default Z.eqb]. cbv zeta.
    destruct Htr as [-> | [-> | ->]], Himpact as [-> | [-> | ->]]; reflexivity. }
  assert (Hsell : (TradingEnvironment.calculate_profit_probability
                     (pad_or_truncate state_dim raw) 2
                   == 0.5 - trend * 0.2 - impact * 0.2)%Q).
  { unfold TradingEnvironment.calculate_profit_probability.
    rewrite pad_or_truncate_length, V8, V17.
    rewrite (proj2 (Nat.ltb_lt 8 state_dim)), (proj2 (Nat.ltb_lt 17 state_dim)) by lia.
    cbn [default Z.eqb]. cbv zeta.
    destruct Htr as [-> | [-> | ->]], Himpact as [-> | [-> | ->]]; reflexivity. }
  split. { unfold encode. rewrite Hraw. reflexivity. }
  split; [by rewrite E3|]. split; [exact V8|].
  split. { rewrite pad_or_truncate_lookup by lia. exact R15. }
  split; [exact V17|].
  do 3 (split; [reflexivity|]).
  split; [exact Htr|]. split; [exact Himpact|].
  split; [exact Hbuy|]. split; [exact Hsell|].
  intros ->. rewrite Hbuy, Hsell.
  destruct Himpact as [-> | [-> | ->]]; split; reflexivity.
Qed.

(** X27. [get_feature_names] lists 29 distinct names, one per value that
    [encode] assembles, the mode flag last. A [state_dim] of 28 or less
    cuts the flag off: the encoded state of text reports is then the same
    whatever the trading mode. *)
Theorem X27_small_state_dim_drops_the_mode (state_dim : nat)
  (st : gmap string pyval) (mode : pyval) :
  text_reports st = true -> (state_dim <= 28)%nat ->
  length get_feature_names = 29%nat
  /\ NoDup get_feature_names
  /\ last get_feature_names = Some "is_options_mode"
  /\ encode state_dim (<["trading_mode" := mode]> st) = encode state_dim st.
Proof.
  intros Htext Hdim.
  split; [reflexivity|]. split; [apply (bool_decide_unpack _); vm_compute; reflexivity|].
  split; [reflexivity|].
  assert (Hget : forall key, key ∈ report_keys ->
            dict_get (<["trading_mode" := mode]> st) key (PStr "")
            = dict_get st key (PStr "")).
  { intros key Hin. unfold dict_get. rewrite lookup_insert_ne; [done|].
    intros <-. rewrite report_keys_eq in Hin.
    repeat (apply elem_of_cons in Hin as [Hin|Hin]; [discriminate Hin|]).
    by apply elem_of_nil in Hin. }
  assert (Htext' : text_reports (<["trading_mode" := mode]> st) = true).
  { unfold text_reports in *. rewrite forallb_forall in *. intros key Hin.
    rewrite Hget by (by apply list_elem_of_In). by apply Htext. }
  destruct (raw_features_text st Htext)
    as (t & f & n & s & o & Ht & Hf & Hn & Hs & Ho & (Lt & Lf & Ln & Ls & Lo) & Hraw).
  destruct (raw_features_text _ Htext')
    as (t' & f' & n' & s' & o' & Ht' & Hf' & Hn' & Hs' & Ho' & _ & Hraw').
  rewrite report_keys_eq in Hget.
  rewrite (Hget "market_report" ltac:(repeat constructor)) in Ht'.
  rewrite (Hget "fundamentals_report" ltac:(repeat constructor)) in Hf'.
  rewrite (Hget "news_report" ltac:(repeat constructor)) in Hn'.
  rewrite (Hget "sentiment_report" ltac:(repeat constructor)) in Hs'.
  rewrite (Hget "options_report" ltac:(repeat constructor)) in Ho'.
  assert (t' = t) as -> by congruence. assert (f' = f) as -> by congruence.
  assert (n' = n) as -> by congruence. assert (s' = s) as -> by congruence.
  assert (o' = o) as -> by congruence.
  unfold encode. rewrite Hraw, Hraw'. cbn [bind]. f_equal.
  assert (Hcut : forall flag,
            pad_or_truncate state_dim (t ++ f ++ n ++ s ++ o ++ [flag])
            = take state_dim (t ++ f ++ n ++ s ++ o)).
  { intros flag. rewrite pad_or_truncate_long.
    - rewrite !(app_assoc _ _ [flag]). apply take_app_le.
      rewrite !length_app. lia.
    - rewrite !length_app. cbn [length]. lia. }
  by rewrite !Hcut.
Qed.

End LayoutFacts.

Lemma X26_witness :
  exists v, StateEncoder.encode 32 sample_state = Ok v
            /\ v !! 17%nat = Some 1%Q
            /\ (TradingEnvironment.calculate_profit_probability v 0 == 0.9)%Q.
Proof.
  destruct (X26_profit_probability_of_encoded_state 32 sample_state)
    as (v & trend & sentiment & volume & impact & Hv & _ & H8 & _ & H17 & _ & _ & _
        & _ & _ & Hbuy & _).
  - reflexivity.
  - apply (Nat.leb_le 18 32). reflexivity.
  - exists v.
    assert (Hrun : StateEncoder.encode 32 sample_state
                   = Ok (StateEncoder.pad_or_truncate 32
                           [0.555; -1.25; 101; 0; 0; 0; 0; 0; 1; 0; 0; 0; 0; 0; 0;
                            0.5; 0.2; 1; 0; 0.5; -0.5; 0.02; 0; 0; 0; 0.35; 1; 0.4; 1]%Q)).
    { vm_compute. reflexivity. }
    rewrite Hrun in Hv. injection Hv as <-.
    injection H8 as <-. injection H17 as <-.
    split; [reflexivity|]. split; [reflexivity|]. rewrite Hbuy. reflexivity.
Defined.

Lemma X27_witness :
  StateEncoder.encode 28 (<["trading_mode" := PStr "stock"]> sample_state)
  = StateEncoder.encode 28 sample_state.
Proof.
  apply (X27_small_state_dim_drops_the_mode 28 sample_state (PStr "stock")).
  - reflexivity.
  - apply (Nat.leb_le 28 28). reflexivity.
Defined.


(** ** The ranges of the features *)

Section RangeFacts.
Import StateEncoder.

Lemma digits_val_nonneg ds : 0 <= Re.digits_val ds.
Proof.
  unfold Re.digits_val.
  assert (Hacc : forall acc, 0 <= acc ->
            0 <= foldl (fun acc c => 10 * acc + Re.digit_val c) acc ds).
  { induction ds as [|c ds IH]; intros acc Hacc; [exact Hacc|].
    simpl. apply IH. unfold Re.digit_val. lia. }
  by apply Hacc.
Qed.

Lemma match_here_sign p s g :
  Re.match_here p s = Some g -> Re.g_neg g = true -> Re.signed p = true.
Proof.
  unfold Re.match_here.
  destruct (Re.match_head (Re.head p) s) as [r0|]; [|discriminate].
  destruct (Re.span Re.is_sep r0) as [[|sep seps] r1]; [discriminate|].
  destruct r1 as [|c r].
  - destruct (Re.span Re.is_digit []) as [[|d ds] r3]; [discriminate|].
    destruct (Re.span Re.is_digit _) as [fs r5]. intros [= <-]. discriminate.
  - destruct (Re.signed p); [done|]. cbn [andb].
    destruct (Re.span Re.is_digit (c :: r)) as [[|d ds] r3]; [discriminate|].
    destruct (Re.span Re.is_digit _) as [fs r5]. intros [= <-]. discriminate.
Qed.

Lemma search_from_sign p s g :
  Re.search_from p s = Some g -> Re.g_neg g = true -> Re.signed p = true.
Proof.
  induction s as [|c s IH]; cbn [Re.search_from].
  - destruct (Re.match_here p []) as [g'|] eqn:E; [|discriminate].
    intros [= ->] Hneg. exact (match_here_sign _ _ _ E Hneg).
  - destruct (Re.match_here p (c :: s)) as [g'|] eqn:E; [|exact IH].
    intros [= ->] Hneg. exact (match_here_sign _ _ _ E Hneg).
Qed.

(** A pattern without a sign in its group yields no negative number. *)
Lemma unsigned_float p s g :
  Re.signed p = false -> Re.search_from p s = Some g -> (0 <= Re.float g)%Q.
Proof.
  intros Hp Hg. unfold Re.float.
  destruct (Re.g_neg g) eqn:Hneg.
  - apply (search_from_sign _ _ _ Hg) in Hneg. congruence.
  - unfold Qle. cbn [Qnum Qden]. pose proof (digits_val_nonneg (Re.g_int g ++ Re.g_frac g)). lia.
Qed.

Lemma percent_nonneg x : (0 <= x)%Q -> (0 <= x / 100)%Q.
Proof. intros Hx. apply Qle_shift_div_l; [reflexivity|]. by rewrite Qmult_0_l. Qed.

Ltac unsigned_feature :=
  match goal with
  | |- (0 <= match Re.search_from ?p ?l with _ => _ end)%Q =>
      let E := fresh "E" in
      destruct (Re.search_from p l) as [?|] eqn:E;
      [ apply (unsigned_float p l _ eq_refl) in E; cbv zeta;
        try (apply percent_nonneg); exact E
      | first [apply Qle_refl | discriminate] ]
  end.

(** X28. The ranges of the features of a report in text. The numbers read
    by patterns without a sign (all but MACD, delta, theta and rho) are
    never negative, so a negative figure in a report is not encoded; the
    trend is 1, -1 or 0; the news sentiment is one of five levels, the news
    volume lies in [0, 1], the impact and the strength are 1, 0.3 or 0.5,
    the social sentiment is 0.7, -0.7 or 0, and the strategy code is 0 or
    one of 0.1 to 0.6. *)
Theorem X28_feature_ranges (s : string) :
  (exists rsi macd sma_50 sma_200 ema_10 volume volatility atr trend,
     _extract_technical_features (PStr s)
     = Ok [rsi; macd; sma_50; sma_200; ema_10; volume; volatility; atr; trend]
     /\ Forall (Qle 0) [rsi; sma_50; sma_200; ema_10; volume; volatility; atr]
     /\ trend ∈ [1; -1; 0]%Q)
  /\ (exists v, _extract_fundamental_features (PStr s) = Ok v
                /\ Forall (Qle 0) v)
  /\ (exists sentiment volume impact,
        _extract_news_features (PStr s) = Ok [sentiment; volume; impact]
        /\ sentiment ∈ [0.5; 1; -0.5; -1; 0]%Q
        /\ (0 <= volume)%Q /\ (volume <= 1)%Q
        /\ impact ∈ [1; 0.3; 0.5]%Q)
  /\ (exists overall strength,
        _extract_sentiment_features (PStr s) = Ok [overall; strength]
        /\ overall ∈ [0.7; -0.7; 0]%Q
        /\ strength ∈ [1; 0.3; 0.5]%Q)
  /\ (exists delta gamma theta vega rho iv pc strategy,
        _extract_options_features (PStr s)
        = Ok [delta; gamma; theta; vega; rho; iv; pc; strategy]
        /\ Forall (Qle 0) [gamma; vega; iv; pc]
        /\ strategy ∈ [0; 0.1; 0.2; 0.3; 0.4; 0.5; 0.6]%Q).
Proof.
  split; [|split; [|split; [|split]]].
  - eexists _, _, _, _, _, _, _, _, _. split; [reflexivity|]. split.
    + repeat match goal with
             | |- context [bool_decide ?P] =>
                 let b := eval vm_compute in (bool_decide P) in
                 change (bool_decide P) with b
             end.
      cbv iota.
      repeat (apply Forall_cons; split; [unsigned_feature|]). apply Forall_nil_2.
    + destruct (Str.contains "bullish" _); [repeat constructor|].
      destruct (Str.contains "bearish" _); repeat constructor.
  - eexists. split; [reflexivity|].
    repeat (apply Forall_cons; split; [unsigned_feature|]). apply Forall_nil_2.
  - eexists _, _, _. split; [reflexivity|]. cbv zeta. split; [|split; [|split]].
    + destruct (Str.contains "positive" _); [repeat constructor|].
      destruct (_ || _); [repeat constructor|].
      destruct (Str.contains "negative" _); [repeat constructor|].
      destruct (_ || _); repeat constructor.
    + apply Q.min_glb; [|discriminate].
      apply Qle_shift_div_l; [reflexivity|]. rewrite Qmult_0_l.
      unfold Qle. cbn [Qnum Qden inject_Z]. lia.
    + apply Q.le_min_r.
    + destruct (_ || _); [repeat constructor|].
      destruct (_ || _); repeat constructor.
  - eexists _, _. split; [reflexivity|]. cbv zeta. split.
    + destruct (Str.contains "bullish" _); [repeat constructor|].
      destruct (Str.contains "bearish" _); repeat constructor.
    + destruct (Str.contains "strong" _); [repeat constructor|].
      destruct (Str.contains "weak" _); repeat constructor.
  - eexists _, _, _, _, _, _, _, _. split; [reflexivity|]. split.
    + repeat (apply Forall_cons; split; [unsigned_feature|]). apply Forall_nil_2.
    + assert (Hcall : Str.contains "covered_call" (Str.lower s) = true ->
                      Str.contains "call" (Str.lower s) = true)
        by apply (contains_ending "covered_" "call").
      unfold strategy_encoding. cbn [strategy_value].
      destruct (Str.contains "call" _); [repeat constructor|].
      destruct (Str.contains "put" _); [repeat constructor|].
      destruct (Str.contains "spread" _); [repeat constructor|].
      destruct (Str.contains "straddle" _); [repeat constructor|].
      destruct (Str.contains "strangle" _); [repeat constructor|].
      destruct (Str.contains "iron_condor" _); [repeat constructor|].
      destruct (Str.contains "covered_call" _); [discriminate (Hcall eq_refl)|].
      repeat constructor.
Qed.

End RangeFacts.


(** ** The two networks of the agent *)

Section NetworkFacts.
Context `{Torch} `{Random} `{Machine}.
Import RLTradingAgent.


(** X30. Keeping the target network in step. For an agent whose networks
    have the shapes of its dimensions, and an optimisation that keeps the
    shapes of the policy parameters: a [train_step] that returns a loss
    leaves both networks with those shapes; when the new step count is a
    multiple of [target_update_freq] the target network has the values of
    the new policy network, and otherwise it is the one from before. *)
Theorem X30_target_network_sync (a : t) (g : rng) (loss : Q) :
  well_formed a ->
  (forall drawn policy opt l,
     fit (policy_net a) (target_net a) (optimizer a) (gamma a) drawn
     = Ok (policy, opt, l) ->
     dqn_shaped policy (state_dim a) (action_dim a)) ->
  snd (train_step a g) = Ok (Some loss) ->
  let a' := fst (fst (train_step a g)) in
  well_formed a'
  /\ ((training_step a + 1) mod target_update_freq a = 0 ->
      target_net a' = policy_net a')
  /\ ((training_step a + 1) mod target_update_freq a <> 0 ->
      target_net a' = target_net a).
Proof.
  intros [Hp Ht] Hfit. unfold train_step.
  destruct (Z.of_nat (ReplayBuffer.len (replay_buffer a)) <? batch_size a);
    [discriminate|].
  destruct (ReplayBuffer.sample (replay_buffer a) (batch_size a) g)
    as [g1 [drawn|e]]; [|discriminate].
  destruct (fit (policy_net a) (target_net a) (optimizer a) (gamma a) drawn)
    as [[[policy opt] l]|e] eqn:Efit; [|discriminate].
  specialize (Hfit _ _ _ _ Efit).
  destruct (target_update_freq a =? 0); [discriminate|].
  cbn [fst snd]. intros _.
  cbn [trained policy_net target_net state_dim action_dim].
  destruct (Z.eqb_spec ((training_step a + 1) mod target_update_freq a) 0)
    as [Hsync|Hkeep].
  - rewrite (load_same_dims _ _ _ _ Ht Hfit). cbn [fst].
    split; [by split|]. split; [done|]. intros Hne. by destruct Hne.
  - split; [by split|]. split; [intros Heq; by destruct Hkeep|done].
Qed.

End NetworkFacts.


Lemma X30_witness :
  let a := @RLTradingAgent.mkAgent example_torch 4 3 0.99 1 0.01 0.995 2 1
             (@Nn.DQN example_torch 0 4 3) (@Nn.DQN example_torch 1 4 3) 0
             (ReplayBuffer.push_all (ReplayBuffer.new 5) [tr 1; tr 2; tr 3])
             0 [] [] in
  let a' := fst (fst (@RLTradingAgent.train_step example_torch example_random a 0%nat)) in
  @RLTradingAgent.target_net example_torch a'
  = @RLTradingAgent.policy_net example_torch a'.
Proof.
  intros a a'.
  apply (@X30_target_network_sync example_torch example_random a 0%nat 0%Q).
  - split; reflexivity.
  - intros drawn policy opt l [= <- _ _]. reflexivity.
  - reflexivity.
  - reflexivity.
Defined.


(** ** Saving to a file and loading from it *)

Section DiskFacts.
Context `{Files}.
Import RLTradingAgent.

(** A path without [.pth] is its own configuration path. *)
Lemma replace_without (s : string) :
  Str.contains ".pth" s = false -> Str.replace s ".pth" "_config.json" = s.
Proof.
  unfold Str.replace. induction s as [|c s IH]; [done|].
  cbn [Str.contains Str.replace_from].
  destruct (String.prefix ".pth" (String c s)); [discriminate|].
  intros Hc. by rewrite (IH Hc).
Qed.

(** A path with [.pth] differs from its configuration path, at the first
    occurrence. *)
Lemma replace_changes (s : string) :
  Str.contains ".pth" s = true -> Str.replace s ".pth" "_config.json" <> s.
Proof.
  unfold Str.replace. induction s as [|c s IH]; [discriminate|].
  cbn [Str.contains Str.replace_from].
  destruct (String.prefix ".pth" (String c s)) eqn:Hp.
  - intros _. cbn [String.prefix] in Hp.
    destruct (ascii_dec "." c) as [<-|]; [|discriminate]. discriminate.
  - intros Hc Heq. injection Heq as Heq. by apply (IH Hc).
Qed.

(** What the statements below assume of the file system: the empty name is
    no directory that can be made; a checkpoint that was saved loads from
    its path; writing a configuration leaves the files at other paths as
    they were, and what it wrote does not load as a checkpoint. *)
Hypothesis makedirs_empty :
  forall fs, snd (makedirs fs "") = Raise FileNotFoundError.
Hypothesis load_after_save :
  forall fs obj p fs', torch_save fs obj p = (fs', Ok ()) -> torch_load fs' p = Ok obj.
Hypothesis load_after_write_elsewhere :
  forall fs p config fs' q,
    write_json fs p config = (fs', Ok ()) -> q <> p ->
    torch_load fs' q = torch_load fs q.
Hypothesis load_after_write :
  forall fs p config fs',
    write_json fs p config = (fs', Ok ()) -> exists e, torch_load fs' p = Raise e.

(** X24. Save and load through a file. [save_model] raises
    FileNotFoundError for a path without a directory part. When it returns,
    a path without [.pth] has had its checkpoint overwritten by the
    configuration, and [load_model] from it raises and leaves the agent as
    it was. For a path with [.pth], loading into an agent [a] of the same
    dimensions succeeds and gives [a] the networks, epsilon, step counter
    and episode rewards of the saved agent [b] and the optimizer state that
    was loaded; the replay buffer and the loss history are not part of a
    checkpoint, [a] keeps its own, with its hyperparameters. *)
Theorem X24_save_then_load (a b : t) (opt : optim) (path : string) (fs : files) :
  well_formed a -> well_formed b ->
  state_dim a = state_dim b -> action_dim a = action_dim b ->
  adam_load (optimizer a) (optimizer b) = Ok opt ->
  (Os.dirname path = "" ->
   snd (OnDisk.save_model b path fs) = Raise FileNotFoundError)
  /\ (forall fs' out,
        OnDisk.save_model b path fs = (fs', out, Ok ()) ->
        out = ["Model saved to " +:+ path]
        /\ (Str.contains ".pth" path = false ->
            exists e, OnDisk.load_model a path fs' = (a, [], Raise e))
        /\ (Str.contains ".pth" path = true ->
            let a' := fst (fst (OnDisk.load_model a path fs')) in
            OnDisk.load_model a path fs'
            = (a', ["Model loaded from " +:+ path], Ok ())
            /\ save_model a'
               = {| policy_net_state_dict := policy_net b;
                    target_net_state_dict := target_net b;
                    optimizer_state_dict := opt;
                    ck_epsilon := epsilon b;
                    ck_training_step := training_step b;
                    ck_episode_rewards := Some (episode_rewards b) |}
            /\ replay_buffer a' = replay_buffer a
            /\ losses a' = losses a
            /\ gamma a' = gamma a /\ epsilon_end a' = epsilon_end a
            /\ epsilon_decay a' = epsilon_decay a /\ batch_size a' = batch_size a
            /\ target_update_freq a' = target_update_freq a
            /\ well_formed a')).
Proof using makedirs_empty load_after_save load_after_write_elsewhere
  load_after_write.
  intros Ha Hb Hs Hd Hopt. unfold OnDisk.save_model. split.
  - intros ->. pose proof (makedirs_empty fs) as Hraise.
    destruct (makedirs fs "") as [fs1 r1]. cbn [snd] in Hraise. by subst r1.
  - intros fs' out.
    destruct (makedirs fs (Os.dirname path)) as [fs1 [[]|e]]; [|discriminate].
    destruct (torch_save fs1 (save_model b) path) as [fs2 [[]|e]] eqn:Hsave;
      [|discriminate].
    destruct (write_json fs2 _ _) as [fs3 [[]|e]] eqn:Hwrite; [|discriminate].
    intros [= <- <-]. split; [reflexivity|].
    apply load_after_save in Hsave. unfold OnDisk.load_model. split.
    + intros Hnone. rewrite (replace_without path Hnone) in Hwrite.
      destruct (load_after_write _ _ _ _ Hwrite) as [e ->]. by exists e.
    + intros Hsome. cbv zeta.
      rewrite (load_after_write_elsewhere _ _ _ _ path Hwrite)
        by (intros Heq; by apply (replace_changes path Hsome)).
      rewrite Hsave.
      rewrite (load_model_same_dims a b opt Ha Hb Hs Hd Hopt). cbn [fst snd].
      repeat split; try reflexivity.
      * rewrite Hs, Hd. apply Hb.
      * rewrite Hs, Hd. apply Hb.
Qed.

End DiskFacts.

(** The example file system is one the statement speaks of. *)
Lemma example_files_makedirs fs :
  snd (@makedirs example_torch example_files fs "") = Raise FileNotFoundError.
Proof. reflexivity. Qed.

Lemma example_files_load_after_save fs obj p fs' :
  @torch_save example_torch example_files fs obj p = (fs', Ok ()) ->
  @torch_load example_torch example_files fs' p = Ok obj.
Proof. intros [= <-]. cbn. by rewrite lookup_insert_eq. Qed.

Lemma example_files_write_elsewhere fs p config fs' q :
  @write_json example_torch example_files fs p config = (fs', Ok ()) -> q <> p ->
  @torch_load example_torch example_files fs' q
  = @torch_load example_torch example_files fs q.
Proof. intros [= <-] Hne. cbn. by rewrite lookup_insert_ne. Qed.

Lemma example_files_load_after_write fs p config fs' :
  @write_json example_torch example_files fs p config = (fs', Ok ()) ->
  exists e, @torch_load example_torch example_files fs' p = Raise e.
Proof. intros [= <-]. exists RuntimeError. cbn. by rewrite lookup_insert_eq. Qed.

Lemma X24_witness :
  let saved := @OnDisk.save_model example_torch example_files
                 (example_agent 5 4 3) "models/agent.pth" ∅ in
  snd saved = Ok ()
  /\ snd (@OnDisk.load_model example_torch example_files
            (example_agent 0 4 3) "models/agent.pth" (fst (fst saved)))
     = Ok ()
  /\ snd (@OnDisk.save_model example_torch example_files
            (example_agent 5 4 3) "agent.pth" ∅)
     = Raise FileNotFoundError.
Proof.
  intros saved.
  assert (Hsaved : saved = (fst (fst saved), snd (fst saved), Ok ())) by reflexivity.
  split; [reflexivity|]. split.
  - destruct (@X24_save_then_load example_torch example_files
                example_files_makedirs example_files_load_after_save
                example_files_write_elsewhere example_files_load_after_write
                (example_agent 0 4 3) (example_agent 5 4 3) 0
                "models/agent.pth" ∅
                (example_agent_well_formed 0 4 3) (example_agent_well_formed 5 4 3)
                eq_refl eq_refl eq_refl)
      as [_ Hround].
    destruct (Hround _ _ Hsaved) as (_ & _ & Hload).
    destruct (Hload eq_refl) as (-> & _). reflexivity.
  - apply (@X24_save_then_load example_torch example_files
             example_files_makedirs example_files_load_after_save
             example_files_write_elsewhere example_files_load_after_write
             (example_agent 0 4 3) (example_agent 5 4 3) 0
             "agent.pth" ∅
             (example_agent_well_formed 0 4 3) (example_agent_well_formed 5 4 3)
             eq_refl eq_refl eq_refl).
    reflexivity.
Defined.
